(** * Latency monitoring of the MapleStory Discord bot

    A shallow embedding of the ping monitor of the bot:
    - [src/utils/ping_utils.py]: the [Packet] sample, the table of
      channels and the sampler thread [PingCheckingThread];
    - [src/commands/monitoring_commands.py]: the module-level monitoring
      state, the [/ping] and [/ping_graph] commands, the alert check, the
      thread supervisor and the statistics helpers;
    - [src/core/tasks.py]: the [TaskManager] copy of the alert check and of
      the supervisor, and the GPQ reminder [_send_reminder];
    - [src/utils/time_utils.py]: the weeks of the reminder;
    - [src/utils/legacy_utils.py]: [batch_list].

    Python values are modelled as the interpreter has them: integers as [Z],
    floats as binary64 primitive floats, [datetime] readings as [Z], a
    [collections.deque] with [maxlen] as a bounded list, a [dict] whose
    iteration order matters as an insertion-ordered association list, a
    [dict] that is only indexed as a [gmap], an exception as a [Raise]
    outcome of a state-and-exception monad.

    Threads are interleaved between the steps modelled here (one sampler
    iteration, one command, one sweep), never within one.  What a command
    sends to Discord is the value it returns; of the log only the records
    of the sweep are kept, and the scheduling of the periodic tasks is left
    out. *)

From Stdlib Require Import ZArith List Bool Lia Floats String.
From stdpp Require Import base option list gmap.

Local Open Scope Z_scope.

(** ** Exceptions and outcomes *)

Inductive exn : Set :=
| KeyError
| TypeError
| ValueError
| OverflowError
| StatisticsError.

Inductive result (A : Type) : Type :=
| Ok (a : A)
| Raise (e : exn).

Arguments Ok {A} a.
Arguments Raise {A} e.

Definition is_ok {A} (r : result A) : bool :=
  match r with Ok _ => true | Raise _ => false end.

(** ** Python numbers

    What the monitor uses of Python's arithmetic: [int / int], [int(x)],
    [round(x, 2)], comparison of a float with an integer literal, and
    [statistics.mean] and [statistics.stdev] on lists of integers (CPython
    3.11, [Lib/statistics.py]).  An [int] result of [statistics.mean] or of
    [round] is kept as the float of the same value. *)

Module PyNum.

Definition bit_length (n : Z) : Z :=
  if n =? 0 then 0 else Z.log2 (Z.abs n) + 1.

(** [a / b] on integers, [b <> 0]: the quotient rounded once, to the
    nearest binary64, ties to even. *)
Definition int_truediv (a b : Z) : float :=
  let s := xorb (a <? 0) (b <? 0) in
  let n := Z.abs a in
  let d := Z.abs b in
  let k := Z.max 0 (bit_length d - bit_length n + 55) in
  let (q, r) := Z.div_eucl (n * 2 ^ k) d in
  let l := if r =? 0 then loc_Exact else loc_Inexact (2 * r ?= d) in
  SF2Prim (binary_round_aux prec emax s q (- k) l).

Definition float_of_int (n : Z) : float := int_truediv n 1.

(** [int(x)]: truncation towards zero. *)
Definition int_of_float (x : float) : result Z :=
  match Prim2SF x with
  | S754_zero _ => Ok 0
  | S754_finite s m e =>
      let v := Z.shiftl (Zpos m) e in
      Ok (if s then - v else v)
  | S754_infinity _ => Raise OverflowError
  | S754_nan => Raise ValueError
  end.

(** Nearest integer to [n / d] for [0 <= n] and [0 < d], ties to even. *)
Definition round_half_even (n d : Z) : Z :=
  let (q, r) := Z.div_eucl n d in
  match 2 * r ?= d with
  | Lt => q
  | Gt => q + 1
  | Eq => if Z.even q then q else q + 1
  end.

(** The number of hundredths nearest to the exact value of a float. *)
Definition hundredths (x : float) : option Z :=
  match Prim2SF x with
  | S754_zero _ => Some 0
  | S754_finite s m e =>
      let h := if 0 <=? e then 100 * Zpos m * 2 ^ e
               else round_half_even (100 * Zpos m) (2 ^ (- e)) in
      Some (if s then - h else h)
  | _ => None
  end.

(** [round(x, 2)]: the decimal with two places nearest to [x], ties to
    even, converted back to the nearest float. *)
Definition round2 (x : float) : float :=
  match hundredths x with
  | Some h => int_truediv h 100
  | None => x
  end.

(** [x > n] for a float [x] and an integer literal [n]. *)
Definition gt_int (x : float) (n : Z) : bool :=
  PrimFloat.ltb (float_of_int n) x.

Definition sum (data : list Z) : Z := fold_right Z.add 0 data.

Definition sum_sq (data : list Z) : Z :=
  fold_right (fun x acc => x * x + acc) 0 data.

(** [statistics.mean(data)]: the exact mean converted to a float. *)
Definition mean (data : list Z) : result float :=
  match data with
  | [] => Raise StatisticsError
  | _ => Ok (int_truediv (sum data) (Z.of_nat (length data)))
  end.

Definition _integer_sqrt_of_frac_rto (n m : Z) : Z :=
  let a := Z.sqrt (n / m) in
  Z.lor a (if a * a * m =? n then 0 else 1).

Definition _sqrt_bit_width : Z := 2 * 53 + 3.

Definition _float_sqrt_of_frac (n m : Z) : float :=
  let q := (bit_length n - bit_length m - _sqrt_bit_width) / 2 in
  if 0 <=? q
  then int_truediv
         (Z.shiftl (_integer_sqrt_of_frac_rto n (Z.shiftl m (2 * q))) q) 1
  else int_truediv
         (_integer_sqrt_of_frac_rto (Z.shiftl n (- 2 * q)) m)
         (Z.shiftl 1 (- q)).

(** [statistics.stdev(data)]: the exact sum of squared deviations
    [(n * sxx - sx * sx) / n] over [n - 1], in lowest terms, then its
    square root as a float. *)
Definition stdev (data : list Z) : result float :=
  let n := Z.of_nat (length data) in
  if n <? 2 then Raise StatisticsError
  else
    let num := n * sum_sq data - sum data * sum data in
    let den := n * (n - 1) in
    let g := Z.gcd num den in
    Ok (_float_sqrt_of_frac (num / g) (den / g)).

End PyNum.

(** ** [src/utils/ping_utils.py] *)

(** A [datetime] value, as a count of clock ticks. *)
Definition datetime : Set := Z.

(** The identity of a queue object: two references denote the same queue
    exactly when they are equal. *)
Definition qref : Set := nat.

Module ping_utils.

Definition DEFAULT_PORT : Z := 8585.

Definition MAX_QUEUE_SIZE : Z := 40 * 300.

Record Packet : Set := {
  channel : Z;
  ping : Z;
  time : datetime;
  success : bool
}.

Definition CHANNEL_TO_IP : list (Z * string) :=
  [ (1, "35.155.204.207"); (2, "52.26.82.74"); (3, "34.217.205.66");
    (4, "35.161.183.101"); (5, "54.218.157.183"); (6, "52.25.78.39");
    (7, "54.68.160.34"); (8, "34.218.141.142"); (9, "52.33.249.126");
    (10, "54.148.170.23"); (11, "54.201.184.26"); (12, "54.191.142.56");
    (13, "52.13.185.207"); (14, "34.215.228.37"); (15, "54.187.177.143");
    (16, "54.203.83.148"); (17, "54.148.188.235"); (18, "52.43.83.76");
    (19, "54.69.114.137"); (20, "54.148.137.49"); (21, "54.212.109.33");
    (22, "44.230.255.51"); (23, "100.20.116.83"); (24, "54.188.84.22");
    (25, "34.215.170.50"); (26, "54.184.162.28"); (27, "54.185.209.29");
    (28, "52.12.53.225"); (29, "54.189.33.238"); (30, "54.188.84.238");
    (31, "44.234.162.14"); (32, "44.234.162.13"); (33, "44.234.161.92");
    (34, "44.234.161.48"); (35, "44.234.160.137"); (36, "44.234.161.28");
    (37, "44.234.162.100"); (38, "44.234.161.69"); (39, "44.234.162.145");
    (40, "44.234.162.130") ]%string.

(** The attributes [__init__] sets, and whether the thread is running
    ([threading.Thread.is_alive]). *)
Record PingCheckingThread : Set := {
  _result_queue : qref;
  _ip_addr : string;
  _port : Z;
  _channel : Z;
  _handled : bool;
  is_alive : bool
}.

End ping_utils.

Export ping_utils.

(** ** Dictionaries in insertion order *)

Section Dict.
Context {V : Type}.

Definition dict : Type := list (Z * V).

Fixpoint dict_get (k : Z) (d : dict) : option V :=
  match d with
  | [] => None
  | (k', v) :: d' => if k' =? k then Some v else dict_get k d'
  end.

(** [d[k] = v]: a key already present keeps its position. *)
Fixpoint dict_set (k : Z) (v : V) (d : dict) : dict :=
  match d with
  | [] => [(k, v)]
  | (k', v') :: d' =>
      if k' =? k then (k, v) :: d' else (k', v') :: dict_set k v d'
  end.

Definition keys (d : dict) : list Z := map fst d.
End Dict.

Arguments dict V : clear implicits.

(** ** [collections.deque] with [maxlen] *)

Record deque : Set := {
  items : list Packet;
  maxlen : nat
}.

Definition deque_new (maxlen : nat) : deque :=
  {| items := []; maxlen := maxlen |}.

(** [d.append(p)]: the packet goes to the right end; a deque longer than
    [maxlen] then loses its leftmost element. *)
Definition deque_append (d : deque) (p : Packet) : deque :=
  let l := items d ++ [p] in
  {| items := if (maxlen d <? length l)%nat then tail l else l;
     maxlen := maxlen d |}.

(** ** The state of the process

    The four monitoring variables (module globals of
    [monitoring_commands.py], attributes of a [TaskManager]), the queue
    objects they and the threads refer to, and the wall clock. *)

Record state : Type := {
  queue : option qref;
  ping_checking_threads : list PingCheckingThread;
  channel_ping_history : gmap Z deque;
  channel_ping_averages : dict (float * float);
  queues : gmap qref (list Packet);
  clock : datetime
}.

Definition set_queue (q : option qref) (s : state) : state :=
  {| queue := q;
     ping_checking_threads := ping_checking_threads s;
     channel_ping_history := channel_ping_history s;
     channel_ping_averages := channel_ping_averages s;
     queues := queues s;
     clock := clock s |}.

Definition set_threads (l : list PingCheckingThread) (s : state) : state :=
  {| queue := queue s;
     ping_checking_threads := l;
     channel_ping_history := channel_ping_history s;
     channel_ping_averages := channel_ping_averages s;
     queues := queues s;
     clock := clock s |}.

Definition set_history (h : gmap Z deque) (s : state) : state :=
  {| queue := queue s;
     ping_checking_threads := ping_checking_threads s;
     channel_ping_history := h;
     channel_ping_averages := channel_ping_averages s;
     queues := queues s;
     clock := clock s |}.

Definition set_averages (a : dict (float * float)) (s : state) : state :=
  {| queue := queue s;
     ping_checking_threads := ping_checking_threads s;
     channel_ping_history := channel_ping_history s;
     channel_ping_averages := a;
     queues := queues s;
     clock := clock s |}.

Definition set_queues (qs : gmap qref (list Packet)) (s : state) : state :=
  {| queue := queue s;
     ping_checking_threads := ping_checking_threads s;
     channel_ping_history := channel_ping_history s;
     channel_ping_averages := channel_ping_averages s;
     queues := qs;
     clock := clock s |}.

Definition set_clock (t : datetime) (s : state) : state :=
  {| queue := queue s;
     ping_checking_threads := ping_checking_threads s;
     channel_ping_history := channel_ping_history s;
     channel_ping_averages := channel_ping_averages s;
     queues := queues s;
     clock := t |}.

(** ** State and exceptions *)

Definition M (A : Type) : Type := state -> result A * state.

Definition ret {A} (a : A) : M A := fun s => (Ok a, s).

Definition bind {A B} (m : M A) (f : A -> M B) : M B :=
  fun s =>
    match m s with
    | (Ok a, s') => f a s'
    | (Raise e, s') => (Raise e, s')
    end.

Definition lift {A} (r : result A) : M A := fun s => (r, s).

Definition get_state : M state := fun s => (Ok s, s).

Definition modify (f : state -> state) : M unit := fun s => (Ok tt, f s).

(** [try: m except Exception: pass]. *)
Definition try_except (m : M unit) : M unit :=
  fun s =>
    match m s with
    | (Ok a, s') => (Ok a, s')
    | (Raise _, s') => (Ok tt, s')
    end.

Declare Scope py_scope.
Delimit Scope py_scope with py.
Notation "x <- m ;; k" := (bind m (fun x => k))
  (at level 100, m at next level, right associativity) : py_scope.
Notation "m ;; k" := (bind m (fun _ => k))
  (at level 100, right associativity) : py_scope.
Local Open Scope py_scope.

(** [for x in l: body(x)]. *)
Fixpoint for_each {A} (l : list A) (body : A -> M unit) : M unit :=
  match l with
  | [] => ret tt
  | x :: l' => body x ;; for_each l' body
  end.

(** ** The queue objects ([multiprocessing] queues: first in, first out,
    no size limit of their own) *)

Definition pending (r : qref) (s : state) : list Packet :=
  default [] (queues s !! r).

Definition qsize (r : qref) (s : state) : Z :=
  Z.of_nat (length (pending r s)).

Definition put (r : qref) (p : Packet) : M unit :=
  modify (fun s => set_queues (<[r := pending r s ++ [p]]> (queues s)) s).

(** [while q.qsize() > MAX_QUEUE_SIZE: q.get()], on the pending packets of
    [q], oldest first. *)
Fixpoint drop_excess (l : list Packet) {struct l} : list Packet :=
  if MAX_QUEUE_SIZE <? Z.of_nat (length l)
  then match l with
       | [] => []
       | _ :: l' => drop_excess l'
       end
  else l.

(** ** The sampler: [PingCheckingThread.run] *)

(** What one turn of the loop gets from outside: the time that passed since
    the turn before (the two sleeps and the connection attempt) and the
    list [measure_latency] returned: the latency in milliseconds of each run
    that connected.  [tcp_latency] is no part of the repository; a release
    of it that lists a run that did not connect lists it as [None]. *)
Record probe : Set := {
  elapsed : Z;
  latency : list (option float)
}.

Definition set_alive (b : bool) (t : PingCheckingThread) : PingCheckingThread :=
  {| _result_queue := _result_queue t;
     _ip_addr := _ip_addr t;
     _port := _port t;
     _channel := _channel t;
     _handled := _handled t;
     is_alive := b |}.

Definition set_handled (b : bool) (t : PingCheckingThread) : PingCheckingThread :=
  {| _result_queue := _result_queue t;
     _ip_addr := _ip_addr t;
     _port := _port t;
     _channel := _channel t;
     _handled := b;
     is_alive := is_alive t |}.

(** [ping = 0; success = False; if latency: ping = int(latency[0]);
    success = True]: a list is true when it is not empty, and [int(None)]
    is a [TypeError]. *)
Definition measured (latency : list (option float)) : result (Z * bool) :=
  match latency with
  | [] => Ok (0, false)
  | Some x :: _ =>
      match PyNum.int_of_float x with
      | Ok n => Ok (n, true)
      | Raise e => Raise e
      end
  | None :: _ => Raise TypeError
  end.

(** The body of the [while True] loop. *)
Definition run_body (self : PingCheckingThread) (pr : probe) : M unit :=
  modify (fun s => set_clock (clock s + elapsed pr) s) ;;
  m <- lift (measured (latency pr)) ;;
  s <- get_state ;;
  let packet := {| channel := _channel self; ping := fst m;
                   time := clock s; success := snd m |} in
  let q := _result_queue self in
  modify (fun s => set_queues (<[q := drop_excess (pending q s)]> (queues s)) s) ;;
  put q packet.

(** [run]: the loop goes on until an exception leaves its body, which ends
    the thread.  The result is the thread after the given probes. *)
Fixpoint run (self : PingCheckingThread) (probes : list probe) (s : state)
  : PingCheckingThread * state :=
  match probes with
  | [] => (self, s)
  | pr :: rest =>
      match run_body self pr s with
      | (Ok _, s') => run self rest s'
      | (Raise _, s') => (set_alive false self, s')
      end
  end.

(** ** Draining the queue into the history

    [while queue.qsize() != 0: packet = queue.get();
    channel_ping_history[packet.channel].append(packet)] *)

Definition history_append (p : Packet) : M unit :=
  fun s =>
    match channel_ping_history s !! channel p with
    | None => (Raise KeyError, s)
    | Some d =>
        (Ok tt,
         set_history (<[channel p := deque_append d p]> (channel_ping_history s)) s)
    end.

Fixpoint drain_packets (q : qref) (l : list Packet) : M unit :=
  match l with
  | [] => ret tt
  | p :: rest =>
      modify (fun s => set_queues (<[q := rest]> (queues s)) s) ;;
      history_append p ;;
      drain_packets q rest
  end.

Definition drain (q : qref) : M unit :=
  s <- get_state ;; drain_packets q (pending q s).

(** ** Statistics of one channel *)

Definition stats : Type := float * float.

(** [[packet.ping for packet in window if packet.success]] *)
Definition successful_pings (d : deque) : list Z :=
  map ping (filter (fun p => success p) (items d)).

(** [[packet.ping for packet in window]] *)
Definition all_pings (d : deque) : list Z := map ping (items d).

(** [(round(statistics.mean(pings), 2), round(statistics.stdev(pings), 2))] *)
Definition mean_and_stdev (pings : list Z) : result stats :=
  match PyNum.mean pings with
  | Raise e => Raise e
  | Ok m =>
      match PyNum.stdev pings with
      | Raise e => Raise e
      | Ok sd => Ok (PyNum.round2 m, PyNum.round2 sd)
      end
  end.

(** The body of [for channel in CHANNEL_TO_IP.keys()], with the list
    comprehension that selects the pings as a parameter. *)
Definition update_average (select : deque -> list Z) (channel : Z) : M unit :=
  s <- get_state ;;
  match channel_ping_history s !! channel with
  | None => lift (Raise KeyError)
  | Some d =>
      let pings := select d in
      if (length pings =? 0)%nat then ret tt
      else
        st <- lift (mean_and_stdev pings) ;;
        modify (fun s => set_averages (dict_set channel st (channel_ping_averages s)) s)
  end.

Definition update_averages (select : deque -> list Z) : M unit :=
  for_each (keys CHANNEL_TO_IP) (update_average select).

(** ** [sorted(d.items(), key=..., reverse=True)]

    The sort is stable: of two items with equal keys the one that comes
    first in [d] comes first in the result. *)

Definition item : Type := Z * stats.

Fixpoint insert_desc (key : item -> float) (x : item) (l : list item) : list item :=
  match l with
  | [] => [x]
  | y :: l' =>
      if PrimFloat.ltb (key x) (key y) then y :: insert_desc key x l'
      else x :: l
  end.

Definition sorted_desc (key : item -> float) (l : list item) : list item :=
  fold_right (insert_desc key) [] l.

Fixpoint insert_asc (key : item -> float) (x : item) (l : list item) : list item :=
  match l with
  | [] => [x]
  | y :: l' =>
      if PrimFloat.ltb (key y) (key x) then y :: insert_asc key x l'
      else x :: l
  end.

Definition sorted_asc (key : item -> float) (l : list item) : list item :=
  fold_right (insert_asc key) [] l.

Definition avg_of (x : item) : float := fst (snd x).
Definition std_of (x : item) : float := snd (snd x).

(** The two threshold loops of the alert check:
    [for ping in highest_avg_ping: if ping[1][0] > 200: high_ping = True; break]
    and the same for [ping[1][1] > 100]. *)
Fixpoint any_above (key : item -> float) (threshold : Z) (l : list item) : bool :=
  match l with
  | [] => false
  | x :: l' => if PyNum.gt_int (key x) threshold then true else any_above key threshold l'
  end.

Definition check_thresholds (averages : dict stats) : bool * bool :=
  let highest_avg_ping := sorted_desc avg_of averages in
  let highest_std_dev := sorted_desc std_of averages in
  (any_above avg_of 200 highest_avg_ping, any_above std_of 100 highest_std_dev).

(** [if high_ping or high_std_dev:] the notification is sent. *)
Definition alert (averages : dict stats) : bool :=
  let (high_ping, high_std_dev) := check_thresholds averages in
  high_ping || high_std_dev.

(** ** The supervisor's sweep

    The body shared by [check_threads_and_restart] of
    [monitoring_commands.py] and of [TaskManager]: dead threads are marked
    [_handled] and leave the list, and each of their channels gets a new
    thread on the queue [q]. *)

Definition mark_dead (t : PingCheckingThread) : PingCheckingThread :=
  if is_alive t then t else set_handled true t.

Definition new_thread (q : qref) (channel : Z) (ip_addr : string) : PingCheckingThread :=
  {| _result_queue := q;
     _ip_addr := ip_addr;
     _port := DEFAULT_PORT;
     _channel := channel;
     _handled := false;
     is_alive := true |}.

(** [PingCheckingThread(result_queue=q, channel=channel,
    ip_addr=CHANNEL_TO_IP[channel], port=DEFAULT_PORT)], started and
    appended. *)
Definition spin_up (q : qref) (channel : Z) : M unit :=
  match dict_get channel CHANNEL_TO_IP with
  | None => lift (Raise KeyError)
  | Some ip_addr =>
      modify (fun s =>
        set_threads (ping_checking_threads s ++ [new_thread q channel ip_addr]) s)
  end.

Definition restart_dead_threads (q : qref) : M unit :=
  s <- get_state ;;
  let threads := ping_checking_threads s in
  let dead_thread_channels :=
    map _channel (filter (fun t => negb (is_alive t)) threads) in
  modify (set_threads
            (filter (fun t => negb (_handled t)) (map mark_dead threads))) ;;
  for_each dead_thread_channels (spin_up q).

(** ** [src/commands/monitoring_commands.py] *)

Module monitoring_commands.

(** The fields of the [/ping] embed: four sections of at most five
    channels each. *)
Record embed : Type := {
  highest_average_ping : list item;
  highest_standard_deviation : list item;
  lowest_average_pings : list item;
  lowest_standard_deviations : list item
}.

Inductive reply : Type :=
| NoPingData (channel : Z)
| Graph (channel : Z) (channel_times : list datetime) (channel_pings : list Z).

(** [while queue and queue.qsize() != 0: ...] *)
Definition process_pending : M unit :=
  s <- get_state ;;
  match queue s with
  | Some q => drain q
  | None => ret tt
  end.

(** The embed, from [channel_ping_averages]: [l[:5]] and [l[::-1][:5]] of
    the two sorted lists. *)
Definition embed_of (averages : dict stats) : embed :=
  let highest_avg_ping := sorted_desc avg_of averages in
  let highest_std_dev := sorted_desc std_of averages in
  {| highest_average_ping := take 5 highest_avg_ping;
     highest_standard_deviation := take 5 highest_std_dev;
     lowest_average_pings := take 5 (rev highest_avg_ping);
     lowest_standard_deviations := take 5 (rev highest_std_dev) |}.

Definition handle_ping_command : M embed :=
  process_pending ;;
  update_averages successful_pings ;;
  s <- get_state ;;
  ret (embed_of (channel_ping_averages s)).

Definition handle_ping_graph_command (channel : Z) : M reply :=
  process_pending ;;
  s <- get_state ;;
  let window :=
    match channel_ping_history s !! channel with
    | Some d => items d
    | None => []
    end in
  let channel_pings := map ping (filter (fun p => success p) window) in
  let channel_times := map time (filter (fun p => success p) window) in
  match channel_pings with
  | [] => ret (NoPingData channel)
  | _ => ret (Graph channel channel_times channel_pings)
  end.

(** The result tells whether the notification is sent. *)
Definition check_ping_and_notify : M bool :=
  s <- get_state ;;
  match queue s with
  | None => ret false
  | Some q =>
      drain q ;;
      update_averages successful_pings ;;
      s <- get_state ;;
      ret (alert (channel_ping_averages s))
  end.

Definition check_threads_and_restart : M unit :=
  s <- get_state ;;
  match queue s with
  | None => ret tt
  | Some q => restart_dead_threads q
  end.

(** [m.Queue()] makes a queue object that no reference denotes yet. *)
Definition initialize_monitoring : M unit :=
  s <- get_state ;;
  let q : qref := fresh (dom (queues s)) in
  modify (fun s => set_queue (Some q) (set_queues (<[q := []]> (queues s)) s)) ;;
  modify (set_threads []) ;;
  modify (set_history ∅) ;;
  for_each CHANNEL_TO_IP (fun entry =>
    let channel := fst entry in
    let ip_addr := snd entry in
    modify (fun s =>
      set_history (<[channel := deque_new 150]> (channel_ping_history s))
        (set_threads (ping_checking_threads s ++ [new_thread q channel ip_addr]) s))).

Definition cleanup_monitoring : M unit :=
  modify (set_threads []) ;;
  modify (set_history ∅) ;;
  modify (set_averages []).

Definition get_channel_statistics (channel : Z) (s : state)
  : result (option (float * float * nat)) :=
  match channel_ping_history s !! channel with
  | None => Ok None
  | Some d =>
      let pings := successful_pings d in
      match pings with
      | [] => Ok None
      | _ =>
          match PyNum.mean pings with
          | Raise e => Raise e
          | Ok m =>
              let avg_ping := PyNum.round2 m in
              if (1 <? length pings)%nat
              then match PyNum.stdev pings with
                   | Raise e => Raise e
                   | Ok sd => Ok (Some (avg_ping, PyNum.round2 sd, length pings))
                   end
              else Ok (Some (avg_ping, 0%float, length pings))
          end
      end
  end.

Definition get_best_channels (count : nat) (s : state) : list item :=
  take count (sorted_asc avg_of (channel_ping_averages s)).

Definition get_most_stable_channels (count : nat) (s : state) : list item :=
  take count (sorted_asc std_of (channel_ping_averages s)).

End monitoring_commands.

(** ** [src/core/tasks.py]: the monitoring part of [TaskManager] *)

Module TaskManager.

(** [__init__]: an empty window of 150 packets for every channel, no queue
    and no thread yet. *)
Definition __init__ : M unit :=
  modify (set_threads []) ;;
  modify (set_history ∅) ;;
  modify (set_averages []) ;;
  modify (set_queue None) ;;
  for_each (keys CHANNEL_TO_IP) (fun channel =>
    modify (fun s =>
      set_history (<[channel := deque_new 150]> (channel_ping_history s)) s)).

Definition initialize_ping_monitoring (q : qref) : M unit :=
  modify (set_queue (Some q)) ;;
  for_each CHANNEL_TO_IP (fun entry =>
    modify (fun s =>
      set_threads (ping_checking_threads s
                   ++ [new_thread q (fst entry) (snd entry)]) s)).

(** The statistics are taken over every packet of the window; an
    exception raised on the way is logged and ends the check.  The result
    tells whether the notification is sent. *)
Definition check_ping_and_notify : M bool :=
  s <- get_state ;;
  match queue s with
  | None => ret false
  | Some q =>
      fun s =>
        match (drain q ;; update_averages all_pings) s with
        | (Raise _, s') => (Ok false, s')
        | (Ok _, s') => (Ok (alert (channel_ping_averages s')), s')
        end
  end.

Definition check_threads_and_restart : M unit :=
  s <- get_state ;;
  match queue s with
  | None => ret tt
  | Some q => try_except (restart_dead_threads q)
  end.

End TaskManager.

(** ** [src/utils/time_utils.py]

    In this module a [datetime] counts the microseconds since
    0001-01-01T00:00:00, the first instant a [datetime] can hold; that day
    is a Monday.  The bot runs in UTC, so that [now] below stands for
    [datetime.now(timezone.utc)]. *)

Module time_utils.

Definition MICROSECONDS_PER_DAY : Z := 24 * 60 * 60 * 1000000.

(** The first count that is no [datetime]: the midnight that ends
    9999-12-31, the day of ordinal 3652059. *)
Definition END_OF_TIME : Z := 3652059 * MICROSECONDS_PER_DAY.

(** [date.weekday()]: Monday is 0 and Sunday is 6. *)
Definition weekday (date : datetime) : Z :=
  (date / MICROSECONDS_PER_DAY) mod 7.

(** [timedelta(days=n)] *)
Definition timedelta_days (n : Z) : result Z :=
  if Z.abs n <=? 999999999 then Ok n else Raise OverflowError.

(** [date + timedelta(days=n)] *)
Definition add_days (date : datetime) (n : Z) : result datetime :=
  let t := date + n * MICROSECONDS_PER_DAY in
  if (0 <=? t) && (t <? END_OF_TIME) then Ok t else Raise OverflowError.

(** [date.replace(hour=0, minute=0, second=0, microsecond=0)] *)
Definition midnight (date : datetime) : datetime :=
  date - date mod MICROSECONDS_PER_DAY.

Definition get_next_weekday_midnight (date : datetime) (weekday_ : Z)
  : result datetime :=
  let num_days := (weekday_ - weekday date) mod 7 in
  let num_days := if num_days =? 0 then 7 else num_days in
  match add_days date num_days with
  | Ok next_weekday => Ok (midnight next_weekday)
  | Raise e => Raise e
  end.

Definition get_current_datetime (now : datetime) : result datetime :=
  get_next_weekday_midnight now 3.

Definition get_week_ago (now : datetime) (num_week_ago : Z) : result datetime :=
  match get_current_datetime now with
  | Ok current =>
      match timedelta_days (7 * num_week_ago) with
      | Ok days => add_days current (- days)
      | Raise e => Raise e
      end
  | Raise e => Raise e
  end.

(** [(next_wednesday - now).total_seconds()]: the microseconds between
    the two, divided by [10**6]. *)
Definition get_seconds_until_reminder (now : datetime) : result float :=
  match get_next_weekday_midnight now 2 with
  | Ok next_wednesday =>
      Ok (PyNum.int_truediv (next_wednesday - now) (10 ^ 6))
  | Raise e => Raise e
  end.

End time_utils.

(** ** [src/utils/legacy_utils.py] *)

Module legacy_utils.

(** An index of a slice, brought into the bounds of a list of length
    [n]: a negative index counts from the end. *)
Definition slice_index (n i : Z) : Z :=
  if i <? 0 then Z.max 0 (i + n) else Z.min i n.

(** [data[start:stop]] *)
Definition slice {A} (data : list A) (start stop : Z) : list A :=
  let n := Z.of_nat (length data) in
  let a := slice_index n start in
  let b := slice_index n stop in
  take (Z.to_nat (b - a)) (drop (Z.to_nat a) data).

(** [batch_list(data, batch_size)]; [None] stands for the
    [ZeroDivisionError] of [// batch_size]. *)
Definition batch_list {A} (data : list A) (batch_size : Z)
  : option (list (list A)) :=
  if batch_size =? 0 then None
  else
    let num_batches := (Z.of_nat (length data) + batch_size - 1) / batch_size in
    Some (map (fun i => slice data (i * batch_size) ((i + 1) * batch_size))
            (seqZ 0 num_batches)).

End legacy_utils.

(** ** The reminder: [TaskManager._send_reminder] of [src/core/tasks.py]
    and [send_reminder] of [src/commands/gpq_commands.py]

    Both take the players of the server with their scores of the week
    from the database, and send their messages to the target. *)

Module reminder.

(** Of a player the reminder reads the Discord id. *)
Record Player : Set := {
  discord_id : option string
}.

Inductive outcome : Set :=
| Returned
| ZeroDivisionError
| NameError (name : string).

(** [score is None or score == 0] *)
Definition no_score (score : option Z) : bool :=
  match score with
  | None => true
  | Some n => n =? 0
  end.

(** [set.add(x)], on a set kept as the list of its elements without
    repetition; the order in which Python goes through a set is not
    modelled. *)
Definition add (x : string) (set : list string) : list string :=
  if existsb (String.eqb x) set then set else set ++ [x].

(** The loop that fills [missing_users]; [if player.discord_id:] holds
    for an id that is neither [None] nor the empty string. *)
Fixpoint missing_users (rows : list (Player * option Z)) (set : list string)
  : list string :=
  match rows with
  | [] => set
  | (player, score) :: rest =>
      if no_score score
      then match discord_id player with
           | Some id =>
               if String.eqb id "" then missing_users rest set
               else missing_users rest (add id set)
           | None => missing_users rest set
           end
      else missing_users rest set
  end.

(** The messages sent to the target, oldest first, and how the call
    ends.  The name [last_week_cells] in
    [sum_cell_scores(last_week_cells)] is bound nowhere: it is no local of
    the function, no global of its module and no builtin. *)
Definition _send_reminder
  (server_players_with_scores : list (Player * option Z)) (mention : bool)
  : list string * outcome :=
  let missing := missing_users server_players_with_scores [] in
  if (length missing =? 0)%nat
  then (["Everyone has done GPQ this week?!"%string], Returned)
  else
    let users_as_mentions :=
      map (fun x => if mention then ("<@" ++ x ++ ">")%string else x) missing in
    match legacy_utils.batch_list users_as_mentions 50 with
    | None => ([], ZeroDivisionError)
    | Some batches => ([], NameError "last_week_cells")
    end.

End reminder.

(** ** The log of the sweep

    [logger.error] and [logger.info] make a record that carries the time
    of the call; the format that [logging.basicConfig] of [ping_utils.py]
    sets up writes it out as [%(asctime)s] in front of the message.  The
    sweeps of [monitoring_commands.py] and of [TaskManager], with the
    records they make, oldest first. *)

Module with_log.

Inductive levelname : Set :=
| INFO
| ERROR.

Inductive log_message : Set :=
| Thread_is_dead (channel : Z)
| Spinning_up_new_thread (channel : Z)
| Error_in_check_threads_and_restart (e : exn).

Record LogRecord : Set := {
  asctime : datetime;
  level : levelname;
  message : log_message
}.

Definition logged (A : Type) : Type := (result A * state) * list LogRecord.

(** [for channel in dead_thread_channels:
    logger.info(f"Spinning up new thread for channel {channel}"); ...] *)
Fixpoint spin_up_each (q : qref) (channels : list Z) (s : state) : logged unit :=
  match channels with
  | [] => ((Ok tt, s), [])
  | channel :: rest =>
      let record := {| asctime := clock s; level := INFO;
                       message := Spinning_up_new_thread channel |} in
      match spin_up q channel s with
      | (Ok _, s') =>
          let (outcome, records) := spin_up_each q rest s' in
          (outcome, record :: records)
      | (Raise e, s') => ((Raise e, s'), [record])
      end
  end.

Definition restart_dead_threads (q : qref) (s : state) : logged unit :=
  let threads := ping_checking_threads s in
  let dead := filter (fun t => negb (is_alive t)) threads in
  let errors :=
    map (fun t => {| asctime := clock s; level := ERROR;
                     message := Thread_is_dead (_channel t) |}) dead in
  let s1 := set_threads
              (filter (fun t => negb (_handled t)) (map mark_dead threads)) s in
  let (outcome, records) := spin_up_each q (map _channel dead) s1 in
  (outcome, errors ++ records).

(** [check_threads_and_restart] of [monitoring_commands.py] *)
Definition check_threads_and_restart (s : state) : logged unit :=
  match queue s with
  | None => ((Ok tt, s), [])
  | Some q => restart_dead_threads q s
  end.

(** [TaskManager.check_threads_and_restart]: an exception is logged. *)
Definition TaskManager_check_threads_and_restart (s : state) : logged unit :=
  match queue s with
  | None => ((Ok tt, s), [])
  | Some q =>
      match restart_dead_threads q s with
      | ((Ok _, s'), records) => ((Ok tt, s'), records)
      | ((Raise e, s'), records) =>
          ((Ok tt, s'),
           records ++ [{| asctime := clock s'; level := ERROR;
                          message := Error_in_check_threads_and_restart e |}])
      end
  end.

End with_log.

(** * The vocabulary of the statements *)

(** ** Windows and histories *)

(** The last [n] elements of a list, in their order. *)
Definition last_n {A} (n : nat) (l : list A) : list A :=
  drop (length l - n) l.

(** The window after a series of appends. *)
Definition appended (d : deque) (l : list Packet) : deque :=
  fold_left deque_append l d.

(** The history after the packets [l] were appended to their windows. *)
Definition ingest_one (h : gmap Z deque) (p : Packet) : gmap Z deque :=
  match h !! channel p with
  | Some d => <[channel p := deque_append d p]> h
  | None => h
  end.

Definition ingest (l : list Packet) (h : gmap Z deque) : gmap Z deque :=
  fold_left ingest_one l h.

(** The packets of one channel, in their order. *)
Definition of_channel (c : Z) (l : list Packet) : list Packet :=
  filter (fun p => channel p = c) l.

(** The channel of the packet has a window. *)
Definition known_channel (s : state) (p : Packet) : Prop :=
  is_Some (channel_ping_history s !! channel p).

Definition failed (p : Packet) : Prop := success p = false.

(** The packets on the queue the module refers to, if any. *)
Definition to_process (s : state) : list Packet :=
  match queue s with
  | Some q => pending q s
  | None => []
  end.

(** The window of a channel, as [channel_ping_history.get(channel, [])]. *)
Definition window (c : Z) (s : state) : list Packet :=
  match channel_ping_history s !! c with
  | Some d => items d
  | None => []
  end.

(** An empty window of 150 packets for each of the channels, as
    [initialize_monitoring] and [TaskManager.__init__] make them. *)
Definition fresh_windows (channels : list Z) (h : gmap Z deque) : gmap Z deque :=
  fold_left (fun h c => <[c := deque_new 150]> h) channels h.

(** ** The samplers seen from the commands

    Between two commands the samplers leave a batch of packets on the
    queue; the next command drains it. *)

Definition arrive (batch : list Packet) : M unit :=
  modify (fun s =>
    match queue s with
    | Some q => set_queues (<[q := pending q s ++ batch]> (queues s)) s
    | None => s
    end).

Fixpoint ingest_rounds (batches : list (list Packet)) : M unit :=
  match batches with
  | [] => ret tt
  | batch :: rest =>
      arrive batch ;;
      monitoring_commands.process_pending ;;
      ingest_rounds rest
  end.

(** ** Threads *)

(** A thread the sweep keeps. *)
Definition running (t : PingCheckingThread) : bool :=
  is_alive t && negb (_handled t).

(** The thread that takes over from [t] on the queue [q]. *)
Definition replacement (q : qref) (ip_addr : string) (t : PingCheckingThread)
  : PingCheckingThread :=
  new_thread q (_channel t) ip_addr.

(** The channel of the thread is in the table. *)
Definition known_thread (t : PingCheckingThread) : Prop :=
  is_Some (dict_get (_channel t) CHANNEL_TO_IP).

Definition ip_of (t : PingCheckingThread) : string :=
  default ""%string (dict_get (_channel t) CHANNEL_TO_IP).

(** ** Stored statistics *)

(** The part the [/ping] command and the alert check share: the queue is
    drained and the stored statistics are recomputed, from [s] to [s']. *)
Definition refreshed (s s' : state) : Prop :=
  exists s1,
    monitoring_commands.process_pending s = (Ok tt, s1)
    /\ update_averages successful_pings s1 = (Ok tt, s').

(** A [/ping] command or an alert check of the module ran to its end and
    took the state from [s] to [s']. *)
Definition answered (s s' : state) : Prop :=
  (exists e, monitoring_commands.handle_ping_command s = (Ok e, s'))
  \/ (exists b,
        queue s <> None
        /\ monitoring_commands.check_ping_and_notify s = (Ok b, s')).

Definition after_ping_command (s : state) : state :=
  snd (monitoring_commands.handle_ping_command s).

(** The channels of the first section of the embed, in their order. *)
Definition ranking (s : state) : list Z :=
  match fst (monitoring_commands.handle_ping_command s) with
  | Ok e => map fst (monitoring_commands.highest_average_ping e)
  | Raise _ => []
  end.

Definition stored_average (c : Z) (s : state) : option float :=
  fst <$> dict_get c (channel_ping_averages s).

(** ** Exact values of floats *)

(** The exact value [m * 2 ^ e] of a finite float is
    [numerator m e / denominator e]. *)
Definition numerator (m : positive) (e : Z) : Z := Zpos m * 2 ^ Z.max 0 e.

Definition denominator (e : Z) : Z := 2 ^ Z.max 0 (- e).



(** ** Tactics *)

(** A closed decidable fact is settled by evaluation. *)
Ltac by_compute :=
  match goal with
  | |- ?P => refine (bool_decide_unpack P _); vm_compute; exact I
  end.

(** A closed statement about a concrete run is settled one conjunct at a
    time, by evaluation. *)
Ltac evaluate :=
  cbv zeta;
  repeat match goal with |- _ /\ _ => split end;
  vm_compute; reflexivity.

(** ** Rankings *)

Definition not_nan (x : float) : Prop := Prim2SF x <> S754_nan.

Definition is_number (x : float) : bool :=
  match Prim2SF x with
  | S754_nan => false
  | _ => true
  end.

Definition keys_not_nan (key : item -> float) (l : list item) : Prop :=
  Forall (fun x => not_nan (key x)) l.

(** No item is followed by one with a greater key. *)
Fixpoint descending (key : item -> float) (l : list item) : Prop :=
  match l with
  | [] => True
  | x :: l' =>
      Forall (fun y => PrimFloat.ltb (key x) (key y) = false) l'
      /\ descending key l'
  end.

(** No item is followed by one with a smaller key. *)
Fixpoint ascending (key : item -> float) (l : list item) : Prop :=
  match l with
  | [] => True
  | x :: l' =>
      Forall (fun y => PrimFloat.ltb (key y) (key x) = false) l'
      /\ ascending key l'
  end.

(** [front] is made of [n] of the items of [l], or of all of them when
    [l] has fewer, in descending order of their keys, and none of the
    items it leaves out has a greater key than one it lists. *)
Definition highest (key : item -> float) (n : nat) (l front : list item) : Prop :=
  exists rest,
    l ≡ₚ front ++ rest
    /\ length front = Nat.min n (length l)
    /\ descending key front
    /\ Forall (fun x =>
         Forall (fun y => PrimFloat.ltb (key x) (key y) = false) rest) front.

(** The same with the smallest keys, in ascending order. *)
Definition lowest (key : item -> float) (n : nat) (l front : list item) : Prop :=
  exists rest,
    l ≡ₚ front ++ rest
    /\ length front = Nat.min n (length l)
    /\ ascending key front
    /\ Forall (fun x =>
         Forall (fun y => PrimFloat.ltb (key y) (key x) = false) rest) front.

(** Neither of two keys is below the other. *)
Definition tied (a b : float) : bool :=
  negb (PrimFloat.ltb a b) && negb (PrimFloat.ltb b a).

(** The items of [l] whose key is tied with [k], in their order. *)
Definition tied_with (key : item -> float) (k : float) (l : list item) : list item :=
  filter (fun x => tied k (key x) = true) l.

Ltac compare_cases :=
  repeat match goal with
  | H : context [Z.compare ?a ?b] |- _ => destruct (Z.compare_spec a b); try subst
  | |- context [Z.compare ?a ?b] => destruct (Z.compare_spec a b); try subst
  | H : context [Pos.compare ?a ?b] |- _ => destruct (Pos.compare_spec a b); try subst
  | |- context [Pos.compare ?a ?b] => destruct (Pos.compare_spec a b); try subst
  end; cbn in *; try congruence; try lia.

Ltac order_cases x y :=
  unfold SFltb, SFcompare;
  destruct x as [[] | [] | | [] ? ?], y as [[] | [] | | [] ? ?];
  cbn; try congruence;
  change (Pos.compare_cont Eq) with Pos.compare in *.

(** ** The packets of a sampler *)

(** The packets a sampler publishes over the given turns, the first of
    which begins at [now]: one per turn, until a turn raises. *)
Fixpoint published (self : PingCheckingThread) (now : datetime)
  (probes : list probe) : list Packet :=
  match probes with
  | [] => []
  | pr :: rest =>
      match measured (latency pr) with
      | Ok (n, ok) =>
          {| channel := _channel self; ping := n;
             time := now + elapsed pr; success := ok |}
          :: published self (now + elapsed pr) rest
      | Raise _ => []
      end
  end.

(** What a queue that held [before] holds once [new] was published on
    it. *)
Definition trimmed (before new : list Packet) : list Packet :=
  match new with
  | [] => before
  | _ :: _ => last_n (Z.to_nat (MAX_QUEUE_SIZE + 1)) (before ++ new)
  end.

(** ** The reminder *)

(** A row of a player who has a Discord id and no score for the week. *)
Definition is_missing (row : reminder.Player * option Z) : bool :=
  reminder.no_score (snd row)
  && match reminder.discord_id (fst row) with
     | Some id => negb (String.eqb id "")
     | None => false
     end.

(** ** The results of [measure_latency] *)

(** A latency that [int] takes: a number that is not infinite. *)
Definition is_finite (x : float) : bool :=
  match Prim2SF x with
  | S754_zero _ | S754_finite _ _ _ => true
  | S754_infinity _ | S754_nan => false
  end.

(** A result in which a run that did not connect is left out, as the
    body of the loop expects it: the empty list for a failed measurement,
    the latency in milliseconds first for one that connected. *)
Definition answers (pr : probe) : bool :=
  match latency pr with
  | [] => true
  | Some x :: _ => is_finite x
  | None :: _ => false
  end.

(** * Concrete runs *)

Definition empty_state : state :=
  {| queue := None;
     ping_checking_threads := [];
     channel_ping_history := ∅;
     channel_ping_averages := [];
     queues := ∅;
     clock := 0 |}.

Definition packet (c ping t : Z) (ok : bool) : Packet :=
  {| channel := c; ping := ping; time := t; success := ok |}.

(** The [i]-th sample of a channel that answers. *)
Definition sample (c : Z) (i : nat) : Packet :=
  packet c (40 + Z.of_nat i) (2 * Z.of_nat i) true.

(** 152 packets of channel 7 that arrive in two batches, mixed with
    packets of channel 3. *)
Definition two_batches : list (list Packet) :=
  [ map (sample 7) (seq 0 100) ++ map (sample 3) (seq 0 10);
    map (sample 3) (seq 10 5) ++ map (sample 7) (seq 100 52) ].

(** The state after [initialize_monitoring], with packets pending and
    statistics stored earlier. *)
Definition monitoring (pending : list Packet) (averages : dict stats) : state :=
  let s := snd (monitoring_commands.initialize_monitoring empty_state) in
  snd (arrive pending (set_averages averages s)).

(** A [TaskManager] after [__init__] and [initialize_ping_monitoring] on
    queue 0, with packets pending. *)
Definition task_manager (pending : list Packet) : state :=
  let s := snd ((TaskManager.__init__ ;;
                 TaskManager.initialize_ping_monitoring 0%nat) empty_state) in
  snd (arrive pending s).

(** The samplers of channels 7 and 3 on queue 0. *)
Definition sampler_7 : PingCheckingThread :=
  new_thread 0%nat 7 "54.68.160.34".

Definition sampler_3 : PingCheckingThread :=
  new_thread 0%nat 3 "34.217.205.66".

(** The queue holds [MAX_QUEUE_SIZE] packets. *)
Definition queue_at_capacity : state :=
  {| queue := Some 0%nat;
     ping_checking_threads := [sampler_7];
     channel_ping_history := ∅;
     channel_ping_averages := [];
     queues := {[ 0%nat := repeat (sample 7 0) (Z.to_nat MAX_QUEUE_SIZE) ]};
     clock := 0 |}.

(** A probe that connected in 48.7 ms, three seconds after the one
    before. *)
Definition connected_probe : probe :=
  {| elapsed := 3; latency := [Some (PyNum.int_truediv 487 10)] |}.

(** The sampler of channel 7 died; the sampler of channel 3 runs. *)
Definition one_dead_thread (now : datetime) : state :=
  {| queue := Some 0%nat;
     ping_checking_threads := [set_alive false sampler_7; sampler_3];
     channel_ping_history := ∅;
     channel_ping_averages := [];
     queues := {[ 0%nat := [] ]};
     clock := now |}.

(** Two probes of channel 1 that connect, one probe that connects, and
    150 probes that fail. *)
Definition two_pings : list Packet :=
  [packet 1 250 0 true; packet 1 260 2 true].

Definition one_ping : list Packet := [packet 1 250 0 true].

Definition failed_probes : list Packet :=
  map (fun i => packet 1 0 (2 * Z.of_nat i) false) (seq 2 150).

(** Two histories of channel 1.  In the first, the 150 probes fail.  In
    the second, the two probes of 250 ms and 260 ms are reported first,
    and then the same 150 probes fail and evict them. *)
Definition only_failures : M monitoring_commands.embed :=
  monitoring_commands.initialize_monitoring ;;
  arrive failed_probes ;;
  monitoring_commands.handle_ping_command.

Definition failures_after_pings : M monitoring_commands.embed :=
  monitoring_commands.initialize_monitoring ;;
  arrive two_pings ;;
  monitoring_commands.handle_ping_command ;;
  arrive failed_probes ;;
  monitoring_commands.handle_ping_command.

Definition no_channel : monitoring_commands.embed :=
  monitoring_commands.embed_of [].

Definition channel_1_at_255 : monitoring_commands.embed :=
  monitoring_commands.embed_of
    [(1, (PyNum.float_of_int 255, PyNum.int_truediv 707 100))].

(** One failed probe of channel 1, then nine that connect in 210 ms. *)
Definition one_failed_nine_slow : list Packet :=
  packet 1 0 0 false
  :: map (fun i => packet 1 210 (2 + 2 * Z.of_nat i) true) (seq 0 9).

(** Channel 1 answers in 50, 50 and 51 ms; channel 2 in 50 ms 99 times and
    in 51 ms 50 times. *)
Definition close_means : list Packet :=
  [packet 1 50 0 true; packet 1 50 2 true; packet 1 51 4 true]
  ++ map (fun i => packet 2 50 (2 * Z.of_nat i) true) (seq 0 99)
  ++ map (fun i => packet 2 51 (2 * Z.of_nat i) true) (seq 99 50).

(** A packet of channel 99, which is not in the table, between packets
    of channels 7 and 3. *)
Definition stray_packet : Packet := packet 99 10 2 true.

Definition with_stray_packet : state :=
  monitoring [packet 7 45 0 true; stray_packet; packet 3 40 4 true] [].

(** Noon of 2026-11-04, a Wednesday. *)
Definition wednesday_noon : datetime :=
  (739923 * 24 + 12) * 60 * 60 * 1000000.

(** Channels 1 and 2 are stored with the same average, channels 1 and 3
    with the same standard deviation. *)
Definition tied_store : dict stats :=
  [ (1, (PyNum.float_of_int 50, PyNum.float_of_int 1));
    (2, (PyNum.float_of_int 50, PyNum.float_of_int 2));
    (3, (PyNum.float_of_int 40, PyNum.float_of_int 1)) ].




(** * Properties *)

(** ** The history window *)

Lemma last_n_length {A} (n : nat) (l : list A) :
  length (last_n n l) = Nat.min n (length l).
Proof. unfold last_n. rewrite length_drop. lia. Qed.

Lemma last_n_all {A} (n : nat) (l : list A) :
  (length l <= n)%nat -> last_n n l = l.
Proof.
  intros Hle. unfold last_n.
  replace (length l - n)%nat with 0%nat by lia. reflexivity.
Qed.

Lemma last_n_idem_app {A} (n : nat) (a l : list A) :
  last_n n (last_n n a ++ l) = last_n n (a ++ l).
Proof.
  destruct (decide (length a <= n)%nat) as [Hle | Hgt].
  - rewrite (last_n_all n a Hle). reflexivity.
  - unfold last_n.
    rewrite !length_app, length_drop.
    rewrite <- (drop_app_le a l (length a - n)) by lia.
    rewrite drop_drop. f_equal. lia.
Qed.

Lemma last_n_app {A} (n : nat) (l1 l2 : list A) :
  (n <= length l2)%nat -> last_n n (l1 ++ l2) = last_n n l2.
Proof.
  intros Hle. unfold last_n.
  rewrite length_app.
  replace (length l1 + length l2 - n)%nat
    with (length l1 + (length l2 - n))%nat by lia.
  rewrite drop_app_add. reflexivity.
Qed.

(** One [append] on a window within its bound keeps the last [maxlen]
    packets. *)
Lemma deque_append_items (d : deque) (p : Packet) :
  (length (items d) <= maxlen d)%nat ->
  items (deque_append d p) = last_n (maxlen d) (items d ++ [p]).
Proof.
  intros Hle. unfold deque_append, last_n. simpl.
  rewrite length_app. simpl.
  destruct (Nat.ltb_spec (maxlen d) (length (items d) + 1)) as [Hlt | Hge].
  - replace (length (items d) + 1 - maxlen d)%nat with 1%nat by lia.
    destruct (items d ++ [p]); reflexivity.
  - replace (length (items d) + 1 - maxlen d)%nat with 0%nat by lia.
    reflexivity.
Qed.

Lemma deque_append_maxlen (d : deque) (p : Packet) :
  maxlen (deque_append d p) = maxlen d.
Proof. reflexivity. Qed.

(** A full window loses its oldest packet to the new one. *)
Lemma deque_append_full (d : deque) (p : Packet) :
  length (items d) = maxlen d ->
  items (deque_append d p) = tail (items d ++ [p]).
Proof.
  intros Hfull. unfold deque_append. simpl.
  rewrite length_app. simpl.
  destruct (Nat.ltb_spec (maxlen d) (length (items d) + 1)); [reflexivity | lia].
Qed.

Lemma appended_cons (d : deque) (p : Packet) (l : list Packet) :
  appended d (p :: l) = appended (deque_append d p) l.
Proof. reflexivity. Qed.

Lemma appended_maxlen (l : list Packet) (d : deque) :
  maxlen (appended d l) = maxlen d.
Proof.
  revert d. induction l as [| p l IH]; intros d; [reflexivity |].
  rewrite appended_cons, IH. reflexivity.
Qed.

Lemma appended_items (l : list Packet) (d : deque) :
  (length (items d) <= maxlen d)%nat ->
  items (appended d l) = last_n (maxlen d) (items d ++ l).
Proof.
  revert d. induction l as [| p l IH]; intros d Hle.
  - cbn [appended fold_left]. rewrite app_nil_r, last_n_all by exact Hle.
    reflexivity.
  - rewrite appended_cons, IH.
    + rewrite deque_append_maxlen, deque_append_items by exact Hle.
      rewrite last_n_idem_app, <- app_assoc. reflexivity.
    + rewrite deque_append_items, last_n_length by exact Hle.
      rewrite deque_append_maxlen. lia.
Qed.

Lemma ingest_one_lookup (h : gmap Z deque) (p : Packet) (c : Z) :
  ingest_one h p !! c =
  (fun d => appended d (of_channel c [p])) <$> (h !! c).
Proof.
  unfold ingest_one, of_channel.
  destruct (decide (channel p = c)) as [Hc | Hne].
  - rewrite filter_cons_True by exact Hc. subst c.
    destruct (h !! channel p) as [d |] eqn:Hd.
    + rewrite lookup_insert_eq. reflexivity.
    + rewrite Hd. reflexivity.
  - rewrite filter_cons_False by exact Hne.
    assert (h !! c = (fun d => appended d []) <$> (h !! c)) as Hid
      by (destruct (h !! c); reflexivity).
    destruct (h !! channel p) as [d |]; [| exact Hid].
    rewrite lookup_insert_ne by exact Hne. exact Hid.
Qed.

Lemma ingest_lookup (l : list Packet) (h : gmap Z deque) (c : Z) :
  ingest l h !! c = (fun d => appended d (of_channel c l)) <$> (h !! c).
Proof.
  revert h. induction l as [| p l IH]; intros h.
  - change (ingest [] h) with h. destruct (h !! c); reflexivity.
  - change (ingest (p :: l) h) with (ingest l (ingest_one h p)).
    rewrite IH, ingest_one_lookup.
    destruct (h !! c) as [d |]; [| reflexivity].
    cbn [fmap option_fmap option_map]. f_equal.
    unfold of_channel, appended.
    destruct (decide (channel p = c)) as [Hc | Hc].
    + rewrite (filter_cons_True _ p l Hc), (filter_cons_True _ p [] Hc).
      reflexivity.
    + rewrite (filter_cons_False _ p l Hc), (filter_cons_False _ p [] Hc).
      reflexivity.
Qed.

(** Draining succeeds when every pending packet has a window, and leaves
    the queue empty and everything but the history as it was. *)
Lemma drain_packets_spec (l : list Packet) (q : qref) (s : state) :
  Forall (fun p => is_Some (channel_ping_history s !! channel p)) l ->
  exists s',
    drain_packets q l s = (Ok tt, s')
    /\ channel_ping_history s' = ingest l (channel_ping_history s)
    /\ queue s' = queue s
    /\ ping_checking_threads s' = ping_checking_threads s
    /\ channel_ping_averages s' = channel_ping_averages s
    /\ clock s' = clock s
    /\ (l <> [] -> pending q s' = []).
Proof.
  revert s. induction l as [| p l IH]; intros s Hall.
  - exists s. repeat split; try reflexivity. congruence.
  - apply Forall_cons in Hall as [[d Hd] Hall].
    set (s1 := set_history (<[channel p := deque_append d p]> (channel_ping_history s))
                 (set_queues (<[q := l]> (queues s)) s)).
    destruct (IH s1) as (s' & Hrun & Hh & Hq & Ht & Ha & Hc & Hp).
    { eapply Forall_impl; [exact Hall |].
      intros p' Hp'. subst s1. cbn.
      apply lookup_insert_is_Some'. right. exact Hp'. }
    exists s'. split.
    { cbn [drain_packets]. unfold bind at 1, modify at 1.
      unfold bind at 1, history_append at 1. cbn [channel_ping_history set_queues].
      rewrite Hd. exact Hrun. }
    repeat split; try assumption.
    + rewrite Hh.
      change (ingest (p :: l) (channel_ping_history s))
        with (ingest l (ingest_one (channel_ping_history s) p)).
      unfold ingest_one. rewrite Hd. reflexivity.
    + intros _. destruct l as [| p' l'].
      * cbn in Hrun. injection Hrun as <-. subst s1.
        unfold pending. cbn. rewrite lookup_insert_eq. reflexivity.
      * apply Hp. congruence.
Qed.

Lemma drain_spec (q : qref) (s : state) :
  Forall (fun p => is_Some (channel_ping_history s !! channel p)) (pending q s) ->
  exists s',
    drain q s = (Ok tt, s')
    /\ channel_ping_history s' = ingest (pending q s) (channel_ping_history s)
    /\ queue s' = queue s
    /\ ping_checking_threads s' = ping_checking_threads s
    /\ channel_ping_averages s' = channel_ping_averages s
    /\ clock s' = clock s
    /\ pending q s' = [].
Proof.
  intros Hall.
  destruct (drain_packets_spec (pending q s) q s Hall)
    as (s' & Hrun & Hh & Hq & Ht & Ha & Hc & Hp).
  exists s'. repeat split; try assumption.
  destruct (pending q s) as [| p l] eqn:Hpend.
  - cbn in Hrun. injection Hrun as <-. exact Hpend.
  - apply Hp. congruence.
Qed.

(** *** The life of the module-level history *)

Lemma ingest_is_Some (l : list Packet) (h : gmap Z deque) (c : Z) :
  is_Some (ingest l h !! c) <-> is_Some (h !! c).
Proof. rewrite ingest_lookup, fmap_is_Some. reflexivity. Qed.

Lemma ingest_rounds_spec (batches : list (list Packet)) (s : state) (q : qref) :
  queue s = Some q ->
  pending q s = [] ->
  Forall (Forall (known_channel s)) batches ->
  exists s',
    ingest_rounds batches s = (Ok tt, s')
    /\ channel_ping_history s' = ingest (concat batches) (channel_ping_history s).
Proof.
  revert s. induction batches as [| batch rest IH]; intros s Hq Hempty Hall.
  - exists s. split; reflexivity.
  - apply Forall_cons in Hall as [Hbatch Hrest].
    set (s1 := set_queues (<[q := batch]> (queues s)) s).
    assert (Hpend1 : pending q s1 = batch).
    { unfold pending, s1. cbn. rewrite lookup_insert_eq. reflexivity. }
    destruct (drain_spec q s1) as (s2 & Hrun & Hh & Hq2 & _ & _ & _ & Hp2).
    { rewrite Hpend1. exact Hbatch. }
    rewrite Hpend1 in Hh.
    destruct (IH s2) as (s' & Hrun' & Hh').
    { rewrite Hq2. exact Hq. }
    { exact Hp2. }
    { eapply Forall_impl; [exact Hrest |]. intros l Hl.
      eapply Forall_impl; [exact Hl |]. intros p Hp.
      unfold known_channel in *. rewrite Hh.
      apply ingest_is_Some. exact Hp. }
    exists s'. split.
    + cbn [ingest_rounds]. unfold bind at 1, arrive, modify.
      rewrite Hq, Hempty. cbn [app]. fold s1.
      unfold bind at 1, monitoring_commands.process_pending.
      unfold bind at 1, get_state.
      replace (queue s1) with (Some q) by (symmetry; exact Hq).
      rewrite Hrun. exact Hrun'.
    + rewrite Hh', Hh. unfold ingest. rewrite concat_cons, fold_left_app.
      reflexivity.
Qed.

Lemma fresh_windows_lookup (channels : list Z) (h : gmap Z deque) (c : Z) :
  c ∈ channels \/ h !! c = Some (deque_new 150) ->
  fresh_windows channels h !! c = Some (deque_new 150).
Proof.
  revert h. induction channels as [| c' channels IH]; intros h Hc.
  - destruct Hc as [Hc | Hc]; [| exact Hc].
    apply elem_of_nil in Hc. contradiction.
  - cbn [fresh_windows fold_left]. apply IH.
    destruct (decide (c' = c)) as [-> | Hne].
    + right. apply lookup_insert_eq.
    + destruct Hc as [Hc | Hc].
      * apply elem_of_cons in Hc as [Hc | Hc]; [congruence | left; exact Hc].
      * right. rewrite lookup_insert_ne by exact Hne. exact Hc.
Qed.

(** [initialize_monitoring] gives every channel of the table an empty
    window of 150 packets and makes a new, empty queue. *)
Lemma initialize_monitoring_loop (q : qref) (entries : list (Z * string)) (s : state) :
  exists s',
    for_each entries (fun entry =>
      modify (fun s =>
        set_history (<[fst entry := deque_new 150]> (channel_ping_history s))
          (set_threads
             (ping_checking_threads s ++ [new_thread q (fst entry) (snd entry)]) s)))
      s = (Ok tt, s')
    /\ channel_ping_history s' = fresh_windows (keys entries) (channel_ping_history s)
    /\ queue s' = queue s
    /\ queues s' = queues s
    /\ channel_ping_averages s' = channel_ping_averages s.
Proof.
  revert s. induction entries as [| e entries IH]; intros s.
  - exists s. repeat split; reflexivity.
  - destruct (IH (set_history (<[fst e := deque_new 150]> (channel_ping_history s))
                  (set_threads
                     (ping_checking_threads s ++ [new_thread q (fst e) (snd e)]) s)))
      as (s' & Hrun & Hh & Hq & Hqs & Ha).
    exists s'. repeat split; assumption.
Qed.

Lemma initialize_monitoring_spec (s0 : state) :
  exists q s1,
    monitoring_commands.initialize_monitoring s0 = (Ok tt, s1)
    /\ queue s1 = Some q
    /\ pending q s1 = []
    /\ channel_ping_averages s1 = channel_ping_averages s0
    /\ (forall c, c ∈ keys CHANNEL_TO_IP ->
        channel_ping_history s1 !! c = Some (deque_new 150)).
Proof.
  set (q := fresh (dom (queues s0)) : qref).
  set (sa := set_history ∅ (set_threads []
               (set_queue (Some q) (set_queues (<[q := []]> (queues s0)) s0)))).
  destruct (initialize_monitoring_loop q CHANNEL_TO_IP sa)
    as (s1 & Hrun & Hh & Hq & Hqs & Ha).
  exists q, s1. split; [| split; [| split; [| split]]].
  - unfold monitoring_commands.initialize_monitoring.
    unfold bind at 1, get_state at 1. fold q.
    unfold bind at 1, modify at 1.
    unfold bind at 1, modify at 1.
    unfold bind at 1, modify at 1.
    exact Hrun.
  - rewrite Hq. reflexivity.
  - unfold pending. rewrite Hqs. cbn. rewrite lookup_insert_eq. reflexivity.
  - rewrite Ha. reflexivity.
  - intros c Hc. rewrite Hh. apply fresh_windows_lookup. left. exact Hc.
Qed.

Lemma task_manager_init_loop (channels : list Z) (s : state) :
  exists s',
    for_each channels (fun channel =>
      modify (fun s =>
        set_history (<[channel := deque_new 150]> (channel_ping_history s)) s))
      s = (Ok tt, s')
    /\ channel_ping_history s' = fresh_windows channels (channel_ping_history s)
    /\ queue s' = queue s.
Proof.
  revert s. induction channels as [| c channels IH]; intros s.
  - exists s. repeat split; reflexivity.
  - destruct (IH (set_history (<[c := deque_new 150]> (channel_ping_history s)) s))
      as (s' & Hrun & Hh & Hq).
    exists s'. repeat split; assumption.
Qed.

(** [TaskManager.__init__] gives every channel of the table an empty
    window of 150 packets, like [initialize_monitoring]. *)
Lemma task_manager_init_windows (s0 : state) (c : Z) :
  c ∈ keys CHANNEL_TO_IP ->
  exists s,
    TaskManager.__init__ s0 = (Ok tt, s)
    /\ queue s = None
    /\ channel_ping_history s !! c = Some (deque_new 150).
Proof.
  intros Hc.
  destruct (task_manager_init_loop (keys CHANNEL_TO_IP)
              (set_queue None (set_averages [] (set_history ∅ (set_threads [] s0)))))
    as (s & Hrun & Hh & Hq).
  exists s. split; [exact Hrun | split; [exact Hq |]].
  rewrite Hh. apply fresh_windows_lookup. left. exact Hc.
Qed.

(** One drain, whatever the window held before: the window of a channel
    keeps its bound and holds the last [maxlen] packets of that channel. *)
Lemma drain_window (s : state) (q : qref) (c : Z) (d0 : deque) :
  channel_ping_history s !! c = Some d0 ->
  (length (items d0) <= maxlen d0)%nat ->
  Forall (known_channel s) (pending q s) ->
  exists s' d,
    drain q s = (Ok tt, s')
    /\ channel_ping_history s' !! c = Some d
    /\ maxlen d = maxlen d0
    /\ items d = last_n (maxlen d0) (items d0 ++ of_channel c (pending q s))
    /\ (length (items d) <= maxlen d)%nat
    /\ ((maxlen d0 <= length (of_channel c (pending q s)))%nat ->
        items d = last_n (maxlen d0) (of_channel c (pending q s))).
Proof.
  intros Hd0 Hle Hknown.
  destruct (drain_spec q s Hknown) as (s' & Hrun & Hh & _).
  exists s', (appended d0 (of_channel c (pending q s))).
  split; [exact Hrun |].
  split; [rewrite Hh, ingest_lookup, Hd0; reflexivity |].
  rewrite appended_maxlen, appended_items by exact Hle.
  split; [reflexivity | split; [reflexivity | split]].
  - rewrite last_n_length. lia.
  - intros Hmany. apply last_n_app. exact Hmany.
Qed.

(** C1.  Ring buffer bound.  From [initialize_monitoring] on, whatever
    packets the commands drain from the queue, in whatever batches, the
    window of every channel of the table holds exactly the last 150
    packets of that channel, in the order they arrived: it never holds
    more than 150, and holds 150 as soon as more than 150 arrived. *)
Theorem history_window_keeps_last_150
  (s0 : state) (batches : list (list Packet)) (c : Z) :
  c ∈ keys CHANNEL_TO_IP ->
  Forall (Forall (fun p => channel p ∈ keys CHANNEL_TO_IP)) batches ->
  let arrivals := of_channel c (concat batches) in
  exists s d,
    (monitoring_commands.initialize_monitoring ;; ingest_rounds batches) s0
      = (Ok tt, s)
    /\ channel_ping_history s !! c = Some d
    /\ maxlen d = 150%nat
    /\ items d = last_n 150 arrivals
    /\ (length (items d) <= 150)%nat
    /\ ((150 < length arrivals)%nat -> length (items d) = 150%nat).
Proof.
  intros Hc Hall arrivals.
  destruct (initialize_monitoring_spec s0) as (q & s1 & Hinit & Hq & Hempty & _ & Hwin).
  destruct (ingest_rounds_spec batches s1 q Hq Hempty) as (s & Hrun & Hh).
  { eapply Forall_impl; [exact Hall |]. intros l Hl.
    eapply Forall_impl; [exact Hl |]. intros p Hp.
    unfold known_channel. rewrite (Hwin _ Hp). eexists. reflexivity. }
  assert (Hd : channel_ping_history s !! c
               = Some (appended (deque_new 150) arrivals)).
  { rewrite Hh, ingest_lookup, (Hwin c Hc). reflexivity. }
  assert (Hitems : items (appended (deque_new 150) arrivals) = last_n 150 arrivals).
  { rewrite appended_items by (cbn; lia). reflexivity. }
  exists s, (appended (deque_new 150) arrivals).
  split; [| split; [exact Hd | split; [| split; [exact Hitems | split]]]].
  - unfold bind. rewrite Hinit. exact Hrun.
  - rewrite appended_maxlen. reflexivity.
  - rewrite Hitems, last_n_length. lia.
  - intros Hmany. rewrite Hitems, last_n_length. lia.
Qed.

Lemma history_window_keeps_last_150_witness :
  exists s d,
    (monitoring_commands.initialize_monitoring ;; ingest_rounds two_batches)
      empty_state = (Ok tt, s)
    /\ channel_ping_history s !! 7 = Some d
    /\ maxlen d = 150%nat
    /\ items d = last_n 150 (of_channel 7 (concat two_batches))
    /\ (length (items d) <= 150)%nat
    /\ ((150 < length (of_channel 7 (concat two_batches)))%nat ->
        length (items d) = 150%nat).
Proof.
  apply (history_window_keeps_last_150 empty_state two_batches 7).
  - by_compute.
  - by_compute.
Defined.

(** ** The sampler *)

(** What [run_body] leaves on the queue of the thread, when the
    measurement gives a packet. *)
Lemma run_body_measured (self : PingCheckingThread) (pr : probe) (s : state)
  (n : Z) (ok : bool) :
  measured (latency pr) = Ok (n, ok) ->
  let q := _result_queue self in
  let now := clock s + elapsed pr in
  let packet := {| channel := _channel self; ping := n;
                   time := now; success := ok |} in
  run_body self pr s
  = (Ok tt,
     set_queues (<[q := drop_excess (pending q s) ++ [packet]]> (queues s))
       (set_clock now s)).
Proof.
  intros Hm q now packet. subst q now packet.
  unfold run_body, bind, put, modify, lift, get_state. rewrite Hm.
  unfold pending. cbn [fst snd clock set_clock set_queues queues].
  rewrite lookup_insert_eq. cbn [default from_option id].
  rewrite insert_insert_eq. reflexivity.
Qed.

(** A connection that succeeded is published with its latency, truncated
    to whole milliseconds. *)
Lemma run_body_connected (self : PingCheckingThread) (s : state)
  (dt : Z) (x : float) (more : list (option float)) (n : Z) :
  PyNum.int_of_float x = Ok n ->
  let q := _result_queue self in
  exists s',
    run_body self {| elapsed := dt; latency := Some x :: more |} s = (Ok tt, s')
    /\ last (pending q s')
       = Some {| channel := _channel self; ping := n;
                 time := clock s + dt; success := true |}.
Proof.
  intros Hx q. eexists. split.
  - apply run_body_measured with (n := n) (ok := true).
    cbn [latency measured]. rewrite Hx. reflexivity.
  - unfold pending. cbn [queues set_queues set_clock elapsed].
    rewrite lookup_insert_eq. cbn [default from_option id].
    apply last_snoc.
Qed.

(** An empty list of latencies is published as a failed sample. *)
Lemma run_body_no_latency (self : PingCheckingThread) (s : state) (dt : Z) :
  let q := _result_queue self in
  exists s',
    run_body self {| elapsed := dt; latency := [] |} s = (Ok tt, s')
    /\ last (pending q s')
       = Some {| channel := _channel self; ping := 0;
                 time := clock s + dt; success := false |}.
Proof.
  intros q. eexists. split.
  - apply run_body_measured with (n := 0) (ok := false). reflexivity.
  - unfold pending. cbn [queues set_queues set_clock elapsed].
    rewrite lookup_insert_eq. cbn [default from_option id].
    apply last_snoc.
Qed.

(** A list that begins with [None] is not empty, so the body of the loop
    evaluates [int(None)]: a [TypeError] leaves [run], no packet is
    published and the thread is dead. *)
Lemma none_entry_ends_the_sampler
  (self : PingCheckingThread) (s : state) (dt : Z) (rest : list probe) :
  let pr := {| elapsed := dt; latency := [None] |} in
  fst (run_body self pr s) = Raise TypeError
  /\ queues (snd (run_body self pr s)) = queues s
  /\ is_alive (fst (run self (pr :: rest) s)) = false.
Proof.
  repeat split.
Qed.

(** ** Every measurement becomes a sample *)

Lemma is_finite_int (x : float) :
  is_finite x = true -> exists n, PyNum.int_of_float x = Ok n.
Proof.
  unfold is_finite, PyNum.int_of_float.
  destruct (Prim2SF x) as [sg | sg | | sg m e]; try discriminate; intros _;
    eexists; reflexivity.
Qed.

Lemma answers_measured (pr : probe) :
  answers pr = true ->
  exists n ok,
    measured (latency pr) = Ok (n, ok)
    /\ match latency pr with
       | Some x :: _ => ok = true /\ PyNum.int_of_float x = Ok n
       | _ => ok = false /\ n = 0
       end.
Proof.
  unfold answers, measured.
  destruct (latency pr) as [| [x |] more]; [| | discriminate].
  - intros _. exists 0, false. repeat split.
  - intros Hx. destruct (is_finite_int x Hx) as [n Hn]. rewrite Hn.
    exists n, true. repeat split. 
Qed.

Lemma run_answers (self : PingCheckingThread) (probes : list probe) (s : state) :
  forallb answers probes = true -> fst (run self probes s) = self.
Proof.
  revert s. induction probes as [| pr probes IH]; intros s Hall; [reflexivity |].
  cbn [forallb] in Hall. apply andb_prop in Hall as [Hpr Hall].
  destruct (answers_measured pr Hpr) as (n & ok & Hm & _).
  cbn [run]. rewrite (run_body_measured self pr s n ok Hm).
  apply IH. exact Hall.
Qed.



(** ** The bound on the queue *)

Lemma drop_excess_le (l : list Packet) :
  Z.of_nat (length l) <= MAX_QUEUE_SIZE -> drop_excess l = l.
Proof.
  intros Hle. destruct l as [| p l]; unfold drop_excess; fold drop_excess.
  - destruct (MAX_QUEUE_SIZE <? _); reflexivity.
  - destruct (Z.ltb_spec MAX_QUEUE_SIZE (Z.of_nat (length (p :: l)))) as [Hlt | _];
      [lia | reflexivity].
Qed.

Lemma drop_excess_length (l : list Packet) :
  Z.of_nat (length (drop_excess l))
  = Z.min (Z.of_nat (length l)) MAX_QUEUE_SIZE.
Proof.
  induction l as [| p l IH].
  - rewrite drop_excess_le; [reflexivity | unfold MAX_QUEUE_SIZE; cbn [length]; lia].
  - unfold drop_excess; fold drop_excess.
    destruct (Z.ltb_spec MAX_QUEUE_SIZE (Z.of_nat (length (p :: l)))) as [Hlt | Hge].
    + rewrite IH. cbn [length] in *. lia.
    + lia.
Qed.

(** One turn of the loop leaves at most [MAX_QUEUE_SIZE + 1] packets. *)
Lemma run_body_queue_bound (self : PingCheckingThread) (pr : probe) (s s' : state) :
  run_body self pr s = (Ok tt, s') ->
  qsize (_result_queue self) s'
  = Z.min (qsize (_result_queue self) s) MAX_QUEUE_SIZE + 1.
Proof.
  intros Hrun.
  destruct (measured (latency pr)) as [[n ok] | e] eqn:Hm.
  - rewrite (run_body_measured self pr s n ok Hm) in Hrun.
    injection Hrun as <-.
    unfold qsize, pending at 1. cbn [queues set_queues set_clock].
    rewrite lookup_insert_eq. cbn [default from_option id].
    rewrite length_app, Nat2Z.inj_add, drop_excess_length. reflexivity.
  - unfold run_body, bind, modify, lift in Hrun. rewrite Hm in Hrun.
    discriminate Hrun.
Qed.

(** A queue that holds exactly [MAX_QUEUE_SIZE] packets loses none of
    them to the next one. *)
Lemma run_body_at_capacity (self : PingCheckingThread) (pr : probe) (s s' : state) :
  run_body self pr s = (Ok tt, s') ->
  qsize (_result_queue self) s = MAX_QUEUE_SIZE ->
  qsize (_result_queue self) s' = MAX_QUEUE_SIZE + 1
  /\ exists packet,
       pending (_result_queue self) s' = pending (_result_queue self) s ++ [packet].
Proof.
  intros Hrun Hfull. split.
  - rewrite (run_body_queue_bound self pr s s' Hrun), Hfull. lia.
  - destruct (measured (latency pr)) as [[n ok] | e] eqn:Hm.
    + rewrite (run_body_measured self pr s n ok Hm) in Hrun.
      injection Hrun as <-. eexists.
      unfold pending at 1. cbn [queues set_queues set_clock].
      rewrite lookup_insert_eq. cbn [default from_option id].
      rewrite drop_excess_le by (unfold qsize in Hfull; lia).
      reflexivity.
    + unfold run_body, bind, modify, lift in Hrun. rewrite Hm in Hrun.
      discriminate Hrun.
Qed.

(** C8.  With exactly [MAX_QUEUE_SIZE] = 12000 packets pending, the loop
    [while qsize() > MAX_QUEUE_SIZE] removes nothing: the new packet is
    put behind all 12000 and the queue holds 12001. *)
Theorem queue_at_capacity_grows :
  qsize 0%nat queue_at_capacity = MAX_QUEUE_SIZE
  /\ MAX_QUEUE_SIZE = 12000
  /\ exists s',
       run_body sampler_7 connected_probe queue_at_capacity = (Ok tt, s')
       /\ pending 0%nat s'
          = pending 0%nat queue_at_capacity
            ++ [{| channel := 7; ping := 48; time := 3; success := true |}]
       /\ qsize 0%nat s' = MAX_QUEUE_SIZE + 1.
Proof.
  assert (Hfull : qsize 0%nat queue_at_capacity = MAX_QUEUE_SIZE).
  { unfold qsize, pending, queue_at_capacity. cbn [queues].
    rewrite lookup_singleton_eq. cbn [default from_option id].
    rewrite repeat_length. apply Z2Nat.id. unfold MAX_QUEUE_SIZE. lia. }
  split; [exact Hfull | split; [reflexivity |]].
  assert (Hm : measured (latency connected_probe) = Ok (48, true))
    by (vm_compute; reflexivity).
  pose proof (run_body_measured sampler_7 connected_probe queue_at_capacity
                48 true Hm) as Hrun.
  cbv zeta in Hrun.
  destruct (run_body_at_capacity _ _ _ _ Hrun Hfull) as [Hsize _].
  eexists. split; [exact Hrun | split; [| exact Hsize]].
  unfold pending at 1. cbn [queues set_queues set_clock].
  rewrite lookup_insert_eq. cbn [default from_option id].
  rewrite drop_excess_le by (unfold qsize in Hfull; cbn in Hfull |- *; lia).
  reflexivity.
Qed.

(** ** The supervisor *)

Lemma filter_mark_dead (l : list PingCheckingThread) :
  filter (fun t => negb (_handled t)) (map mark_dead l)
  = filter (fun t => running t) l.
Proof.
  induction l as [| t l IH]; [reflexivity |].
  cbn [map]. unfold mark_dead at 1, running at 1.
  rewrite !filter_cons. rewrite IH.
  destruct t as [q ip port c handled alive]; destruct alive, handled;
    cbn; reflexivity.
Qed.

Lemma spin_up_all (q : qref) (dead : list PingCheckingThread) (s : state) :
  Forall known_thread dead ->
  for_each (map _channel dead) (spin_up q) s
  = (Ok tt,
     set_threads
       (ping_checking_threads s ++ map (fun t => replacement q (ip_of t) t) dead) s).
Proof.
  revert s. induction dead as [| t dead IH]; intros s Hknown.
  - cbn. rewrite app_nil_r. destruct s; reflexivity.
  - apply Forall_cons in Hknown as [[ip Hip] Hknown].
    cbn [map for_each]. unfold bind at 1, spin_up at 1.
    rewrite Hip. unfold modify at 1.
    rewrite IH by exact Hknown.
    cbn [ping_checking_threads set_threads].
    rewrite <- app_assoc. cbn [app].
    unfold replacement at 2, ip_of at 2. rewrite Hip. reflexivity.
Qed.

(** What one sweep does to the list of threads; nothing else changes. *)
Lemma restart_dead_threads_spec (q : qref) (s : state) :
  Forall known_thread (ping_checking_threads s) ->
  let dead := filter (fun t => negb (is_alive t)) (ping_checking_threads s) in
  restart_dead_threads q s
  = (Ok tt,
     set_threads
       (filter (fun t => running t) (ping_checking_threads s)
        ++ map (fun t => replacement q (ip_of t) t) dead) s).
Proof.
  intros Hknown dead.
  unfold restart_dead_threads.
  unfold bind at 1, get_state at 1. unfold bind at 1, modify at 1.
  fold dead. rewrite spin_up_all.
  - cbn [ping_checking_threads set_threads]. rewrite filter_mark_dead.
    reflexivity.
  - subst dead. apply Forall_forall. intros t Ht.
    apply list_elem_of_filter in Ht as [_ Ht].
    rewrite Forall_forall in Hknown. apply Hknown. exact Ht.
Qed.

(** ** The statistics *)

Lemma dict_get_set {V} (k c : Z) (v : V) (d : dict V) :
  dict_get c (dict_set k v d) = if k =? c then Some v else dict_get c d.
Proof.
  induction d as [| [k' v'] d IH]; cbn [dict_set dict_get].
  - reflexivity.
  - destruct (Z.eqb_spec k' k) as [-> | Hne]; cbn [dict_get].
    + destruct (k =? c); reflexivity.
    + rewrite IH. destruct (Z.eqb_spec k' c) as [-> | Hne'].
      * destruct (Z.eqb_spec k c); [congruence | reflexivity].
      * reflexivity.
Qed.

(** One turn of the loop over the channels: a channel with no selected
    ping keeps its entry, any other gets the statistics of its window. *)
Lemma update_average_inv (select : deque -> list Z) (c : Z) (s s' : state) :
  update_average select c s = (Ok tt, s') ->
  exists d,
    channel_ping_history s !! c = Some d
    /\ ((select d = [] /\ s' = s)
        \/ (select d <> []
            /\ exists st,
                 mean_and_stdev (select d) = Ok st
                 /\ s' = set_averages (dict_set c st (channel_ping_averages s)) s)).
Proof.
  unfold update_average, bind, get_state, lift, modify, ret.
  destruct (channel_ping_history s !! c) as [d |]; [| discriminate].
  intros Hrun. exists d. split; [reflexivity |].
  destruct (select d) as [| x l] eqn:Hsel.
  - left. cbn in Hrun. injection Hrun as <-. split; reflexivity.
  - right. split; [discriminate |].
    cbn [length Nat.eqb] in Hrun.
    destruct (mean_and_stdev (x :: l)) as [st | e]; [| discriminate].
    exists st. injection Hrun as <-. split; reflexivity.
Qed.

Lemma update_averages_inv
  (select : deque -> list Z) (channels : list Z) (s s' : state) :
  for_each channels (update_average select) s = (Ok tt, s') ->
  s' = set_averages (channel_ping_averages s') s
  /\ forall c,
       (c ∉ channels ->
        dict_get c (channel_ping_averages s') = dict_get c (channel_ping_averages s))
       /\ (c ∈ channels ->
           exists d,
             channel_ping_history s !! c = Some d
             /\ (select d = [] ->
                 dict_get c (channel_ping_averages s')
                 = dict_get c (channel_ping_averages s))
             /\ (select d <> [] ->
                 exists st,
                   mean_and_stdev (select d) = Ok st
                   /\ dict_get c (channel_ping_averages s') = Some st)).
Proof.
  revert s. induction channels as [| k channels IH]; intros s Hrun.
  - cbn in Hrun. injection Hrun as <-. split; [destruct s; reflexivity |].
    intros c. split; [reflexivity |].
    intros Hc. apply elem_of_nil in Hc. contradiction.
  - cbn [for_each] in Hrun. unfold bind at 1 in Hrun.
    destruct (update_average select k s) as [[[] | e] s1] eqn:Hstep;
      [| discriminate].
    destruct (update_average_inv select k s s1 Hstep) as (dk & Hdk & Hcase).
    destruct (IH s1 Hrun) as [Hframe Hrest].
    assert (Hs1 : s1 = set_averages (channel_ping_averages s1) s).
    { destruct Hcase as [[_ ->] | (_ & st & _ & ->)]; destruct s; reflexivity. }
    assert (Hhist : channel_ping_history s1 = channel_ping_history s)
      by (rewrite Hs1; reflexivity).
    split.
    { rewrite Hframe, Hs1. reflexivity. }
    intros c. destruct (Hrest c) as [Hout Hin].
    assert (Hk : forall d,
               channel_ping_history s !! c = Some d ->
               (select d = [] -> dict_get c (channel_ping_averages s1)
                                 = dict_get c (channel_ping_averages s))
               /\ (c = k -> select d <> [] ->
                   exists st, mean_and_stdev (select d) = Ok st
                              /\ dict_get c (channel_ping_averages s1) = Some st)
               /\ (c <> k -> dict_get c (channel_ping_averages s1)
                             = dict_get c (channel_ping_averages s))).
    { intros d Hd.
      destruct Hcase as [[Hnil ->] | (Hsome & st & Hst & ->)].
      - repeat split; try reflexivity.
        intros -> Hne. rewrite Hdk in Hd. injection Hd as <-. contradiction.
      - cbn [channel_ping_averages set_averages]. rewrite dict_get_set.
        destruct (Z.eqb_spec k c) as [-> | Hne].
        + rewrite Hdk in Hd. injection Hd as <-.
          split; [intros Hnil; contradiction |].
          split; [| congruence].
          intros _ _. exists st. split; [exact Hst | reflexivity].
        + split; [reflexivity |]. split; [congruence | reflexivity]. }
    split.
    + intros Hnotin. apply not_elem_of_cons in Hnotin as [Hne Hnotin].
      rewrite (Hout Hnotin).
      destruct Hcase as [[_ ->] | (_ & st & _ & ->)]; [reflexivity |].
      cbn [channel_ping_averages set_averages]. rewrite dict_get_set.
      destruct (Z.eqb_spec k c); [congruence | reflexivity].
    + intros Hc.
      destruct (decide (c ∈ channels)) as [Hlater | Hnotlater].
      * destruct (Hin Hlater) as (d & Hd & Hnil & Hsome).
        rewrite Hhist in Hd. exists d. split; [exact Hd |].
        destruct (Hk d Hd) as (Hk1 & _ & _).
        split; [| exact Hsome].
        intros Hempty. rewrite (Hnil Hempty). apply Hk1. exact Hempty.
      * apply elem_of_cons in Hc as [-> | Hc]; [| contradiction].
        exists dk. split; [exact Hdk |].
        destruct (Hk dk Hdk) as (Hk1 & Hk2 & _).
        rewrite (Hout Hnotlater).
        split; [exact Hk1 |].
        intros Hsome. apply Hk2; [reflexivity | exact Hsome].
Qed.

Lemma handle_ping_command_refreshes
  (s s' : state) (e : monitoring_commands.embed) :
  monitoring_commands.handle_ping_command s = (Ok e, s') ->
  refreshed s s'
  /\ e = monitoring_commands.embed_of (channel_ping_averages s').
Proof.
  unfold monitoring_commands.handle_ping_command, refreshed.
  unfold bind at 1.
  destruct (monitoring_commands.process_pending s) as [[[] | e0] s1];
    [| discriminate].
  unfold bind at 1.
  destruct (update_averages successful_pings s1) as [[[] | e1] s2] eqn:Hupd;
    [| discriminate].
  unfold bind, get_state, ret. intros Hrun. injection Hrun as <- <-.
  split; [exists s1; split; [reflexivity | exact Hupd] | reflexivity].
Qed.

Lemma process_pending_queue (s : state) (q : qref) :
  queue s = Some q -> monitoring_commands.process_pending s = drain q s.
Proof.
  intros Hq. unfold monitoring_commands.process_pending, bind, get_state.
  rewrite Hq. reflexivity.
Qed.

Lemma check_ping_and_notify_refreshes (s s' : state) (b : bool) (q : qref) :
  queue s = Some q ->
  monitoring_commands.check_ping_and_notify s = (Ok b, s') ->
  refreshed s s' /\ b = alert (channel_ping_averages s').
Proof.
  intros Hq Hrun.
  unfold monitoring_commands.check_ping_and_notify in Hrun.
  unfold bind at 1, get_state at 1 in Hrun. rewrite Hq in Hrun.
  unfold bind at 1 in Hrun.
  destruct (drain q s) as [[[] | e0] s1] eqn:Hdrain; [| discriminate].
  unfold bind at 1 in Hrun.
  destruct (update_averages successful_pings s1) as [[[] | e1] s2] eqn:Hupd;
    [| discriminate].
  unfold bind, get_state, ret in Hrun. injection Hrun as <- <-.
  split; [| reflexivity].
  exists s1. split; [| exact Hupd].
  rewrite (process_pending_queue s q Hq). exact Hdrain.
Qed.

Lemma answered_refreshed (s s' : state) : answered s s' -> refreshed s s'.
Proof.
  intros [[e Hrun] | (b & Hq & Hrun)].
  - apply (handle_ping_command_refreshes s s' e Hrun).
  - destruct (queue s) as [q |] eqn:Hqs; [| contradiction].
    apply (check_ping_and_notify_refreshes s s' b q Hqs Hrun).
Qed.

Lemma refreshed_history (s s' : state) :
  refreshed s s' ->
  exists s1,
    monitoring_commands.process_pending s = (Ok tt, s1)
    /\ channel_ping_history s' = channel_ping_history s1
    /\ forall c d,
         c ∈ keys CHANNEL_TO_IP ->
         channel_ping_history s' !! c = Some d ->
         (successful_pings d = [] ->
          dict_get c (channel_ping_averages s')
          = dict_get c (channel_ping_averages s1))
         /\ (successful_pings d <> [] ->
             exists st,
               mean_and_stdev (successful_pings d) = Ok st
               /\ dict_get c (channel_ping_averages s') = Some st).
Proof.
  intros (s1 & Hdrain & Hupd). exists s1.
  destruct (update_averages_inv _ _ _ _ Hupd) as [Hframe Hall].
  assert (Hh : channel_ping_history s' = channel_ping_history s1)
    by (rewrite Hframe; reflexivity).
  split; [exact Hdrain | split; [exact Hh |]].
  intros c d Hc Hd. rewrite Hh in Hd.
  destruct (Hall c) as [_ Hin].
  destruct (Hin Hc) as (d' & Hd' & Hnil & Hsome).
  rewrite Hd in Hd'. injection Hd' as <-.
  split; assumption.
Qed.

(** C6.  The statistics are stored, in [channel_ping_averages], and every
    report and every alert check first recomputes them: after that, the
    entry of a channel whose window holds a successful sample is the
    rounded mean and standard deviation of the successful samples of that
    window, whatever was stored before; so two states with the same window
    for the channel end with the same entry. *)
Theorem stored_statistics_follow_the_window
  (s1 s1' s2 s2' : state) (c : Z) (d : deque) :
  answered s1 s1' ->
  answered s2 s2' ->
  c ∈ keys CHANNEL_TO_IP ->
  channel_ping_history s1' !! c = Some d ->
  channel_ping_history s2' !! c = Some d ->
  successful_pings d <> [] ->
  exists st,
    mean_and_stdev (successful_pings d) = Ok st
    /\ dict_get c (channel_ping_averages s1') = Some st
    /\ dict_get c (channel_ping_averages s2') = Some st.
Proof.
  intros H1 H2 Hc Hd1 Hd2 Hsome.
  apply answered_refreshed in H1, H2.
  destruct (refreshed_history s1 s1' H1) as (sa & _ & _ & Hst1).
  destruct (refreshed_history s2 s2' H2) as (sb & _ & _ & Hst2).
  destruct (Hst1 c d Hc Hd1) as [_ Hs1].
  destruct (Hst2 c d Hc Hd2) as [_ Hs2].
  destruct (Hs1 Hsome) as (st & Hst & Hget1).
  destruct (Hs2 Hsome) as (st' & Hst' & Hget2).
  rewrite Hst in Hst'. injection Hst' as <-.
  exists st. repeat split; assumption.
Qed.

Lemma after_ping_command_answered (s : state) :
  is_ok (fst (monitoring_commands.handle_ping_command s)) = true ->
  answered s (after_ping_command s).
Proof.
  unfold after_ping_command, answered.
  destruct (monitoring_commands.handle_ping_command s) as [[e | e] s'];
    [| discriminate].
  intros _. left. exists e. reflexivity.
Qed.

Lemma stored_statistics_follow_the_window_witness :
  exists st,
    mean_and_stdev [250; 260] = Ok st
    /\ dict_get 1 (channel_ping_averages
                     (after_ping_command (monitoring two_pings []))) = Some st
    /\ dict_get 1 (channel_ping_averages
                     (after_ping_command
                        (monitoring two_pings
                           [(1, (PyNum.float_of_int 90, PyNum.float_of_int 5))])))
       = Some st.
Proof.
  apply (stored_statistics_follow_the_window
           (monitoring two_pings [])
           (after_ping_command (monitoring two_pings []))
           (monitoring two_pings
              [(1, (PyNum.float_of_int 90, PyNum.float_of_int 5))])
           (after_ping_command
              (monitoring two_pings
                 [(1, (PyNum.float_of_int 90, PyNum.float_of_int 5))]))
           1 {| items := two_pings; maxlen := 150 |}).
  - apply after_ping_command_answered. vm_compute. reflexivity.
  - apply after_ping_command_answered. vm_compute. reflexivity.
  - by_compute.
  - vm_compute. reflexivity.
  - vm_compute. reflexivity.
  - discriminate.
Defined.

(** C6, as stated, fails: the two histories end with the same windows, the
    150 failed samples, yet the report and the alert check of the second
    still show the 255 ms of the two evicted samples. *)
Lemma evicted_samples_still_reported :
  channel_ping_history (snd (only_failures empty_state))
  = channel_ping_history (snd (failures_after_pings empty_state))
  /\ (exists d,
        channel_ping_history (snd (only_failures empty_state)) !! 1 = Some d
        /\ items d = failed_probes)
  /\ fst (only_failures empty_state) = Ok no_channel
  /\ fst (failures_after_pings empty_state) = Ok channel_1_at_255
  /\ fst (monitoring_commands.check_ping_and_notify
            (snd (only_failures empty_state))) = Ok false
  /\ fst (monitoring_commands.check_ping_and_notify
            (snd (failures_after_pings empty_state))) = Ok true.
Proof.
  split; [vm_compute; reflexivity |].
  split; [eexists; split; vm_compute; reflexivity |].
  evaluate.
Qed.

(** ** A window without a successful sample *)

Lemma filter_success_failed (l : list Packet) :
  Forall failed l -> filter (fun p => success p) l = [].
Proof.
  induction 1 as [| p l Hp _ IH]; [reflexivity |].
  rewrite filter_cons, IH. unfold failed in Hp. rewrite Hp. reflexivity.
Qed.

Lemma deque_append_Forall (P : Packet -> Prop) (d : deque) (p : Packet) :
  Forall P (items d) -> P p -> Forall P (items (deque_append d p)).
Proof.
  intros Hd Hp. unfold deque_append. cbn [items].
  assert (Hall : Forall P (items d ++ [p]))
    by (apply Forall_app; split; [exact Hd | constructor; [exact Hp | constructor]]).
  destruct (maxlen d <? length (items d ++ [p]))%nat; [| exact Hall].
  destruct (items d ++ [p]) as [| x l]; [constructor |].
  apply Forall_cons in Hall as [_ Hall]. exact Hall.
Qed.

Lemma appended_Forall (P : Packet -> Prop) (l : list Packet) (d : deque) :
  Forall P (items d) -> Forall P l -> Forall P (items (appended d l)).
Proof.
  revert d. induction l as [| p l IH]; intros d Hd Hl; [exact Hd |].
  apply Forall_cons in Hl as [Hp Hl].
  rewrite appended_cons. apply IH; [| exact Hl].
  apply deque_append_Forall; assumption.
Qed.

Lemma process_pending_spec (s : state) :
  Forall (known_channel s) (to_process s) ->
  exists s',
    monitoring_commands.process_pending s = (Ok tt, s')
    /\ channel_ping_history s' = ingest (to_process s) (channel_ping_history s)
    /\ channel_ping_averages s' = channel_ping_averages s
    /\ queue s' = queue s
    /\ to_process s' = [].
Proof.
  unfold to_process. intros Hknown.
  destruct (queue s) as [q |] eqn:Hq.
  - destruct (drain_spec q s Hknown) as (s' & Hrun & Hh & Hq' & _ & Ha & _ & Hp).
    exists s'. rewrite (process_pending_queue s q Hq), Hq', Hq.
    repeat split; assumption.
  - exists s. unfold monitoring_commands.process_pending, bind, get_state.
    rewrite Hq. repeat split.
Qed.

(** C5.  When neither the window of a channel nor the packets of that
    channel still on the queue hold a successful sample, [/ping_graph]
    for the channel answers with the message [No ping data available] and
    [get_channel_statistics] returns [None]; neither raises. *)
Theorem no_successful_sample_is_no_data (s : state) (c : Z) :
  Forall (known_channel s) (to_process s) ->
  Forall failed (window c s) ->
  Forall failed (of_channel c (to_process s)) ->
  exists s',
    monitoring_commands.handle_ping_graph_command c s
      = (Ok (monitoring_commands.NoPingData c), s')
    /\ Forall failed (window c s')
    /\ monitoring_commands.get_channel_statistics c s' = Ok None
    /\ monitoring_commands.get_channel_statistics c s = Ok None.
Proof.
  intros Hknown Hwin Hnew.
  destruct (process_pending_spec s Hknown) as (s' & Hrun & Hh & _).
  assert (Hwin' : Forall failed (window c s')).
  { unfold window in *. rewrite Hh, ingest_lookup.
    destruct (channel_ping_history s !! c) as [d |]; cbn; [| constructor].
    apply appended_Forall; assumption. }
  assert (Hstat : forall s0, Forall failed (window c s0) ->
            monitoring_commands.get_channel_statistics c s0 = Ok None).
  { intros s0 H0. unfold monitoring_commands.get_channel_statistics, window in *.
    destruct (channel_ping_history s0 !! c) as [d |]; [| reflexivity].
    unfold successful_pings. rewrite (filter_success_failed _ H0). reflexivity. }
  exists s'. split; [| split; [exact Hwin' | split; auto]].
  unfold monitoring_commands.handle_ping_graph_command.
  unfold bind at 1. rewrite Hrun. unfold bind, get_state.
  fold (window c s'). rewrite (filter_success_failed _ Hwin'). reflexivity.
Qed.

Lemma no_successful_sample_is_no_data_witness :
  exists s',
    monitoring_commands.handle_ping_graph_command 1 (monitoring failed_probes [])
      = (Ok (monitoring_commands.NoPingData 1), s')
    /\ Forall failed (window 1 s')
    /\ monitoring_commands.get_channel_statistics 1 s' = Ok None
    /\ monitoring_commands.get_channel_statistics 1 (monitoring failed_probes [])
       = Ok None.
Proof.
  apply (no_successful_sample_is_no_data (monitoring failed_probes []) 1).
  - by_compute.
  - by_compute.
  - by_compute.
Defined.

(** ** The thresholds *)







(** ** The thresholds at the call sites *)





(** ** The alert check of [TaskManager] *)

(** C3.  [TaskManager.check_ping_and_notify] takes the statistics over
    every packet of the window: the failed probe counts as a ping of 0 ms,
    the stored average of channel 1 is 189.0 instead of 210.0 and the
    standard deviation 66.41 instead of 0.0, and the alert that the
    module-level check raises on the same packets is not raised. *)
Theorem failed_samples_count_in_task_manager :
  let tm := TaskManager.check_ping_and_notify (task_manager one_failed_nine_slow) in
  let mc := monitoring_commands.check_ping_and_notify
              (monitoring one_failed_nine_slow []) in
  window 1 (snd tm) = one_failed_nine_slow
  /\ window 1 (snd mc) = one_failed_nine_slow
  /\ channel_ping_averages (snd tm)
     = [(1, (PyNum.float_of_int 189, PyNum.int_truediv 6641 100))]
  /\ channel_ping_averages (snd mc)
     = [(1, (PyNum.float_of_int 210, PyNum.float_of_int 0))]
  /\ fst tm = Ok false
  /\ fst mc = Ok true.
Proof.
  evaluate.
Qed.

(** ** A single successful sample *)

Lemma stdev_single (x : Z) : PyNum.stdev [x] = Raise StatisticsError.
Proof. reflexivity. Qed.

(** The body of the statistics loop raises on a window with exactly one
    selected ping, and stores nothing. *)
Lemma update_average_single
  (select : deque -> list Z) (c : Z) (s : state) (d : deque) (x : Z) :
  channel_ping_history s !! c = Some d ->
  select d = [x] ->
  update_average select c s = (Raise StatisticsError, s).
Proof.
  intros Hd Hx. unfold update_average, bind, get_state, lift.
  rewrite Hd, Hx. reflexivity.
Qed.

(** C4.  With exactly one successful sample in the window of channel 1,
    [statistics.stdev] raises [StatisticsError]: the [/ping] command and the
    module-level alert check raise it, the alert check of [TaskManager]
    catches it and stores nothing; only [get_channel_statistics] gives the
    standard deviation 0.0. *)
Theorem single_sample_raises_in_ping_command :
  let s := monitoring one_ping [] in
  let drained := snd (monitoring_commands.process_pending s) in
  successful_pings {| items := window 1 drained; maxlen := 150 |} = [250]
  /\ fst (monitoring_commands.handle_ping_command s) = Raise StatisticsError
  /\ fst (monitoring_commands.check_ping_and_notify s) = Raise StatisticsError
  /\ TaskManager.check_ping_and_notify (task_manager one_ping)
     = (Ok false, snd (monitoring_commands.process_pending (task_manager one_ping)))
  /\ monitoring_commands.get_channel_statistics 1 drained
     = Ok (Some (PyNum.float_of_int 250, 0%float, 1%nat)).
Proof.
  evaluate.
Qed.

(** ** Quantized values *)

Lemma denominator_pos (e : Z) : 0 < denominator e.
Proof. unfold denominator. apply Z.pow_pos_nonneg; lia. Qed.

(** [int(x)] is [x] without its fractional part. *)
Lemma int_of_float_truncates (x : float) (s : bool) (m : positive) (e n : Z) :
  Prim2SF x = S754_finite s m e ->
  PyNum.int_of_float x = Ok n ->
  n = (if s then - Z.abs n else Z.abs n)
  /\ Z.abs n * denominator e <= numerator m e < (Z.abs n + 1) * denominator e.
Proof.
  intros Hx. unfold PyNum.int_of_float. rewrite Hx.
  intros Hn. injection Hn as <-.
  assert (Hv : 0 <= Z.shiftl (Zpos m) e) by (apply Z.shiftl_nonneg; lia).
  assert (Habs : Z.abs (if s then - Z.shiftl (Zpos m) e else Z.shiftl (Zpos m) e)
                 = Z.shiftl (Zpos m) e) by (destruct s; lia).
  rewrite Habs. split; [reflexivity |].
  unfold numerator, denominator.
  destruct (Z_lt_le_dec e 0) as [Hneg | Hpos].
  - rewrite (Z.max_l 0 e), (Z.max_r 0 (- e)) by lia. rewrite Z.pow_0_r, Z.mul_1_r.
    replace e with (- (- e)) at 1 3 by lia.
    rewrite Z.shiftl_opp_r, Z.shiftr_div_pow2 by lia.
    assert (Hd : 0 < 2 ^ (- e)) by (apply Z.pow_pos_nonneg; lia).
    pose proof (Z.div_mod (Zpos m) (2 ^ (- e)) ltac:(lia)) as Hdiv.
    pose proof (Z.mod_pos_bound (Zpos m) (2 ^ (- e)) Hd) as Hmod.
    nia.
  - rewrite (Z.max_r 0 e), (Z.max_l 0 (- e)) by lia. rewrite Z.pow_0_r.
    rewrite Z.shiftl_mul_pow2 by lia. lia.
Qed.

(** [round_half_even] is within one half of the quotient. *)
Lemma round_half_even_nearest (n d : Z) :
  0 < d -> 2 * Z.abs (n - d * PyNum.round_half_even n d) <= d.
Proof.
  intros Hd. unfold PyNum.round_half_even.
  pose proof (Z_div_mod n d ltac:(lia)) as Hdiv.
  destruct (Z.div_eucl n d) as [q r]. destruct Hdiv as [Hn Hr].
  destruct (Z.compare_spec (2 * r) d) as [Heq | Hlt | Hgt].
  - destruct (Z.even q); lia.
  - lia.
  - lia.
Qed.

(** [round(x, 2)] is the float of the number of hundredths nearest to the
    exact value of [x]. *)
Lemma round2_nearest_hundredth (x : float) (s : bool) (m : positive) (e : Z) :
  Prim2SF x = S754_finite s m e ->
  exists h,
    PyNum.round2 x = PyNum.int_truediv (if s then - h else h) 100
    /\ 0 <= h
    /\ 2 * Z.abs (100 * numerator m e - h * denominator e) <= denominator e.
Proof.
  intros Hx. unfold PyNum.round2, PyNum.hundredths. rewrite Hx.
  unfold numerator, denominator.
  destruct (Z.leb_spec 0 e) as [Hpos | Hneg].
  - exists (100 * Zpos m * 2 ^ e). split; [reflexivity |].
    rewrite (Z.max_r 0 e), (Z.max_l 0 (- e)) by lia. rewrite Z.pow_0_r.
    assert (0 < 2 ^ e) by (apply Z.pow_pos_nonneg; lia).
    split; [nia | lia].
  - exists (PyNum.round_half_even (100 * Zpos m) (2 ^ (- e))).
    split; [reflexivity |].
    rewrite (Z.max_l 0 e), (Z.max_r 0 (- e)) by lia. rewrite Z.pow_0_r, Z.mul_1_r.
    assert (Hd : 0 < 2 ^ (- e)) by (apply Z.pow_pos_nonneg; lia).
    pose proof (round_half_even_nearest (100 * Zpos m) (2 ^ (- e)) Hd) as Hn.
    split; [| lia].
    unfold PyNum.round_half_even.
    pose proof (Z_div_mod (100 * Zpos m) (2 ^ (- e)) ltac:(lia)) as Hdiv.
    destruct (Z.div_eucl (100 * Zpos m) (2 ^ (- e))) as [q r].
    destruct Hdiv as [Hq Hr].
    assert (0 <= q) by nia.
    destruct (2 * r ?= 2 ^ (- e)); [destruct (Z.even q) | |]; lia.
Qed.

(** No float is below itself. *)
Lemma ltb_irrefl (x : float) : PrimFloat.ltb x x = false.
Proof.
  rewrite ltb_spec. unfold SFltb.
  destruct (Prim2SF x) as [s | s | | s m e]; cbn [SFcompare].
  - reflexivity.
  - destruct s; reflexivity.
  - reflexivity.
  - rewrite Z.compare_refl.
    change (Pos.compare_cont Eq m m) with (Pos.compare m m).
    rewrite Pos.compare_refl. destruct s; reflexivity.
Qed.

(** The packet a turn of the sampler publishes carries a whole number of
    milliseconds: 0 for a failed sample, [int(latency[0])] otherwise. *)
Lemma run_body_ping (self : PingCheckingThread) (pr : probe) (s s' : state) :
  run_body self pr s = (Ok tt, s') ->
  exists p,
    last (pending (_result_queue self) s') = Some p
    /\ (success p = false -> ping p = 0)
    /\ (success p = true ->
        exists x, head (latency pr) = Some (Some x)
                  /\ PyNum.int_of_float x = Ok (ping p)).
Proof.
  intros Hrun.
  destruct (measured (latency pr)) as [[n ok] | e] eqn:Hm.
  - rewrite (run_body_measured self pr s n ok Hm) in Hrun.
    injection Hrun as <-. eexists. split.
    + unfold pending. cbn [queues set_queues set_clock].
      rewrite lookup_insert_eq. cbn [default from_option id].
      apply last_snoc.
    + cbn [success ping]. unfold measured in Hm.
      destruct (latency pr) as [| [x |] more]; [| | discriminate].
      * injection Hm as <- <-. split; [reflexivity | discriminate].
      * destruct (PyNum.int_of_float x) as [n' | e'] eqn:Hx; [| discriminate].
        injection Hm as <- <-. split; [discriminate |].
        intros _. exists x. split; [reflexivity | exact Hx].
  - unfold run_body, bind, modify, lift in Hrun. rewrite Hm in Hrun.
    discriminate Hrun.
Qed.

(** The stored entry of a channel with a successful sample: [round(mean,
    2)] and [round(stdev, 2)] of its successful pings. *)
Lemma stored_entry (s s' : state) (c : Z) (d : deque) :
  answered s s' ->
  c ∈ keys CHANNEL_TO_IP ->
  channel_ping_history s' !! c = Some d ->
  successful_pings d <> [] ->
  exists m sd,
    PyNum.mean (successful_pings d) = Ok m
    /\ PyNum.stdev (successful_pings d) = Ok sd
    /\ dict_get c (channel_ping_averages s')
       = Some (PyNum.round2 m, PyNum.round2 sd).
Proof.
  intros Href Hc Hd Hsome.
  apply answered_refreshed in Href.
  destruct (refreshed_history s s' Href) as (s1 & _ & _ & Hst).
  destruct (Hst c d Hc Hd) as [_ Hentry].
  destruct (Hentry Hsome) as (st & Hst' & Hget).
  unfold mean_and_stdev in Hst'.
  destruct (PyNum.mean (successful_pings d)) as [m | e]; [| discriminate].
  destruct (PyNum.stdev (successful_pings d)) as [sd | e]; [| discriminate].
  injection Hst' as <-. exists m, sd. repeat split. exact Hget.
Qed.

(** C10.  The sampler publishes whole milliseconds: the ping of a packet
    is 0 for a failed measurement and [int] of the measured latency, the
    latency without its fractional part, for a connection.  After a
    [/ping] command or an alert check that ran to its end, the entry of a
    channel with a successful sample is [round(mean, 2)] and
    [round(stdev, 2)] of the successful pings of its window, each the
    float of the nearest number of hundredths; the sections of the embed
    and the decision to notify are computed from the stored entries; and
    two channels whose means round to the same value are stored with the
    same average: the ranking puts neither above the other and no
    threshold tells them apart. *)
Theorem samples_and_statistics_are_quantized
  (s s' : state) (c : Z) (d : deque) :
  answered s s' ->
  c ∈ keys CHANNEL_TO_IP ->
  channel_ping_history s' !! c = Some d ->
  successful_pings d <> [] ->
  (forall self pr s0 s1,
     run_body self pr s0 = (Ok tt, s1) ->
     exists p,
       last (pending (_result_queue self) s1) = Some p
       /\ (success p = false -> ping p = 0)
       /\ (success p = true ->
           exists x,
             head (latency pr) = Some (Some x)
             /\ PyNum.int_of_float x = Ok (ping p)
             /\ forall sg mt e,
                  Prim2SF x = S754_finite sg mt e ->
                  ping p = (if sg then - Z.abs (ping p) else Z.abs (ping p))
                  /\ Z.abs (ping p) * denominator e <= numerator mt e
                     < (Z.abs (ping p) + 1) * denominator e))
  /\ (exists m sd,
        PyNum.mean (successful_pings d) = Ok m
        /\ PyNum.stdev (successful_pings d) = Ok sd
        /\ dict_get c (channel_ping_averages s')
           = Some (PyNum.round2 m, PyNum.round2 sd)
        /\ forall x sg mt e,
             x = m \/ x = sd ->
             Prim2SF x = S754_finite sg mt e ->
             exists h,
               PyNum.round2 x = PyNum.int_truediv (if sg then - h else h) 100
               /\ 0 <= h
               /\ 2 * Z.abs (100 * numerator mt e - h * denominator e)
                  <= denominator e)
  /\ (forall e,
        monitoring_commands.handle_ping_command s = (Ok e, s') ->
        e = monitoring_commands.embed_of (channel_ping_averages s'))
  /\ (forall q notify,
        queue s = Some q ->
        monitoring_commands.check_ping_and_notify s = (Ok notify, s') ->
        notify = alert (channel_ping_averages s'))
  /\ (forall c2 d2 m m2,
        c2 ∈ keys CHANNEL_TO_IP ->
        channel_ping_history s' !! c2 = Some d2 ->
        PyNum.mean (successful_pings d) = Ok m ->
        PyNum.mean (successful_pings d2) = Ok m2 ->
        PyNum.round2 m = PyNum.round2 m2 ->
        exists a a2,
          stored_average c s' = Some a
          /\ stored_average c2 s' = Some a2
          /\ a = a2
          /\ PrimFloat.ltb a a2 = false
          /\ PrimFloat.ltb a2 a = false
          /\ forall n, PyNum.gt_int a n = PyNum.gt_int a2 n).
Proof.
  intros Href Hc Hd Hsome.
  destruct (stored_entry s s' c d Href Hc Hd Hsome) as (m & sd & Hm & Hsd & Hget).
  split.
  { intros self pr s0 s1 Hrun.
    destruct (run_body_ping self pr s0 s1 Hrun) as (p & Hlast & Hfail & Hok).
    exists p. split; [exact Hlast |]. split; [exact Hfail |].
    intros Hp. destruct (Hok Hp) as (x & Hhead & Hint).
    exists x. split; [exact Hhead |]. split; [exact Hint |].
    intros sg mt e Hx. exact (int_of_float_truncates x sg mt e (ping p) Hx Hint). }
  split.
  { exists m, sd. split; [exact Hm |]. split; [exact Hsd |]. split; [exact Hget |].
    intros x sg mt e _ Hx. exact (round2_nearest_hundredth x sg mt e Hx). }
  split.
  { intros e He. exact (proj2 (handle_ping_command_refreshes s s' e He)). }
  split.
  { intros q notify Hq Hrun.
    exact (proj2 (check_ping_and_notify_refreshes s s' notify q Hq Hrun)). }
  intros c2 d2 m' m2 Hc2 Hd2 Hm' Hm2 Hround.
  rewrite Hm in Hm'. injection Hm' as <-.
  assert (Hsome2 : successful_pings d2 <> []).
  { intros Hnil. rewrite Hnil in Hm2. discriminate Hm2. }
  destruct (stored_entry s s' c2 d2 Href Hc2 Hd2 Hsome2)
    as (m2' & sd2 & Hm2' & _ & Hget2).
  rewrite Hm2 in Hm2'. injection Hm2' as <-.
  exists (PyNum.round2 m), (PyNum.round2 m2).
  unfold stored_average. rewrite Hget, Hget2. cbn [fmap option_fmap option_map fst].
  split; [reflexivity |]. split; [reflexivity |]. split; [exact Hround |].
  rewrite Hround, ltb_irrefl. repeat split; reflexivity.
Qed.

Lemma samples_and_statistics_are_quantized_witness :
  let s := monitoring two_pings [] in
  let s' := after_ping_command s in
  let d := {| items := two_pings; maxlen := 150 |} in
  (forall self pr s0 s1,
     run_body self pr s0 = (Ok tt, s1) ->
     exists p,
       last (pending (_result_queue self) s1) = Some p
       /\ (success p = false -> ping p = 0)
       /\ (success p = true ->
           exists x,
             head (latency pr) = Some (Some x)
             /\ PyNum.int_of_float x = Ok (ping p)
             /\ forall sg mt e,
                  Prim2SF x = S754_finite sg mt e ->
                  ping p = (if sg then - Z.abs (ping p) else Z.abs (ping p))
                  /\ Z.abs (ping p) * denominator e <= numerator mt e
                     < (Z.abs (ping p) + 1) * denominator e))
  /\ (exists m sd,
        PyNum.mean (successful_pings d) = Ok m
        /\ PyNum.stdev (successful_pings d) = Ok sd
        /\ dict_get 1 (channel_ping_averages s')
           = Some (PyNum.round2 m, PyNum.round2 sd)
        /\ forall x sg mt e,
             x = m \/ x = sd ->
             Prim2SF x = S754_finite sg mt e ->
             exists h,
               PyNum.round2 x = PyNum.int_truediv (if sg then - h else h) 100
               /\ 0 <= h
               /\ 2 * Z.abs (100 * numerator mt e - h * denominator e)
                  <= denominator e)
  /\ (forall e,
        monitoring_commands.handle_ping_command s = (Ok e, s') ->
        e = monitoring_commands.embed_of (channel_ping_averages s'))
  /\ (forall q notify,
        queue s = Some q ->
        monitoring_commands.check_ping_and_notify s = (Ok notify, s') ->
        notify = alert (channel_ping_averages s'))
  /\ (forall c2 d2 m m2,
        c2 ∈ keys CHANNEL_TO_IP ->
        channel_ping_history s' !! c2 = Some d2 ->
        PyNum.mean (successful_pings d) = Ok m ->
        PyNum.mean (successful_pings d2) = Ok m2 ->
        PyNum.round2 m = PyNum.round2 m2 ->
        exists a a2,
          stored_average 1 s' = Some a
          /\ stored_average c2 s' = Some a2
          /\ a = a2
          /\ PrimFloat.ltb a a2 = false
          /\ PrimFloat.ltb a2 a = false
          /\ forall n, PyNum.gt_int a n = PyNum.gt_int a2 n).
Proof.
  cbv zeta.
  apply (samples_and_statistics_are_quantized
           (monitoring two_pings [])
           (after_ping_command (monitoring two_pings []))
           1 {| items := two_pings; maxlen := 150 |}).
  - apply after_ping_command_answered. vm_compute. reflexivity.
  - by_compute.
  - vm_compute. reflexivity.
  - discriminate.
Defined.

(** C10, as stated, fails in its last part: the means 151/3 and 7500/149
    differ by 1/447, less than 0.005, and are stored as 50.33 and 50.34;
    the ranking puts channel 2 above channel 1. *)
Lemma close_means_are_told_apart :
  let s := monitoring close_means [] in
  let s' := after_ping_command s in
  let w1 := successful_pings {| items := window 1 s'; maxlen := 150 |} in
  let w2 := successful_pings {| items := window 2 s'; maxlen := 150 |} in
  PyNum.sum w1 = 151 /\ length w1 = 3%nat
  /\ PyNum.sum w2 = 7500 /\ length w2 = 149%nat
  /\ 1000 * Z.abs (151 * 149 - 7500 * 3) < 5 * (3 * 149)
  /\ stored_average 1 s' = Some (PyNum.int_truediv 5033 100)
  /\ stored_average 2 s' = Some (PyNum.int_truediv 5034 100)
  /\ PrimFloat.ltb (PyNum.int_truediv 5033 100) (PyNum.int_truediv 5034 100) = true
  /\ ranking s = [2; 1].
Proof.
  evaluate.
Qed.

(** * Further properties: rankings, failures, samplers, the reminder *)

(** ** The order of the floats *)

Lemma SFltb_asym (x y : spec_float) : SFltb x y = true -> SFltb y x = false.
Proof.
  order_cases x y; intros H; compare_cases.
Qed.

Lemma SFltb_trans (x y z : spec_float) :
  SFltb x y = true -> SFltb y z = true -> SFltb x z = true.
Proof.
  unfold SFltb, SFcompare;
  destruct x as [[] | [] | | [] ? ?], y as [[] | [] | | [] ? ?],
           z as [[] | [] | | [] ? ?];
  cbn; try congruence;
  change (Pos.compare_cont Eq) with Pos.compare in *;
  intros H1 H2; compare_cases.
Qed.

Lemma SFltb_neg_trans (x y z : spec_float) :
  y <> S754_nan ->
  SFltb x y = false -> SFltb y z = false -> SFltb x z = false.
Proof.
  unfold SFltb, SFcompare;
  destruct x as [[] | [] | | [] ? ?], y as [[] | [] | | [] ? ?],
           z as [[] | [] | | [] ? ?];
  cbn; try congruence;
  change (Pos.compare_cont Eq) with Pos.compare in *;
  intros Hy H1 H2; compare_cases.
Qed.

Lemma ltb_asym (x y : float) :
  PrimFloat.ltb x y = true -> PrimFloat.ltb y x = false.
Proof. rewrite !ltb_spec. apply SFltb_asym. Qed.

Lemma ltb_trans (x y z : float) :
  PrimFloat.ltb x y = true -> PrimFloat.ltb y z = true ->
  PrimFloat.ltb x z = true.
Proof. rewrite !ltb_spec. apply SFltb_trans. Qed.

Lemma ltb_neg_trans (x y z : float) :
  not_nan y ->
  PrimFloat.ltb x y = false -> PrimFloat.ltb y z = false ->
  PrimFloat.ltb x z = false.
Proof. rewrite !ltb_spec. apply SFltb_neg_trans. Qed.

(** ** Sorted lists *)

Lemma insert_desc_perm (key : item -> float) (x : item) (l : list item) :
  insert_desc key x l ≡ₚ x :: l.
Proof.
  induction l as [| y l IH]; cbn [insert_desc]; [reflexivity |].
  destruct (PrimFloat.ltb (key x) (key y)); [| reflexivity].
  rewrite IH. apply perm_swap.
Qed.

Lemma sorted_desc_perm (key : item -> float) (l : list item) :
  sorted_desc key l ≡ₚ l.
Proof.
  induction l as [| x l IH]; [reflexivity |].
  cbn [sorted_desc fold_right]. fold (sorted_desc key l).
  rewrite insert_desc_perm, IH. reflexivity.
Qed.

Lemma insert_asc_perm (key : item -> float) (x : item) (l : list item) :
  insert_asc key x l ≡ₚ x :: l.
Proof.
  induction l as [| y l IH]; cbn [insert_asc]; [reflexivity |].
  destruct (PrimFloat.ltb (key y) (key x)); [| reflexivity].
  rewrite IH. apply perm_swap.
Qed.

Lemma sorted_asc_perm (key : item -> float) (l : list item) :
  sorted_asc key l ≡ₚ l.
Proof.
  induction l as [| x l IH]; [reflexivity |].
  cbn [sorted_asc fold_right]. fold (sorted_asc key l).
  rewrite insert_asc_perm, IH. reflexivity.
Qed.

Lemma insert_desc_descending (key : item -> float) (x : item) (l : list item) :
  keys_not_nan key l -> descending key l -> descending key (insert_desc key x l).
Proof.
  induction l as [| y l IH]; intros Hnan Hl; cbn [insert_desc].
  - split; [constructor | exact I].
  - apply Forall_cons in Hnan as [Hy Hnan]. destruct Hl as [Hyl Hl].
    destruct (PrimFloat.ltb (key x) (key y)) eqn:Hxy.
    + split; [| apply IH; assumption].
      rewrite insert_desc_perm. constructor; [| exact Hyl].
      apply ltb_asym. exact Hxy.
    + split; [| split; assumption].
      constructor; [exact Hxy |].
      eapply Forall_impl; [exact Hyl |]. intros w Hw.
      apply (ltb_neg_trans _ (key y)); assumption.
Qed.

Lemma sorted_desc_descending (key : item -> float) (l : list item) :
  keys_not_nan key l -> descending key (sorted_desc key l).
Proof.
  induction l as [| x l IH]; intros Hnan; [exact I |].
  apply Forall_cons in Hnan as [_ Hnan].
  cbn [sorted_desc fold_right]. fold (sorted_desc key l).
  apply insert_desc_descending; [| apply IH; exact Hnan].
  unfold keys_not_nan. rewrite sorted_desc_perm. exact Hnan.
Qed.

Lemma insert_asc_ascending (key : item -> float) (x : item) (l : list item) :
  keys_not_nan key (x :: l) -> ascending key l -> ascending key (insert_asc key x l).
Proof.
  induction l as [| y l IH]; intros Hnan Hl; cbn [insert_asc].
  - split; [constructor | exact I].
  - apply Forall_cons in Hnan as [Hx Hnan].
    apply Forall_cons in Hnan as [Hy Hnan]. destruct Hl as [Hyl Hl].
    destruct (PrimFloat.ltb (key y) (key x)) eqn:Hyx.
    + split; [| apply IH; [constructor |]; assumption].
      rewrite insert_asc_perm. constructor; [| exact Hyl].
      apply ltb_asym. exact Hyx.
    + split; [| split; assumption].
      constructor; [exact Hyx |].
      eapply Forall_impl; [exact Hyl |]. intros w Hw.
      apply (ltb_neg_trans _ (key y)); assumption.
Qed.

Lemma sorted_asc_ascending (key : item -> float) (l : list item) :
  keys_not_nan key l -> ascending key (sorted_asc key l).
Proof.
  induction l as [| x l IH]; intros Hnan; [exact I |].
  pose proof Hnan as Hall. apply Forall_cons in Hnan as [Hx Hnan].
  cbn [sorted_asc fold_right]. fold (sorted_asc key l).
  apply insert_asc_ascending; [| apply IH; exact Hnan].
  unfold keys_not_nan. constructor; [exact Hx |].
  rewrite sorted_asc_perm. exact Hnan.
Qed.

Lemma descending_app (key : item -> float) (l1 l2 : list item) :
  descending key (l1 ++ l2)
  <-> descending key l1 /\ descending key l2
      /\ Forall (fun x =>
           Forall (fun y => PrimFloat.ltb (key x) (key y) = false) l2) l1.
Proof.
  induction l1 as [| x l1 IH]; cbn [app descending].
  - split; [intros H; repeat split; [exact H | constructor] | tauto].
  - rewrite Forall_app, IH, Forall_cons. tauto.
Qed.

Lemma ascending_app (key : item -> float) (l1 l2 : list item) :
  ascending key (l1 ++ l2)
  <-> ascending key l1 /\ ascending key l2
      /\ Forall (fun x =>
           Forall (fun y => PrimFloat.ltb (key y) (key x) = false) l2) l1.
Proof.
  induction l1 as [| x l1 IH]; cbn [app ascending].
  - split; [intros H; repeat split; [exact H | constructor] | tauto].
  - rewrite Forall_app, IH, Forall_cons. tauto.
Qed.

Lemma descending_rev (key : item -> float) (l : list item) :
  descending key l -> ascending key (rev l).
Proof.
  induction l as [| x l IH]; [intros _; exact I |].
  intros [Hx Hl]. cbn [rev]. apply ascending_app.
  split; [apply IH; exact Hl |].
  split; [split; [constructor | exact I] |].
  rewrite <- Permutation_rev.
  eapply Forall_impl; [exact Hx |].
  intros y Hy. constructor; [exact Hy | constructor].
Qed.

Lemma descending_take (key : item -> float) (n : nat) (l l0 : list item) :
  l ≡ₚ l0 -> descending key l -> highest key n l0 (take n l).
Proof.
  intros Hperm Hl. exists (drop n l).
  rewrite take_drop, length_take, (Permutation_length Hperm).
  rewrite <- (take_drop n l) in Hl. apply descending_app in Hl.
  split; [symmetry; exact Hperm |]. split; [reflexivity | tauto].
Qed.

Lemma ascending_take (key : item -> float) (n : nat) (l l0 : list item) :
  l ≡ₚ l0 -> ascending key l -> lowest key n l0 (take n l).
Proof.
  intros Hperm Hl. exists (drop n l).
  rewrite take_drop, length_take, (Permutation_length Hperm).
  rewrite <- (take_drop n l) in Hl. apply ascending_app in Hl.
  split; [symmetry; exact Hperm |]. split; [reflexivity | tauto].
Qed.

Lemma keys_not_nan_check (key : item -> float) (l : list item) :
  forallb (fun x => is_number (key x)) l = true -> keys_not_nan key l.
Proof.
  intros H. apply Forall_forall. intros x Hx.
  rewrite forallb_forall in H. specialize (H x).
  unfold is_number, not_nan in *.
  destruct (Prim2SF (key x)); try discriminate.
  discriminate H. apply list_elem_of_In. exact Hx.
Qed.

Lemma tied_apart (k a b : float) :
  not_nan k -> tied k a = true -> tied k b = true -> PrimFloat.ltb a b = false.
Proof.
  unfold tied. intros Hk Ha Hb.
  apply andb_prop in Ha as [_ Ha]. apply andb_prop in Hb as [Hb _].
  apply negb_true_iff in Ha, Hb.
  exact (ltb_neg_trans a k b Hk Ha Hb).
Qed.

Lemma tied_with_insert_desc (key : item -> float) (k : float) (x : item)
  (l : list item) :
  not_nan k ->
  tied_with key k (insert_desc key x l) = tied_with key k (x :: l).
Proof.
  intros Hk. unfold tied_with.
  induction l as [| y l IH]; cbn [insert_desc]; [reflexivity |].
  destruct (PrimFloat.ltb (key x) (key y)) eqn:Hxy; [| reflexivity].
  rewrite (filter_cons _ y (insert_desc key x l)), IH.
  rewrite !filter_cons.
  destruct (decide (tied k (key y) = true)) as [Hy | Hy];
    destruct (decide (tied k (key x) = true)) as [Hx | Hx];
    try reflexivity.
  rewrite (tied_apart k _ _ Hk Hx Hy) in Hxy. discriminate.
Qed.

Lemma tied_with_sorted_desc (key : item -> float) (k : float) (l : list item) :
  not_nan k -> tied_with key k (sorted_desc key l) = tied_with key k l.
Proof.
  intros Hk. induction l as [| x l IH]; [reflexivity |].
  cbn [sorted_desc fold_right]. fold (sorted_desc key l).
  rewrite tied_with_insert_desc by exact Hk.
  unfold tied_with in *. rewrite !filter_cons, IH. reflexivity.
Qed.

Lemma tied_with_insert_asc (key : item -> float) (k : float) (x : item)
  (l : list item) :
  not_nan k ->
  tied_with key k (insert_asc key x l) = tied_with key k (x :: l).
Proof.
  intros Hk. unfold tied_with.
  induction l as [| y l IH]; cbn [insert_asc]; [reflexivity |].
  destruct (PrimFloat.ltb (key y) (key x)) eqn:Hyx; [| reflexivity].
  rewrite (filter_cons _ y (insert_asc key x l)), IH.
  rewrite !filter_cons.
  destruct (decide (tied k (key y) = true)) as [Hy | Hy];
    destruct (decide (tied k (key x) = true)) as [Hx | Hx];
    try reflexivity.
  rewrite (tied_apart k _ _ Hk Hy Hx) in Hyx. discriminate.
Qed.

Lemma tied_with_sorted_asc (key : item -> float) (k : float) (l : list item) :
  not_nan k -> tied_with key k (sorted_asc key l) = tied_with key k l.
Proof.
  intros Hk. induction l as [| x l IH]; [reflexivity |].
  cbn [sorted_asc fold_right]. fold (sorted_asc key l).
  rewrite tied_with_insert_asc by exact Hk.
  unfold tied_with in *. rewrite !filter_cons, IH. reflexivity.
Qed.

Lemma tied_with_take (key : item -> float) (k : float) (n : nat) (l : list item) :
  tied_with key k (take n l) `prefix_of` tied_with key k l.
Proof.
  exists (tied_with key k (drop n l)). unfold tied_with.
  rewrite <- filter_app, take_drop. reflexivity.
Qed.

Lemma tied_with_rev (key : item -> float) (k : float) (l : list item) :
  tied_with key k (rev l) = rev (tied_with key k l).
Proof.
  unfold tied_with. induction l as [| x l IH]; [reflexivity |].
  cbn [rev]. rewrite filter_app, IH, filter_cons.
  destruct (decide (tied k (key x) = true)) as [Hx | Hx].
  - rewrite filter_cons_True by exact Hx. reflexivity.
  - rewrite filter_cons_False by exact Hx. cbn [rev]. rewrite app_nil_r. reflexivity.
Qed.

(** ** The sections of the report *)

Lemma embed_of_ranks (averages : dict stats) :
  keys_not_nan avg_of averages ->
  keys_not_nan std_of averages ->
  let e := monitoring_commands.embed_of averages in
  highest avg_of 5 averages (monitoring_commands.highest_average_ping e)
  /\ highest std_of 5 averages (monitoring_commands.highest_standard_deviation e)
  /\ lowest avg_of 5 averages (monitoring_commands.lowest_average_pings e)
  /\ lowest std_of 5 averages (monitoring_commands.lowest_standard_deviations e).
Proof.
  intros Havg Hstd. cbn.
  pose proof (sorted_desc_descending avg_of averages Havg) as Ha.
  pose proof (sorted_desc_descending std_of averages Hstd) as Hs.
  split; [| split; [| split]].
  - apply descending_take; [apply sorted_desc_perm | exact Ha].
  - apply descending_take; [apply sorted_desc_perm | exact Hs].
  - apply ascending_take; [| apply descending_rev; exact Ha].
    rewrite <- Permutation_rev. apply sorted_desc_perm.
  - apply ascending_take; [| apply descending_rev; exact Hs].
    rewrite <- Permutation_rev. apply sorted_desc_perm.
Qed.

(** X1.  When the [/ping] command answers, each of the four sections of
    its embed is made of five of the stored channels, or of all of them
    when fewer are stored: the first two list them by descending average
    and by descending standard deviation, and no channel they leave out
    has a greater value than one they list; the last two list them by
    ascending average and by ascending standard deviation, and no channel
    they leave out has a smaller value.  The stored values are numbers
    (no NaN). *)
Theorem ping_report_ranks_the_channels
  (s s' : state) (e : monitoring_commands.embed) :
  monitoring_commands.handle_ping_command s = (Ok e, s') ->
  keys_not_nan avg_of (channel_ping_averages s') ->
  keys_not_nan std_of (channel_ping_averages s') ->
  let stored := channel_ping_averages s' in
  highest avg_of 5 stored (monitoring_commands.highest_average_ping e)
  /\ highest std_of 5 stored (monitoring_commands.highest_standard_deviation e)
  /\ lowest avg_of 5 stored (monitoring_commands.lowest_average_pings e)
  /\ lowest std_of 5 stored (monitoring_commands.lowest_standard_deviations e).
Proof.
  intros Hcmd Havg Hstd stored.
  apply handle_ping_command_refreshes in Hcmd as [_ ->].
  apply embed_of_ranks; assumption.
Qed.

Lemma ping_report_ranks_the_channels_witness :
  let s := monitoring close_means [] in
  let s' := after_ping_command s in
  let e := monitoring_commands.embed_of (channel_ping_averages s') in
  highest avg_of 5 (channel_ping_averages s')
    (monitoring_commands.highest_average_ping e)
  /\ highest std_of 5 (channel_ping_averages s')
       (monitoring_commands.highest_standard_deviation e)
  /\ lowest avg_of 5 (channel_ping_averages s')
       (monitoring_commands.lowest_average_pings e)
  /\ lowest std_of 5 (channel_ping_averages s')
       (monitoring_commands.lowest_standard_deviations e).
Proof.
  cbv zeta.
  apply (ping_report_ranks_the_channels (monitoring close_means [])).
  - vm_compute. reflexivity.
  - apply keys_not_nan_check. vm_compute. reflexivity.
  - apply keys_not_nan_check. vm_compute. reflexivity.
Defined.

(** X2.  [get_best_channels(count)] and [get_most_stable_channels(count)],
    for a count that is not negative, return [count] of the stored
    channels, or all of them when fewer are stored, by ascending average
    and by ascending standard deviation, and no channel they leave out has
    a smaller value than one they return.  The stored values are numbers
    (no NaN). *)
Theorem best_channels_are_the_lowest (count : nat) (s : state) :
  keys_not_nan avg_of (channel_ping_averages s) ->
  keys_not_nan std_of (channel_ping_averages s) ->
  lowest avg_of count (channel_ping_averages s)
    (monitoring_commands.get_best_channels count s)
  /\ lowest std_of count (channel_ping_averages s)
       (monitoring_commands.get_most_stable_channels count s).
Proof.
  intros Havg Hstd.
  split; (apply ascending_take; [apply sorted_asc_perm |]).
  - apply sorted_asc_ascending. exact Havg.
  - apply sorted_asc_ascending. exact Hstd.
Qed.

Lemma best_channels_are_the_lowest_witness :
  let s := after_ping_command (monitoring close_means []) in
  lowest avg_of 1 (channel_ping_averages s)
    (monitoring_commands.get_best_channels 1 s)
  /\ lowest std_of 1 (channel_ping_averages s)
       (monitoring_commands.get_most_stable_channels 1 s).
Proof.
  cbv zeta.
  apply (best_channels_are_the_lowest 1 (after_ping_command (monitoring close_means []))).
  - apply keys_not_nan_check. vm_compute. reflexivity.
  - apply keys_not_nan_check. vm_compute. reflexivity.
Defined.

(** X3.  Channels whose stored values are tied keep the order in which
    they are stored in the sections of the [/ping] embed that list the
    highest values and in the results of [get_best_channels] and
    [get_most_stable_channels], and come in the reverse of that order in
    the sections that list the lowest values. *)
Theorem tied_channels_keep_their_order
  (averages : dict stats) (k : float) (count : nat) (s : state) :
  not_nan k ->
  let e := monitoring_commands.embed_of averages in
  tied_with avg_of k (monitoring_commands.highest_average_ping e)
    `prefix_of` tied_with avg_of k averages
  /\ tied_with std_of k (monitoring_commands.highest_standard_deviation e)
       `prefix_of` tied_with std_of k averages
  /\ tied_with avg_of k (monitoring_commands.lowest_average_pings e)
       `prefix_of` rev (tied_with avg_of k averages)
  /\ tied_with std_of k (monitoring_commands.lowest_standard_deviations e)
       `prefix_of` rev (tied_with std_of k averages)
  /\ tied_with avg_of k (monitoring_commands.get_best_channels count s)
       `prefix_of` tied_with avg_of k (channel_ping_averages s)
  /\ tied_with std_of k (monitoring_commands.get_most_stable_channels count s)
       `prefix_of` tied_with std_of k (channel_ping_averages s).
Proof.
  intros Hk e. subst e. cbn [monitoring_commands.embed_of
    monitoring_commands.highest_average_ping
    monitoring_commands.highest_standard_deviation
    monitoring_commands.lowest_average_pings
    monitoring_commands.lowest_standard_deviations].
  unfold monitoring_commands.get_best_channels,
    monitoring_commands.get_most_stable_channels.
  split; [| split; [| split; [| split; [| split]]]].
  - rewrite <- (tied_with_sorted_desc avg_of k averages Hk).
    apply tied_with_take.
  - rewrite <- (tied_with_sorted_desc std_of k averages Hk).
    apply tied_with_take.
  - rewrite <- (tied_with_sorted_desc avg_of k averages Hk).
    rewrite <- tied_with_rev. apply tied_with_take.
  - rewrite <- (tied_with_sorted_desc std_of k averages Hk).
    rewrite <- tied_with_rev. apply tied_with_take.
  - rewrite <- (tied_with_sorted_asc avg_of k (channel_ping_averages s) Hk).
    apply tied_with_take.
  - rewrite <- (tied_with_sorted_asc std_of k (channel_ping_averages s) Hk).
    apply tied_with_take.
Qed.

Lemma tied_channels_keep_their_order_witness :
  let k := PyNum.float_of_int 50 in
  let s := set_averages tied_store empty_state in
  let e := monitoring_commands.embed_of tied_store in
  tied_with avg_of k (monitoring_commands.highest_average_ping e)
    `prefix_of` tied_with avg_of k tied_store
  /\ tied_with std_of k (monitoring_commands.highest_standard_deviation e)
       `prefix_of` tied_with std_of k tied_store
  /\ tied_with avg_of k (monitoring_commands.lowest_average_pings e)
       `prefix_of` rev (tied_with avg_of k tied_store)
  /\ tied_with std_of k (monitoring_commands.lowest_standard_deviations e)
       `prefix_of` rev (tied_with std_of k tied_store)
  /\ tied_with avg_of k (monitoring_commands.get_best_channels 2 s)
       `prefix_of` tied_with avg_of k (channel_ping_averages s)
  /\ tied_with std_of k (monitoring_commands.get_most_stable_channels 2 s)
       `prefix_of` tied_with std_of k (channel_ping_averages s).
Proof.
  cbv zeta.
  apply (tied_channels_keep_their_order tied_store (PyNum.float_of_int 50) 2
           (set_averages tied_store empty_state)).
  vm_compute. discriminate.
Defined.

(** ** A packet of a channel without a window *)

Lemma drain_packets_unknown
  (q : qref) (l1 l2 : list Packet) (p : Packet) (s : state) :
  Forall (known_channel s) l1 ->
  channel_ping_history s !! channel p = None ->
  exists s',
    drain_packets q (l1 ++ p :: l2) s = (Raise KeyError, s')
    /\ channel_ping_history s' = ingest l1 (channel_ping_history s)
    /\ pending q s' = l2
    /\ queue s' = queue s
    /\ channel_ping_averages s' = channel_ping_averages s
    /\ ping_checking_threads s' = ping_checking_threads s.
Proof.
  revert s. induction l1 as [| p1 l1 IH]; intros s Hall Hp.
  - exists (set_queues (<[q := l2]> (queues s)) s).
    cbn [app drain_packets]. unfold bind at 1, modify at 1.
    unfold bind at 1, history_append at 1. cbn [channel_ping_history set_queues].
    rewrite Hp. split; [reflexivity |].
    split; [reflexivity |].
    split; [unfold pending; cbn; rewrite lookup_insert_eq; reflexivity |].
    split; [reflexivity |]. split; reflexivity.
  - apply Forall_cons in Hall as [[d Hd] Hall].
    set (s1 := set_history (<[channel p1 := deque_append d p1]> (channel_ping_history s))
                 (set_queues (<[q := l1 ++ p :: l2]> (queues s)) s)).
    destruct (IH s1) as (s' & Hrun & Hh & Hq & Hqueue & Ha & Ht).
    { eapply Forall_impl; [exact Hall |].
      intros p' Hp'. subst s1. unfold known_channel in *. cbn.
      apply lookup_insert_is_Some'. right. exact Hp'. }
    { subst s1. cbn. rewrite lookup_insert_ne; [exact Hp |].
      intros Heq. rewrite <- Heq, Hd in Hp. discriminate. }
    exists s'. split.
    { cbn [app drain_packets]. unfold bind at 1, modify at 1.
      unfold bind at 1, history_append at 1. cbn [channel_ping_history set_queues].
      rewrite Hd. exact Hrun. }
    split.
    { rewrite Hh.
      change (ingest (p1 :: l1) (channel_ping_history s))
        with (ingest l1 (ingest_one (channel_ping_history s) p1)).
      unfold ingest_one. rewrite Hd. reflexivity. }
    split; [exact Hq |]. split; [exact Hqueue |]. split; assumption.
Qed.

(** X4.  A pending packet whose channel has no window stops the drain of
    the queue: the packets before it have reached their windows, the
    packet itself is taken off the queue and reaches no window, the
    packets behind it stay on the queue, and the stored statistics are
    left as they were.  The [/ping] command, the [/ping_graph] command and
    the alert check of the module raise the [KeyError]; the alert check of
    [TaskManager] logs it and sends nothing. *)
Theorem unknown_channel_stops_the_drain
  (s : state) (q : qref) (l1 l2 : list Packet) (p : Packet) (c : Z) :
  queue s = Some q ->
  pending q s = l1 ++ p :: l2 ->
  Forall (known_channel s) l1 ->
  channel_ping_history s !! channel p = None ->
  exists s',
    monitoring_commands.handle_ping_command s = (Raise KeyError, s')
    /\ monitoring_commands.handle_ping_graph_command c s = (Raise KeyError, s')
    /\ monitoring_commands.check_ping_and_notify s = (Raise KeyError, s')
    /\ TaskManager.check_ping_and_notify s = (Ok false, s')
    /\ pending q s' = l2
    /\ channel_ping_history s' = ingest l1 (channel_ping_history s)
    /\ channel_ping_averages s' = channel_ping_averages s.
Proof.
  intros Hq Hpending Hknown Hp.
  destruct (drain_packets_unknown q l1 l2 p s Hknown Hp)
    as (s' & Hrun & Hh & Hrest & _ & Ha & _).
  assert (Hdrain : drain q s = (Raise KeyError, s')).
  { unfold drain, bind, get_state. rewrite Hpending. exact Hrun. }
  exists s'.
  split.
  { unfold monitoring_commands.handle_ping_command, bind at 1.
    rewrite (process_pending_queue s q Hq), Hdrain. reflexivity. }
  split.
  { unfold monitoring_commands.handle_ping_graph_command, bind at 1.
    rewrite (process_pending_queue s q Hq), Hdrain. reflexivity. }
  split.
  { unfold monitoring_commands.check_ping_and_notify, bind at 1, get_state.
    rewrite Hq. unfold bind at 1. rewrite Hdrain. reflexivity. }
  split.
  { unfold TaskManager.check_ping_and_notify, bind at 1, get_state.
    rewrite Hq. unfold bind at 1. rewrite Hdrain. reflexivity. }
  split; [exact Hrest |]. split; assumption.
Qed.

Lemma unknown_channel_stops_the_drain_witness :
  exists s',
    monitoring_commands.handle_ping_command with_stray_packet
      = (Raise KeyError, s')
    /\ monitoring_commands.handle_ping_graph_command 7 with_stray_packet
       = (Raise KeyError, s')
    /\ monitoring_commands.check_ping_and_notify with_stray_packet
       = (Raise KeyError, s')
    /\ TaskManager.check_ping_and_notify with_stray_packet = (Ok false, s')
    /\ pending 0%nat s' = [packet 3 40 4 true]
    /\ channel_ping_history s'
       = ingest [packet 7 45 0 true] (channel_ping_history with_stray_packet)
    /\ channel_ping_averages s' = channel_ping_averages with_stray_packet.
Proof.
  apply (unknown_channel_stops_the_drain with_stray_packet 0%nat
           [packet 7 45 0 true] [packet 3 40 4 true] stray_packet 7).
  - vm_compute. reflexivity.
  - vm_compute. reflexivity.
  - by_compute.
  - vm_compute. reflexivity.
Defined.

(** ** After [cleanup_monitoring] *)

Lemma update_averages_no_window (select : deque -> list Z) (s : state) :
  channel_ping_history s = ∅ ->
  update_averages select s = (Raise KeyError, s).
Proof.
  intros Hh. unfold update_averages.
  change (keys CHANNEL_TO_IP) with (1 :: tail (keys CHANNEL_TO_IP)).
  cbn [for_each]. unfold bind at 1, update_average, bind at 1, get_state.
  rewrite Hh, lookup_empty. reflexivity.
Qed.

Lemma drain_no_window (q : qref) (s : state) :
  channel_ping_history s = ∅ ->
  exists s',
    channel_ping_history s' = ∅
    /\ channel_ping_averages s' = channel_ping_averages s
    /\ queue s' = queue s
    /\ pending q s' = tail (pending q s)
    /\ drain q s = (match pending q s with
                    | [] => Ok tt
                    | _ :: _ => Raise KeyError
                    end, s').
Proof.
  intros Hh. unfold drain, bind at 1, get_state.
  destruct (pending q s) as [| p l] eqn:Hp.
  - exists s. rewrite Hp. repeat split; assumption.
  - exists (set_queues (<[q := l]> (queues s)) s).
    split; [exact Hh |]. split; [reflexivity |]. split; [reflexivity |].
    split; [unfold pending; cbn; rewrite lookup_insert_eq; reflexivity |].
    cbn [drain_packets]. unfold bind at 1, modify at 1.
    unfold bind at 1, history_append at 1. cbn [channel_ping_history set_queues].
    rewrite Hh, lookup_empty. reflexivity.
Qed.

(** X5.  [cleanup_monitoring] empties the thread list, the history and the
    stored statistics and leaves the queue in place.  From then on, until
    [initialize_monitoring] runs again, the [/ping] command raises a
    [KeyError] in every state; the alert check of the module raises it
    whenever there is a queue; the [/ping_graph] command raises it when a
    packet is pending and answers [No ping data available] otherwise; and
    [get_channel_statistics] returns [None] and [get_best_channels] and
    [get_most_stable_channels] the empty list. *)
Theorem commands_fail_after_cleanup (s : state) (c : Z) (count : nat) :
  let s' := snd (monitoring_commands.cleanup_monitoring s) in
  fst (monitoring_commands.cleanup_monitoring s) = Ok tt
  /\ queue s' = queue s
  /\ to_process s' = to_process s
  /\ fst (monitoring_commands.handle_ping_command s') = Raise KeyError
  /\ fst (monitoring_commands.check_ping_and_notify s')
     = match queue s with
       | Some _ => Raise KeyError
       | None => Ok false
       end
  /\ fst (monitoring_commands.handle_ping_graph_command c s')
     = match to_process s with
       | [] => Ok (monitoring_commands.NoPingData c)
       | _ :: _ => Raise KeyError
       end
  /\ monitoring_commands.get_channel_statistics c s' = Ok None
  /\ monitoring_commands.get_best_channels count s' = []
  /\ monitoring_commands.get_most_stable_channels count s' = [].
Proof.
  intros s'.
  assert (Hh : channel_ping_history s' = ∅) by reflexivity.
  assert (Ha : channel_ping_averages s' = []) by reflexivity.
  assert (Hq : queue s' = queue s) by reflexivity.
  assert (Hp : to_process s' = to_process s) by reflexivity.
  split; [reflexivity |]. split; [exact Hq |]. split; [exact Hp |].
  clearbody s'. rewrite <- Hq, <- Hp. unfold to_process. clear Hp Hq.
  split.
  { unfold monitoring_commands.handle_ping_command, bind at 1.
    unfold monitoring_commands.process_pending, bind at 1, get_state.
    destruct (queue s') as [q |].
    - destruct (drain_no_window q s' Hh) as (s1 & Hh1 & _ & _ & _ & ->).
      destruct (pending q s'); [| reflexivity].
      unfold bind at 1. rewrite (update_averages_no_window _ s1 Hh1). reflexivity.
    - unfold ret, bind at 1.
      rewrite (update_averages_no_window _ s' Hh). reflexivity. }
  split.
  { unfold monitoring_commands.check_ping_and_notify, bind at 1, get_state.
    destruct (queue s') as [q |]; [| reflexivity].
    unfold bind at 1.
    destruct (drain_no_window q s' Hh) as (s1 & Hh1 & _ & _ & _ & ->).
    destruct (pending q s'); [| reflexivity].
    unfold bind at 1. rewrite (update_averages_no_window _ s1 Hh1). reflexivity. }
  split.
  { unfold monitoring_commands.handle_ping_graph_command, bind at 1.
    unfold monitoring_commands.process_pending, bind at 1, get_state.
    destruct (queue s') as [q |].
    - destruct (drain_no_window q s' Hh) as (s1 & Hh1 & _ & _ & _ & ->).
      destruct (pending q s'); [| reflexivity].
      unfold bind, get_state. rewrite Hh1, lookup_empty. reflexivity.
    - unfold ret, bind, get_state. rewrite Hh, lookup_empty. reflexivity. }
  split.
  { unfold monitoring_commands.get_channel_statistics.
    rewrite Hh, lookup_empty. reflexivity. }
  unfold monitoring_commands.get_best_channels,
    monitoring_commands.get_most_stable_channels.
  rewrite Ha. split; apply take_nil.
Qed.

(** ** [get_channel_statistics] and the report *)

Lemma mean_and_stdev_Ok (pings : list Z) (st : stats) :
  mean_and_stdev pings = Ok st ->
  (2 <= length pings)%nat
  /\ exists m sd,
       PyNum.mean pings = Ok m /\ PyNum.stdev pings = Ok sd
       /\ st = (PyNum.round2 m, PyNum.round2 sd).
Proof.
  unfold mean_and_stdev.
  destruct (PyNum.mean pings) as [m | e] eqn:Hm; [| discriminate].
  destruct (PyNum.stdev pings) as [sd | e] eqn:Hsd; [| discriminate].
  intros Hst. injection Hst as <-.
  split; [| exists m, sd; repeat split; reflexivity].
  unfold PyNum.stdev in Hsd.
  destruct (Z.of_nat (length pings) <? 2) eqn:Hn; [discriminate |].
  apply Z.ltb_ge in Hn. lia.
Qed.

(** X6.  After a [/ping] command or an alert check of the module that ran
    to its end, [get_channel_statistics] of a channel of the table whose
    window holds a successful sample returns the average and the standard
    deviation that are stored for the channel, with the number of
    successful samples of the window, which is at least two. *)
Theorem channel_statistics_match_the_report (s s' : state) (c : Z) :
  answered s s' ->
  c ∈ keys CHANNEL_TO_IP ->
  Exists (fun p => success p = true) (window c s') ->
  exists avg sd n,
    monitoring_commands.get_channel_statistics c s' = Ok (Some (avg, sd, n))
    /\ dict_get c (channel_ping_averages s') = Some (avg, sd)
    /\ n = length (filter (fun p => success p) (window c s'))
    /\ (2 <= n)%nat.
Proof.
  intros Hans Hc Hex.
  destruct (refreshed_history s s' (answered_refreshed s s' Hans))
    as (s1 & _ & _ & Hstored).
  unfold window in *.
  destruct (channel_ping_history s' !! c) as [d |] eqn:Hd;
    [| apply Exists_nil in Hex; contradiction].
  destruct (Hstored c d Hc Hd) as [_ Hsome].
  assert (Hne : successful_pings d <> []).
  { unfold successful_pings. intros Hnil. apply map_eq_nil in Hnil.
    apply Exists_exists in Hex as (p & Hp & Hok).
    assert (Hin : p ∈ filter (fun p => success p) (items d)).
    { apply list_elem_of_filter. split; [rewrite Hok; exact I | exact Hp]. }
    rewrite Hnil in Hin. inversion Hin. }
  destruct (Hsome Hne) as (st & Hst & Hget).
  destruct (mean_and_stdev_Ok _ _ Hst) as (Hlen & m & sd & Hm & Hsd & ->).
  exists (PyNum.round2 m), (PyNum.round2 sd), (length (successful_pings d)).
  split.
  { unfold monitoring_commands.get_channel_statistics. rewrite Hd.
    destruct (successful_pings d) as [| x l] eqn:Hpings; [congruence |].
    rewrite Hm, Hsd.
    destruct (1 <? length (x :: l))%nat eqn:Hlt; [reflexivity |].
    apply Nat.ltb_ge in Hlt. lia. }
  split; [exact Hget |].
  unfold successful_pings in *. rewrite length_map in *.
  split; [reflexivity | exact Hlen].
Qed.

Lemma channel_statistics_match_the_report_witness :
  let s' := after_ping_command (monitoring two_pings []) in
  exists avg sd n,
    monitoring_commands.get_channel_statistics 1 s' = Ok (Some (avg, sd, n))
    /\ dict_get 1 (channel_ping_averages s') = Some (avg, sd)
    /\ n = length (filter (fun p => success p) (window 1 s'))
    /\ (2 <= n)%nat.
Proof.
  cbv zeta.
  apply (channel_statistics_match_the_report (monitoring two_pings [])).
  - apply after_ping_command_answered. vm_compute. reflexivity.
  - by_compute.
  - by_compute.
Defined.

(** ** The graph *)

Lemma handle_ping_graph_command_spec
  (s : state) (q : qref) (c : Z) (d0 : deque) :
  queue s = Some q ->
  channel_ping_history s !! c = Some d0 ->
  (length (items d0) <= maxlen d0)%nat ->
  Forall (known_channel s) (pending q s) ->
  let kept := last_n (maxlen d0) (items d0 ++ of_channel c (pending q s)) in
  let shown := filter (fun p => success p) kept in
  exists s',
    monitoring_commands.handle_ping_graph_command c s
    = (Ok (match shown with
           | [] => monitoring_commands.NoPingData c
           | _ :: _ =>
               monitoring_commands.Graph c (map time shown) (map ping shown)
           end), s')
    /\ window c s' = kept
    /\ to_process s' = [].
Proof.
  intros Hq Hd0 Hlen Hknown kept shown.
  destruct (drain_window s q c d0 Hd0 Hlen Hknown)
    as (s' & d & Hdrain & Hd & _ & Hitems & _ & _).
  destruct (drain_spec q s Hknown) as (s'' & Hdrain' & _ & Hq' & _ & _ & _ & Hp).
  rewrite Hdrain in Hdrain'. injection Hdrain' as <-.
  exists s'. split; [| split].
  - unfold monitoring_commands.handle_ping_graph_command, bind at 1.
    rewrite (process_pending_queue s q Hq), Hdrain.
    unfold bind at 1, get_state. rewrite Hd, Hitems. fold kept. fold shown.
    destruct shown; reflexivity.
  - unfold window. rewrite Hd. exact Hitems.
  - unfold to_process. rewrite Hq', Hq. exact Hp.
Qed.

(** X7.  The [/ping_graph] command of a channel with a window, on a queue
    whose packets all have a window: the packets of the channel that were
    pending join the window, of which the newest [maxlen] stay, and the
    graph plots the successful ones among these, in their order of
    arrival, each with its own time and ping; without a successful one the
    answer is [No ping data available]. *)
Theorem graph_plots_the_successful_samples
  (s : state) (q : qref) (c : Z) (d0 : deque) :
  queue s = Some q ->
  channel_ping_history s !! c = Some d0 ->
  (length (items d0) <= maxlen d0)%nat ->
  Forall (known_channel s) (pending q s) ->
  let kept := last_n (maxlen d0) (items d0 ++ of_channel c (pending q s)) in
  let shown := filter (fun p => success p) kept in
  fst (monitoring_commands.handle_ping_graph_command c s)
  = Ok (match shown with
        | [] => monitoring_commands.NoPingData c
        | _ :: _ => monitoring_commands.Graph c (map time shown) (map ping shown)
        end)
  /\ window c (snd (monitoring_commands.handle_ping_graph_command c s)) = kept
  /\ to_process (snd (monitoring_commands.handle_ping_graph_command c s)) = [].
Proof.
  intros Hq Hd0 Hlen Hknown kept shown.
  destruct (handle_ping_graph_command_spec s q c d0 Hq Hd0 Hlen Hknown)
    as (s' & Hcmd & Hw & Ht).
  fold kept shown in Hcmd, Hw. rewrite Hcmd. cbn [fst snd].
  split; [reflexivity | split; assumption].
Qed.

Lemma graph_plots_the_successful_samples_witness :
  let s := monitoring one_failed_nine_slow [] in
  let d0 := deque_new 150 in
  let kept := last_n (maxlen d0) (items d0 ++ of_channel 1 (pending 0%nat s)) in
  let shown := filter (fun p => success p) kept in
  fst (monitoring_commands.handle_ping_graph_command 1 s)
  = Ok (match shown with
        | [] => monitoring_commands.NoPingData 1
        | _ :: _ => monitoring_commands.Graph 1 (map time shown) (map ping shown)
        end)
  /\ window 1 (snd (monitoring_commands.handle_ping_graph_command 1 s)) = kept
  /\ to_process (snd (monitoring_commands.handle_ping_graph_command 1 s)) = [].
Proof.
  apply (graph_plots_the_successful_samples
           (monitoring one_failed_nine_slow []) 0%nat 1 (deque_new 150)).
  - vm_compute. reflexivity.
  - vm_compute. reflexivity.
  - cbn. lia.
  - by_compute.
Defined.

(** ** The sweep and the channels *)

Lemma channels_of_the_swept (q : qref) (l : list PingCheckingThread) :
  Forall (fun t => is_alive t = true -> _handled t = false) l ->
  map _channel
    (filter (fun t => running t) l
     ++ map (fun t => replacement q (ip_of t) t)
          (filter (fun t => negb (is_alive t)) l))
  ≡ₚ map _channel l.
Proof.
  induction l as [| t l IH]; intros Hall; [reflexivity |].
  apply Forall_cons in Hall as [Ht Hall]. specialize (IH Hall).
  rewrite !filter_cons. unfold running at 1.
  destruct t as [q0 ip port c handled alive]. cbn in Ht.
  destruct alive.
  - rewrite (Ht eq_refl). cbn. constructor. exact IH.
  - cbn. rewrite <- IH, !map_app. cbn. symmetry. apply Permutation_middle.
Qed.

Lemma sweep_of_running (q : qref) (s : state) :
  Forall (fun t => running t = true) (ping_checking_threads s) ->
  restart_dead_threads q s = (Ok tt, s).
Proof.
  intros Hall. unfold restart_dead_threads, bind at 1, get_state.
  assert (Hdead : filter (fun t => negb (is_alive t)) (ping_checking_threads s) = []).
  { induction (ping_checking_threads s) as [| t l IH]; [reflexivity |].
    apply Forall_cons in Hall as [Ht Hall]. rewrite filter_cons.
    destruct t as [q0 ip port c handled alive]. unfold running in Ht. cbn in Ht.
    destruct alive; [| discriminate]. cbn. apply IH, Hall. }
  assert (Hkeep : filter (fun t => negb (_handled t))
                    (map mark_dead (ping_checking_threads s))
                  = ping_checking_threads s).
  { rewrite filter_mark_dead.
    induction (ping_checking_threads s) as [| t l IH]; [reflexivity |].
    apply Forall_cons in Hall as [Ht Hall].
    rewrite filter_cons_True by (rewrite Ht; exact I).
    f_equal. apply IH; [exact Hall |].
    rewrite filter_cons in Hdead.
    destruct (decide (negb (is_alive t))); [discriminate | exact Hdead]. }
  rewrite Hdead, Hkeep. cbn. destruct s. reflexivity.
Qed.

(** X8.  The sweep of a thread list in which no running thread is marked
    [_handled] neither loses nor adds a channel: the channels of the
    threads after the sweep are those before it, each as often as before.
    Every thread of the list then runs, and a second sweep, of the module
    or of [TaskManager], changes nothing. *)
Theorem sweep_keeps_the_channels (s : state) (q : qref) :
  queue s = Some q ->
  Forall known_thread (ping_checking_threads s) ->
  Forall (fun t => is_alive t = true -> _handled t = false)
    (ping_checking_threads s) ->
  exists s',
    monitoring_commands.check_threads_and_restart s = (Ok tt, s')
    /\ map _channel (ping_checking_threads s')
       ≡ₚ map _channel (ping_checking_threads s)
    /\ Forall (fun t => running t = true) (ping_checking_threads s')
    /\ monitoring_commands.check_threads_and_restart s' = (Ok tt, s')
    /\ TaskManager.check_threads_and_restart s' = (Ok tt, s').
Proof.
  intros Hq Hknown Hmarks.
  pose proof (restart_dead_threads_spec q s Hknown) as Hrun. cbv zeta in Hrun.
  set (l' := filter (fun t => running t) (ping_checking_threads s)
             ++ map (fun t => replacement q (ip_of t) t)
                  (filter (fun t => negb (is_alive t)) (ping_checking_threads s)))
    in Hrun.
  assert (Hall : Forall (fun t => running t = true) l').
  { apply Forall_app. split; apply Forall_forall; intros t Hin.
    - apply list_elem_of_filter in Hin as [Hr _].
      destruct (running t); [reflexivity | contradiction].
    - apply list_elem_of_fmap in Hin as (t0 & -> & _). reflexivity. }
  assert (Hagain : restart_dead_threads q (set_threads l' s)
                   = (Ok tt, set_threads l' s))
    by (apply sweep_of_running; exact Hall).
  exists (set_threads l' s).
  split.
  { unfold monitoring_commands.check_threads_and_restart, bind, get_state.
    rewrite Hq. exact Hrun. }
  split; [apply channels_of_the_swept; exact Hmarks |].
  split; [exact Hall |].
  split.
  - unfold monitoring_commands.check_threads_and_restart, bind, get_state.
    cbn [queue set_threads]. rewrite Hq. exact Hagain.
  - unfold TaskManager.check_threads_and_restart, bind, get_state, try_except.
    cbn [queue set_threads]. rewrite Hq, Hagain. reflexivity.
Qed.

Lemma sweep_keeps_the_channels_witness :
  exists s',
    monitoring_commands.check_threads_and_restart (one_dead_thread 1000)
      = (Ok tt, s')
    /\ map _channel (ping_checking_threads s')
       ≡ₚ map _channel (ping_checking_threads (one_dead_thread 1000))
    /\ Forall (fun t => running t = true) (ping_checking_threads s')
    /\ monitoring_commands.check_threads_and_restart s' = (Ok tt, s')
    /\ TaskManager.check_threads_and_restart s' = (Ok tt, s').
Proof.
  apply (sweep_keeps_the_channels (one_dead_thread 1000) 0%nat).
  - reflexivity.
  - by_compute.
  - repeat constructor; discriminate.
Defined.

(** ** What [initialize_monitoring] leaves *)

Lemma fresh_windows_lookup_other (channels : list Z) (h : gmap Z deque) (c : Z) :
  c ∉ channels -> fresh_windows channels h !! c = h !! c.
Proof.
  revert h. induction channels as [| c' channels IH]; intros h Hc; [reflexivity |].
  apply not_elem_of_cons in Hc as [Hne Hc].
  cbn [fresh_windows fold_left].
  change (fold_left (fun h c => <[c := deque_new 150]> h) channels
            (<[c' := deque_new 150]> h))
    with (fresh_windows channels (<[c' := deque_new 150]> h)).
  rewrite (IH _ Hc). apply lookup_insert_ne. congruence.
Qed.

Lemma initialize_monitoring_threads
  (q : qref) (entries : list (Z * string)) (s : state) :
  for_each entries (fun entry =>
    modify (fun s =>
      set_history (<[fst entry := deque_new 150]> (channel_ping_history s))
        (set_threads
           (ping_checking_threads s ++ [new_thread q (fst entry) (snd entry)]) s)))
    s
  = (Ok tt,
     set_history (fresh_windows (keys entries) (channel_ping_history s))
       (set_threads
          (ping_checking_threads s
           ++ map (fun entry => new_thread q (fst entry) (snd entry)) entries) s)).
Proof.
  revert s. induction entries as [| e entries IH]; intros s.
  - cbn. rewrite app_nil_r. destruct s; reflexivity.
  - cbn [for_each]. unfold bind at 1, modify at 1. rewrite IH.
    cbn [channel_ping_history ping_checking_threads set_history set_threads
         keys map fresh_windows fold_left].
    rewrite <- app_assoc. reflexivity.
Qed.

Lemma update_averages_nothing_selected
  (select : deque -> list Z) (channels : list Z) (s : state) :
  (forall c, c ∈ channels ->
   exists d, channel_ping_history s !! c = Some d /\ select d = []) ->
  for_each channels (update_average select) s = (Ok tt, s).
Proof.
  induction channels as [| c channels IH]; intros Hall; [reflexivity |].
  destruct (Hall c) as (d & Hd & Hnil); [apply elem_of_cons; left; reflexivity |].
  cbn [for_each]. unfold bind at 1, update_average at 1, bind at 1, get_state.
  rewrite Hd, Hnil. cbn. apply IH.
  intros c' Hc'. apply Hall. apply elem_of_cons. right. exact Hc'.
Qed.

Lemma initialize_monitoring_post (s0 : state) :
  exists q s1,
    monitoring_commands.initialize_monitoring s0 = (Ok tt, s1)
    /\ queues s0 !! q = None
    /\ queue s1 = Some q
    /\ queues s1 = <[q := []]> (queues s0)
    /\ ping_checking_threads s1
       = map (fun entry => new_thread q (fst entry) (snd entry)) CHANNEL_TO_IP
    /\ (forall c,
          channel_ping_history s1 !! c
          = if decide (c ∈ keys CHANNEL_TO_IP) then Some (deque_new 150)
            else None)
    /\ channel_ping_averages s1 = channel_ping_averages s0
    /\ clock s1 = clock s0.
Proof.
  set (q := fresh (dom (queues s0)) : qref).
  set (sa := set_history ∅ (set_threads []
               (set_queue (Some q) (set_queues (<[q := []]> (queues s0)) s0)))).
  set (s1 := set_history (fresh_windows (keys CHANNEL_TO_IP) ∅)
               (set_threads
                  (map (fun entry => new_thread q (fst entry) (snd entry))
                     CHANNEL_TO_IP) sa)).
  exists q, s1.
  split.
  { unfold monitoring_commands.initialize_monitoring.
    unfold bind at 1, get_state at 1. fold q.
    unfold bind at 1, modify at 1.
    unfold bind at 1, modify at 1.
    unfold bind at 1, modify at 1.
    rewrite initialize_monitoring_threads. reflexivity. }
  split; [apply not_elem_of_dom; apply is_fresh |].
  split; [reflexivity |]. split; [reflexivity |]. split; [reflexivity |].
  split; [| split; reflexivity].
  intros c. subst s1. cbn [channel_ping_history set_history].
  destruct (decide (c ∈ keys CHANNEL_TO_IP)) as [Hc | Hc].
  - apply fresh_windows_lookup. left. exact Hc.
  - rewrite (fresh_windows_lookup_other _ _ _ Hc). apply lookup_empty.
Qed.

(** X9.  [initialize_monitoring] makes a queue object that no queue of the
    process was before, starts one running thread per entry of the
    channel table, in the order of the table and all on the new queue,
    and gives exactly the channels of the table a window, empty and of
    150 packets; the windows and the thread list it found are discarded.
    The stored statistics stay: a [/ping] command that follows before a
    packet arrives reports the statistics stored before the
    initialization. *)
Theorem initialize_monitoring_starts_afresh (s0 : state) :
  exists q s1,
    monitoring_commands.initialize_monitoring s0 = (Ok tt, s1)
    /\ queues s0 !! q = None
    /\ queue s1 = Some q
    /\ queues s1 = <[q := []]> (queues s0)
    /\ ping_checking_threads s1
       = map (fun entry => new_thread q (fst entry) (snd entry)) CHANNEL_TO_IP
    /\ (forall c,
          channel_ping_history s1 !! c
          = if decide (c ∈ keys CHANNEL_TO_IP) then Some (deque_new 150)
            else None)
    /\ channel_ping_averages s1 = channel_ping_averages s0
    /\ monitoring_commands.handle_ping_command s1
       = (Ok (monitoring_commands.embed_of (channel_ping_averages s0)), s1).
Proof.
  destruct (initialize_monitoring_post s0)
    as (q & s1 & Hrun & Hnew & Hq & Hqs & Ht & Hwin & Ha & _).
  exists q, s1.
  split; [exact Hrun |]. split; [exact Hnew |]. split; [exact Hq |].
  split; [exact Hqs |]. split; [exact Ht |]. split; [exact Hwin |].
  split; [exact Ha |].
  unfold monitoring_commands.handle_ping_command, bind at 1.
  assert (Hpp : monitoring_commands.process_pending s1 = (Ok tt, s1)).
  { rewrite (process_pending_queue s1 q Hq).
    unfold drain, bind, get_state.
    replace (pending q s1) with (@nil Packet); [reflexivity |].
    unfold pending. rewrite Hqs, lookup_insert_eq. reflexivity. }
  rewrite Hpp. unfold bind at 1.
  unfold update_averages.
  rewrite update_averages_nothing_selected;
    [unfold bind, get_state, ret; rewrite Ha; reflexivity |].
  intros c Hc. exists (deque_new 150). rewrite Hwin.
  destruct (decide (c ∈ keys CHANNEL_TO_IP)); [split; reflexivity | contradiction].
Qed.

(** ** The queue over the life of a sampler *)

Lemma last_n_snoc {A} (n : nat) (l : list A) (x : A) :
  last_n (S n) (l ++ [x]) = last_n n l ++ [x].
Proof.
  unfold last_n. rewrite length_app. cbn [length].
  replace (length l + 1 - S n)%nat with (length l - n)%nat by lia.
  apply drop_app_le. lia.
Qed.

Lemma drop_excess_last_n (l : list Packet) :
  drop_excess l = last_n (Z.to_nat MAX_QUEUE_SIZE) l.
Proof.
  induction l as [| p l IH].
  - rewrite drop_excess_le; [reflexivity | unfold MAX_QUEUE_SIZE; cbn [length]; lia].
  - unfold drop_excess; fold drop_excess.
    destruct (Z.ltb_spec MAX_QUEUE_SIZE (Z.of_nat (length (p :: l)))) as [Hlt | Hge].
    + rewrite IH. unfold last_n. cbn [length] in *.
      replace (S (length l) - Z.to_nat MAX_QUEUE_SIZE)%nat
        with (S (length l - Z.to_nat MAX_QUEUE_SIZE))%nat by lia.
      reflexivity.
    + symmetry. apply last_n_all. lia.
Qed.

Lemma run_body_raises (self : PingCheckingThread) (pr : probe) (s : state) (e : exn) :
  measured (latency pr) = Raise e ->
  run_body self pr s = (Raise e, set_clock (clock s + elapsed pr) s).
Proof.
  intros Hm. unfold run_body, bind, modify, lift. rewrite Hm. reflexivity.
Qed.

Lemma run_published (self : PingCheckingThread) (probes : list probe) (s : state) :
  let q := _result_queue self in
  let s' := snd (run self probes s) in
  pending q s' = trimmed (pending q s) (published self (clock s) probes)
  /\ (forall q', q' <> q -> queues s' !! q' = queues s !! q')
  /\ queue s' = queue s
  /\ channel_ping_history s' = channel_ping_history s
  /\ channel_ping_averages s' = channel_ping_averages s
  /\ ping_checking_threads s' = ping_checking_threads s.
Proof.
  intros q. revert s. induction probes as [| pr probes IH]; intros s s'.
  - subst s'. cbn [run fst snd published trimmed].
    split; [reflexivity |]. split; [reflexivity |]. split; [reflexivity |].
    split; [reflexivity |]. split; reflexivity.
  - subst s'. cbn [run published].
    destruct (measured (latency pr)) as [[n ok] | e] eqn:Hm.
    + rewrite (run_body_measured self pr s n ok Hm). fold q.
      set (packet := {| channel := _channel self; ping := n;
                        time := clock s + elapsed pr; success := ok |}).
      set (s1 := set_queues
                   (<[q := drop_excess (pending q s) ++ [packet]]> (queues s))
                   (set_clock (clock s + elapsed pr) s)).
      destruct (IH s1) as (Hp & Hq' & Hqueue & Hh & Ha & Ht).
      assert (Hp1 : pending q s1
                    = last_n (Z.to_nat (MAX_QUEUE_SIZE + 1)) (pending q s ++ [packet])).
      { subst s1. unfold pending at 1. cbn [queues set_queues].
        rewrite lookup_insert_eq. cbn [default from_option id].
        rewrite drop_excess_last_n.
        replace (Z.to_nat (MAX_QUEUE_SIZE + 1)) with (S (Z.to_nat MAX_QUEUE_SIZE))
          by (unfold MAX_QUEUE_SIZE; lia).
        symmetry. apply last_n_snoc. }
      split.
      { rewrite Hp. change (clock s1) with (clock s + elapsed pr).
        unfold trimmed at 2.
        destruct (published self (clock s + elapsed pr) probes) as [| p' new'];
          [exact Hp1 |].
        unfold trimmed.
        rewrite Hp1, last_n_idem_app, <- app_assoc. reflexivity. }
      split.
      { intros q' Hne. rewrite (Hq' q' Hne). subst s1. cbn [queues set_queues].
        apply lookup_insert_ne. congruence. }
      split; [exact Hqueue |]. split; [exact Hh |]. split; [exact Ha | exact Ht].
    + rewrite (run_body_raises self pr s e Hm). cbn [fst snd trimmed].
      split; [reflexivity |]. split; [reflexivity |]. split; [reflexivity |].
      split; [reflexivity |]. split; reflexivity.
Qed.

Lemma published_channel (self : PingCheckingThread) (now : datetime)
  (probes : list probe) :
  Forall (fun p => channel p = _channel self) (published self now probes).
Proof.
  revert now. induction probes as [| pr probes IH]; intros now; [constructor |].
  cbn [published]. destruct (measured (latency pr)) as [[n ok] | e];
    [| constructor].
  constructor; [reflexivity | apply IH].
Qed.

Lemma published_length (self : PingCheckingThread) (probes : list probe) (s : state) :
  (length (published self (clock s) probes) <= length probes)%nat
  /\ (is_alive (fst (run self probes s)) = true ->
      length (published self (clock s) probes) = length probes).
Proof.
  revert s. induction probes as [| pr probes IH]; intros s.
  - split; [cbn; lia | reflexivity].
  - cbn [run published].
    destruct (measured (latency pr)) as [[n ok] | e] eqn:Hm.
    + rewrite (run_body_measured self pr s n ok Hm).
      match goal with |- context [run self probes ?s1] =>
        destruct (IH s1) as [Hle Halive] end.
      cbn [clock set_queues set_clock] in Hle, Halive.
      split; [cbn [length]; lia |].
      intros H. cbn [length]. rewrite (Halive H). reflexivity.
    + rewrite (run_body_raises self pr s e Hm).
      split; [cbn; lia | cbn; discriminate].
Qed.

(** X10.  Over any number of turns of a sampler, its queue holds the
    packets it held before followed by those the sampler published, less
    the oldest ones: once the sampler has published a packet, the newest
    [MAX_QUEUE_SIZE + 1] of them.  The published packets carry the
    channel of the sampler, and there is one per turn as long as the
    sampler lives.  The sampler touches no other queue, no window, no
    stored statistic and not the thread list. *)
Theorem sampler_keeps_the_newest_packets
  (self : PingCheckingThread) (probes : list probe) (s : state) :
  let q := _result_queue self in
  let s' := snd (run self probes s) in
  let new := published self (clock s) probes in
  pending q s'
  = match new with
    | [] => pending q s
    | _ :: _ => last_n (Z.to_nat (MAX_QUEUE_SIZE + 1)) (pending q s ++ new)
    end
  /\ Forall (fun p => channel p = _channel self) new
  /\ (length new <= length probes)%nat
  /\ (is_alive (fst (run self probes s)) = true -> length new = length probes)
  /\ (forall q', q' <> q -> queues s' !! q' = queues s !! q')
  /\ queue s' = queue s
  /\ channel_ping_history s' = channel_ping_history s
  /\ channel_ping_averages s' = channel_ping_averages s
  /\ ping_checking_threads s' = ping_checking_threads s.
Proof.
  intros q s' new.
  destruct (run_published self probes s) as (Hp & Hrest).
  destruct (published_length self probes s) as [Hle Halive].
  split; [exact Hp |].
  split; [apply published_channel |].
  split; [exact Hle |]. split; [exact Halive | exact Hrest].
Qed.

(** ** The channels of the stored statistics *)

Lemma keys_dict_set {V} (k : Z) (v : V) (d : dict V) :
  keys d `prefix_of` keys (dict_set k v d).
Proof.
  induction d as [| [k' v'] d IH]; cbn [dict_set keys map].
  - apply prefix_nil.
  - destruct (Z.eqb_spec k' k) as [-> | Hne]; cbn [map fst].
    + reflexivity.
    + apply prefix_cons. exact IH.
Qed.

Lemma update_average_keys (select : deque -> list Z) (c : Z) (s : state) :
  keys (channel_ping_averages s)
    `prefix_of` keys (channel_ping_averages (snd (update_average select c s))).
Proof.
  unfold update_average, bind, get_state.
  destruct (channel_ping_history s !! c) as [d |]; [| reflexivity].
  destruct (length (select d) =? 0)%nat; [reflexivity |].
  unfold lift. destruct (mean_and_stdev (select d)) as [st | e]; [| reflexivity].
  cbn. apply keys_dict_set.
Qed.

Lemma update_averages_keys
  (select : deque -> list Z) (channels : list Z) (s : state) :
  keys (channel_ping_averages s)
    `prefix_of`
    keys (channel_ping_averages (snd (for_each channels (update_average select) s))).
Proof.
  revert s. induction channels as [| c channels IH]; intros s; [reflexivity |].
  cbn [for_each]. unfold bind.
  pose proof (update_average_keys select c s) as Hc.
  destruct (update_average select c s) as [[[] | e] s1]; cbn [snd] in *.
  - etransitivity; [exact Hc | apply IH].
  - exact Hc.
Qed.

Lemma drain_packets_averages (q : qref) (l : list Packet) (s : state) :
  channel_ping_averages (snd (drain_packets q l s)) = channel_ping_averages s.
Proof.
  revert s. induction l as [| p l IH]; intros s; [reflexivity |].
  cbn [drain_packets]. unfold bind at 1, modify at 1.
  unfold bind at 1, history_append at 1. cbn [channel_ping_history set_queues].
  destruct (channel_ping_history s !! channel p) as [d |]; [| reflexivity].
  rewrite IH. reflexivity.
Qed.

Lemma process_pending_averages (s : state) :
  channel_ping_averages (snd (monitoring_commands.process_pending s))
  = channel_ping_averages s.
Proof.
  unfold monitoring_commands.process_pending, bind, get_state.
  destruct (queue s) as [q |]; [| reflexivity].
  unfold drain, bind, get_state. apply drain_packets_averages.
Qed.

(** X11.  No command removes a channel from the stored statistics or
    moves it: after the [/ping] command or an alert check, of the module
    or of [TaskManager], whether it ran to its end or raised, the channels
    stored before are still stored, in the same order, and the channels
    that are new come behind them.  The [/ping_graph] command leaves the
    stored statistics as they are. *)
Theorem stored_channels_stay (s : state) (c : Z) :
  keys (channel_ping_averages s)
    `prefix_of`
    keys (channel_ping_averages (snd (monitoring_commands.handle_ping_command s)))
  /\ keys (channel_ping_averages s)
       `prefix_of`
       keys (channel_ping_averages
               (snd (monitoring_commands.check_ping_and_notify s)))
  /\ keys (channel_ping_averages s)
       `prefix_of`
       keys (channel_ping_averages (snd (TaskManager.check_ping_and_notify s)))
  /\ channel_ping_averages
       (snd (monitoring_commands.handle_ping_graph_command c s))
     = channel_ping_averages s.
Proof.
  assert (Hrefresh : forall select,
            keys (channel_ping_averages s)
              `prefix_of`
              keys (channel_ping_averages
                      (snd ((monitoring_commands.process_pending ;;
                             update_averages select) s)))).
  { intros select. unfold bind.
    pose proof (process_pending_averages s) as Hp.
    destruct (monitoring_commands.process_pending s) as [[[] | e] s1];
      cbn [snd] in *.
    - rewrite <- Hp. apply update_averages_keys.
    - rewrite Hp. reflexivity. }
  split; [| split; [| split]].
  - specialize (Hrefresh successful_pings). unfold bind in Hrefresh.
    unfold monitoring_commands.handle_ping_command, bind.
    destruct (monitoring_commands.process_pending s) as [[[] | e] s1];
      [| exact Hrefresh].
    destruct (update_averages successful_pings s1) as [[[] | e] s2];
      exact Hrefresh.
  - unfold monitoring_commands.check_ping_and_notify, bind at 1, get_state.
    destruct (queue s) as [q |] eqn:Hq; [| reflexivity].
    specialize (Hrefresh successful_pings). unfold bind in Hrefresh.
    rewrite (process_pending_queue s q Hq) in Hrefresh. unfold bind.
    destruct (drain q s) as [[[] | e] s1]; [| exact Hrefresh].
    destruct (update_averages successful_pings s1) as [[[] | e] s2];
      exact Hrefresh.
  - unfold TaskManager.check_ping_and_notify, bind at 1, get_state.
    destruct (queue s) as [q |] eqn:Hq; [| reflexivity].
    specialize (Hrefresh all_pings). unfold bind in Hrefresh.
    rewrite (process_pending_queue s q Hq) in Hrefresh. unfold bind.
    destruct (drain q s) as [[[] | e] s1]; [| exact Hrefresh].
    destruct (update_averages all_pings s1) as [[[] | e] s2];
      exact Hrefresh.
  - unfold monitoring_commands.handle_ping_graph_command, bind at 1.
    pose proof (process_pending_averages s) as Hp.
    destruct (monitoring_commands.process_pending s) as [[[] | e] s1];
      cbn [snd] in *; [| exact Hp].
    unfold bind, get_state.
    destruct (map ping _); exact Hp.
Qed.

(** ** From the sampler to the graph *)

Lemma of_channel_all (c : Z) (l : list Packet) :
  Forall (fun p => channel p = c) l -> of_channel c l = l.
Proof.
  unfold of_channel. induction 1 as [| p l Hp _ IH]; [reflexivity |].
  rewrite filter_cons_True by exact Hp. rewrite IH. reflexivity.
Qed.

(** X12.  After [initialize_monitoring], the thread of a channel of the
    table is in the thread list; whatever it measures over its turns, up
    to as many as the queue holds, is what the [/ping_graph] command of
    the channel then plots: the successful ones among the last 150 packets
    the thread published, with the time of their measurement and the
    latency cut to whole milliseconds. *)
Theorem samples_reach_the_graph
  (s0 : state) (c : Z) (ip_addr : string) (probes : list probe) :
  (c, ip_addr) ∈ CHANNEL_TO_IP ->
  (length probes <= Z.to_nat (MAX_QUEUE_SIZE + 1))%nat ->
  exists q s1,
    monitoring_commands.initialize_monitoring s0 = (Ok tt, s1)
    /\ new_thread q c ip_addr ∈ ping_checking_threads s1
    /\ let sampler := new_thread q c ip_addr in
       let s2 := snd (run sampler probes s1) in
       let shown :=
         filter (fun p => success p)
           (last_n 150 (published sampler (clock s0) probes)) in
       fst (monitoring_commands.handle_ping_graph_command c s2)
       = Ok (match shown with
             | [] => monitoring_commands.NoPingData c
             | _ :: _ =>
                 monitoring_commands.Graph c (map time shown) (map ping shown)
             end).
Proof.
  intros Hentry Hfew.
  destruct (initialize_monitoring_post s0)
    as (q & s1 & Hrun & _ & Hq & Hqs & Ht & Hwin & _ & Hclock).
  exists q, s1.
  split; [exact Hrun |].
  split.
  { rewrite Ht. apply list_elem_of_fmap. exists (c, ip_addr).
    split; [reflexivity | exact Hentry]. }
  intros sampler s2 shown.
  assert (Hc : c ∈ keys CHANNEL_TO_IP).
  { apply list_elem_of_fmap. exists (c, ip_addr). split; [reflexivity | exact Hentry]. }
  destruct (run_published sampler probes s1) as (Hp & _ & Hq2 & Hh2 & _ & _).
  fold s2 in Hp, Hq2, Hh2. cbn [_result_queue sampler new_thread] in Hp.
  set (new := published sampler (clock s0) probes) in *.
  assert (Hnew : Forall (fun p => channel p = c) new)
    by exact (published_channel sampler (clock s0) probes).
  assert (Hlen : (length new <= Z.to_nat (MAX_QUEUE_SIZE + 1))%nat).
  { pose proof (published_length sampler probes s1) as [Hle _].
    rewrite Hclock in Hle. fold new in Hle. lia. }
  assert (Hpending : pending q s2 = new).
  { rewrite Hp, Hclock. fold new.
    replace (pending q s1) with (@nil Packet)
      by (unfold pending; rewrite Hqs, lookup_insert_eq; reflexivity).
    unfold trimmed. destruct new as [| p l] eqn:Hnew'; [reflexivity |].
    rewrite app_nil_l. apply last_n_all. exact Hlen. }
  assert (Hd0 : channel_ping_history s2 !! c = Some (deque_new 150)).
  { rewrite Hh2, Hwin. destruct (decide (c ∈ keys CHANNEL_TO_IP));
      [reflexivity | contradiction]. }
  destruct (handle_ping_graph_command_spec s2 q c (deque_new 150))
    as (s3 & Hcmd & _ & _).
  - rewrite Hq2. exact Hq.
  - exact Hd0.
  - cbn. lia.
  - rewrite Hpending. eapply Forall_impl; [exact Hnew |].
    intros p Hpc. unfold known_channel. rewrite Hpc, Hd0. eexists. reflexivity.
  - rewrite Hcmd. cbn [fst]. rewrite Hpending.
    cbn [items maxlen deque_new app]. rewrite (of_channel_all c new Hnew).
    reflexivity.
Qed.

Lemma samples_reach_the_graph_witness :
  exists q s1,
    monitoring_commands.initialize_monitoring empty_state = (Ok tt, s1)
    /\ new_thread q 7 "54.68.160.34" ∈ ping_checking_threads s1
    /\ let sampler := new_thread q 7 "54.68.160.34" in
       let s2 := snd (run sampler [connected_probe] s1) in
       let shown :=
         filter (fun p => success p)
           (last_n 150 (published sampler (clock empty_state) [connected_probe])) in
       fst (monitoring_commands.handle_ping_graph_command 7 s2)
       = Ok (match shown with
             | [] => monitoring_commands.NoPingData 7
             | _ :: _ =>
                 monitoring_commands.Graph 7 (map time shown) (map ping shown)
             end).
Proof.
  apply (samples_reach_the_graph empty_state 7 "54.68.160.34" [connected_probe]).
  - by_compute.
  - vm_compute. lia.
Defined.

(** ** The two alert checks *)

Lemma update_average_history (select : deque -> list Z) (c : Z) (s : state) :
  channel_ping_history (snd (update_average select c s)) = channel_ping_history s.
Proof.
  unfold update_average, bind, get_state.
  destruct (channel_ping_history s !! c) as [d |]; [| reflexivity].
  destruct (length (select d) =? 0)%nat; [reflexivity |].
  unfold lift. destruct (mean_and_stdev (select d)); reflexivity.
Qed.

Lemma update_averages_ext
  (select1 select2 : deque -> list Z) (channels : list Z) (s : state) :
  (forall c d, channel_ping_history s !! c = Some d -> select1 d = select2 d) ->
  for_each channels (update_average select1) s
  = for_each channels (update_average select2) s.
Proof.
  revert s. induction channels as [| c channels IH]; intros s Hext; [reflexivity |].
  cbn [for_each]. unfold bind.
  assert (Hc : update_average select1 c s = update_average select2 c s).
  { unfold update_average, bind, get_state.
    destruct (channel_ping_history s !! c) as [d |] eqn:Hd; [| reflexivity].
    rewrite (Hext c d Hd). reflexivity. }
  rewrite Hc.
  pose proof (update_average_history select2 c s) as Hh.
  destruct (update_average select2 c s) as [[[] | e] s1]; [| reflexivity].
  cbn [snd] in Hh. apply IH. rewrite Hh. exact Hext.
Qed.

Lemma drain_packets_Forall (P : Packet -> Prop) (q : qref) (l : list Packet)
  (s : state) :
  (forall c d, channel_ping_history s !! c = Some d -> Forall P (items d)) ->
  Forall P l ->
  forall c d,
    channel_ping_history (snd (drain_packets q l s)) !! c = Some d ->
    Forall P (items d).
Proof.
  revert s. induction l as [| p l IH]; intros s Hwin Hl; [exact Hwin |].
  apply Forall_cons in Hl as [Hp Hl].
  cbn [drain_packets]. unfold bind at 1, modify at 1.
  unfold bind at 1, history_append at 1. cbn [channel_ping_history set_queues].
  destruct (channel_ping_history s !! channel p) as [d0 |] eqn:Hd0;
    [| exact Hwin].
  apply IH; [| exact Hl].
  intros c d. cbn [channel_ping_history set_history set_queues].
  destruct (decide (channel p = c)) as [<- | Hne].
  - rewrite lookup_insert_eq. intros [= <-].
    apply deque_append_Forall; [apply (Hwin _ _ Hd0) | exact Hp].
  - rewrite lookup_insert_ne by exact Hne. apply Hwin.
Qed.

Lemma all_pings_successful (d : deque) :
  Forall (fun p => success p = true) (items d) ->
  all_pings d = successful_pings d.
Proof.
  unfold all_pings, successful_pings. intros Hall. f_equal.
  induction (items d) as [| p l IH]; [reflexivity |].
  apply Forall_cons in Hall as [Hp Hall].
  rewrite filter_cons_True by (rewrite Hp; exact I).
  f_equal. apply IH. exact Hall.
Qed.

(** X13.  As long as no probe failed, the alert check of [TaskManager]
    and the alert check of the module go the same way: on windows and
    pending packets that are all successful samples they leave the same
    state, and [TaskManager] sends the notification exactly when the
    module does; where the module raises, [TaskManager] logs the
    exception and sends nothing. *)
Theorem alert_checks_agree_without_failures (s : state) :
  map_Forall (fun _ d => Forall (fun p => success p = true) (items d))
    (channel_ping_history s) ->
  Forall (fun p => success p = true) (to_process s) ->
  TaskManager.check_ping_and_notify s
  = match monitoring_commands.check_ping_and_notify s with
    | (Ok notify, s') => (Ok notify, s')
    | (Raise _, s') => (Ok false, s')
    end.
Proof.
  intros Hwin Hpend.
  unfold TaskManager.check_ping_and_notify,
    monitoring_commands.check_ping_and_notify, bind at 1 3, get_state.
  unfold to_process in Hpend.
  destruct (queue s) as [q |]; [| reflexivity].
  unfold bind at 1 2.
  pose proof (drain_packets_Forall _ q (pending q s) s Hwin Hpend) as Hafter.
  change (drain_packets q (pending q s) s) with (drain q s) in Hafter.
  destruct (drain q s) as [[[] | e] s1]; [| reflexivity].
  cbn [snd] in Hafter.
  unfold update_averages.
  rewrite (update_averages_ext all_pings successful_pings _ s1)
    by (intros c d Hd; apply all_pings_successful; exact (Hafter c d Hd)).
  unfold bind.
  destruct (for_each (keys CHANNEL_TO_IP) (update_average successful_pings) s1)
    as [[[] | e] s2]; reflexivity.
Qed.

Lemma alert_checks_agree_without_failures_witness :
  TaskManager.check_ping_and_notify (monitoring two_pings [])
  = match monitoring_commands.check_ping_and_notify (monitoring two_pings []) with
    | (Ok notify, s') => (Ok notify, s')
    | (Raise _, s') => (Ok false, s')
    end.
Proof.
  apply (alert_checks_agree_without_failures (monitoring two_pings [])).
  - by_compute.
  - by_compute.
Defined.

(** ** A [TaskManager] without a queue *)

Lemma task_manager_init_state (channels : list Z) (s : state) :
  for_each channels (fun channel =>
    modify (fun s =>
      set_history (<[channel := deque_new 150]> (channel_ping_history s)) s))
    s
  = (Ok tt, set_history (fresh_windows channels (channel_ping_history s)) s).
Proof.
  revert s. induction channels as [| c channels IH]; intros s.
  - cbn. destruct s; reflexivity.
  - cbn [for_each]. unfold bind at 1, modify at 1. rewrite IH. reflexivity.
Qed.

(** X14.  [TaskManager.__init__] leaves no queue, no thread and no stored
    statistic, and an empty window of 150 packets for exactly the
    channels of the table.  Until [initialize_ping_monitoring] gives the
    manager a queue, its alert check sends nothing and its sweep starts
    nothing: both return at once and change nothing. *)
Theorem task_manager_without_queue_is_idle (s0 : state) :
  exists s,
    TaskManager.__init__ s0 = (Ok tt, s)
    /\ queue s = None
    /\ ping_checking_threads s = []
    /\ channel_ping_averages s = []
    /\ (forall c,
          channel_ping_history s !! c
          = if decide (c ∈ keys CHANNEL_TO_IP) then Some (deque_new 150)
            else None)
    /\ TaskManager.check_ping_and_notify s = (Ok false, s)
    /\ TaskManager.check_threads_and_restart s = (Ok tt, s).
Proof.
  set (sa := set_queue None (set_averages [] (set_history ∅ (set_threads [] s0)))).
  exists (set_history (fresh_windows (keys CHANNEL_TO_IP) ∅) sa).
  split.
  { unfold TaskManager.__init__.
    unfold bind at 1, modify at 1. unfold bind at 1, modify at 1.
    unfold bind at 1, modify at 1. unfold bind at 1, modify at 1.
    rewrite task_manager_init_state. reflexivity. }
  split; [reflexivity |]. split; [reflexivity |]. split; [reflexivity |].
  split; [| split; reflexivity].
  intros c. cbn [channel_ping_history set_history].
  destruct (decide (c ∈ keys CHANNEL_TO_IP)) as [Hc | Hc].
  - apply fresh_windows_lookup. left. exact Hc.
  - rewrite (fresh_windows_lookup_other _ _ _ Hc). apply lookup_empty.
Qed.

(** ** The weeks of the reminder *)

Lemma next_weekday_midnight_days (date weekday_ : Z) :
  0 <= date ->
  date + 7 * time_utils.MICROSECONDS_PER_DAY < time_utils.END_OF_TIME ->
  exists num_days,
    1 <= num_days <= 7
    /\ (date / time_utils.MICROSECONDS_PER_DAY + num_days) mod 7 = weekday_ mod 7
    /\ time_utils.get_next_weekday_midnight date weekday_
       = Ok ((date / time_utils.MICROSECONDS_PER_DAY + num_days)
             * time_utils.MICROSECONDS_PER_DAY).
Proof.
  intros Hlo Hhi.
  unfold time_utils.get_next_weekday_midnight, time_utils.weekday.
  set (D := time_utils.MICROSECONDS_PER_DAY) in *.
  assert (HD : D = 86400000000) by reflexivity.
  set (d := date / D).
  set (k := (weekday_ - d mod 7) mod 7).
  exists (if k =? 0 then 7 else k).
  assert (Hk : 0 <= k < 7) by (apply Z.mod_pos_bound; lia).
  assert (Hmod : (d + (if k =? 0 then 7 else k)) mod 7 = weekday_ mod 7).
  { destruct (Z.eqb_spec k 0) as [H0 | Hn0].
    - replace (d + 7) with (d + 1 * 7) by lia. rewrite Z.mod_add by lia.
      subst k. apply Z.mod_divide in H0; [| lia].
      destruct H0 as [c Hc].
      replace (weekday_) with (d mod 7 + c * 7) by lia.
      rewrite Z.mod_add by lia. rewrite Z.mod_mod by lia. reflexivity.
    - subst k. rewrite Zplus_mod_idemp_r.
      replace (d + (weekday_ - d mod 7)) with (weekday_ + (d - d mod 7)) by lia.
      rewrite (Z.div_mod d 7) at 1 by lia.
      replace (weekday_ + (7 * (d / 7) + d mod 7 - d mod 7))
        with (weekday_ + (d / 7) * 7) by lia.
      apply Z.mod_add. lia. }
  split; [destruct (Z.eqb_spec k 0); lia |].
  split; [exact Hmod |].
  assert (Hdate : date = D * d + date mod D) by (apply Z.div_mod; lia).
  assert (Hu : 0 <= date mod D < D) by (apply Z.mod_pos_bound; lia).
  set (n := if k =? 0 then 7 else k) in *.
  assert (Hn : 1 <= n <= 7) by (subst n; destruct (Z.eqb_spec k 0); lia).
  unfold time_utils.add_days. fold D.
  destruct (Z.leb_spec 0 (date + n * D)) as [_ | Hneg]; [| nia].
  destruct (Z.ltb_spec (date + n * D) time_utils.END_OF_TIME) as [_ | Hover];
    [| nia].
  cbn [andb]. unfold time_utils.midnight. fold D. f_equal.
  replace (date + n * D) with (date mod D + (d + n) * D) by lia.
  rewrite Z.mod_add by lia. rewrite Z.mod_mod by lia. lia.
Qed.

Lemma weekday_of_midnight (m : Z) :
  time_utils.weekday (m * time_utils.MICROSECONDS_PER_DAY) = m mod 7
  /\ (m * time_utils.MICROSECONDS_PER_DAY) mod time_utils.MICROSECONDS_PER_DAY = 0.
Proof.
  unfold time_utils.weekday.
  assert (HD : time_utils.MICROSECONDS_PER_DAY <> 0) by discriminate.
  rewrite Z.div_mul, Z.mod_mul by exact HD. split; reflexivity.
Qed.

Lemma same_day_of_week (a b : Z) :
  a mod 7 = b mod 7 -> -7 < a - b < 7 -> a = b.
Proof.
  intros Hmod Hnear.
  pose proof (Z.div_mod a 7 ltac:(lia)) as Ha.
  pose proof (Z.div_mod b 7 ltac:(lia)) as Hb.
  lia.
Qed.

(** X15.  For a date from which a week can still be counted,
    [get_next_weekday_midnight] returns the first midnight after the date
    that begins a day of the requested weekday: it is later than the
    date, by a week at most, and by a full week when the date is itself
    such a midnight.  [get_seconds_until_reminder] returns the seconds
    from now to that midnight for Wednesday, so that the reminder task
    sleeps for more than no time and for a week at most. *)
Theorem next_weekday_midnight_is_the_next (date weekday_ : Z) :
  0 <= date ->
  date + 7 * time_utils.MICROSECONDS_PER_DAY < time_utils.END_OF_TIME ->
  exists next,
    time_utils.get_next_weekday_midnight date weekday_ = Ok next
    /\ date < next <= date + 7 * time_utils.MICROSECONDS_PER_DAY
    /\ next mod time_utils.MICROSECONDS_PER_DAY = 0
    /\ time_utils.weekday next = weekday_ mod 7
    /\ (forall t,
          date < t < next ->
          t mod time_utils.MICROSECONDS_PER_DAY = 0 ->
          time_utils.weekday t <> weekday_ mod 7)
    /\ (date mod time_utils.MICROSECONDS_PER_DAY = 0 ->
        time_utils.weekday date = weekday_ mod 7 ->
        next = date + 7 * time_utils.MICROSECONDS_PER_DAY)
    /\ (weekday_ = 2 ->
        time_utils.get_seconds_until_reminder date
        = Ok (PyNum.int_truediv (next - date) (10 ^ 6))).
Proof.
  intros Hlo Hhi.
  destruct (next_weekday_midnight_days date weekday_ Hlo Hhi)
    as (n & Hn & Hmod & Hrun).
  set (D := time_utils.MICROSECONDS_PER_DAY) in *.
  assert (HD : D = 86400000000) by reflexivity.
  set (d := date / D) in *.
  assert (Hdate : date = D * d + date mod D) by (apply Z.div_mod; lia).
  assert (Hu : 0 <= date mod D < D) by (apply Z.mod_pos_bound; lia).
  destruct (weekday_of_midnight (d + n)) as [Hwd Hmid]. fold D in Hwd, Hmid.
  exists ((d + n) * D).
  split; [exact Hrun |].
  split; [nia |].
  split; [exact Hmid |].
  split; [rewrite Hwd; exact Hmod |].
  split.
  { intros t Ht Htmid Hday.
    assert (Htd : t = D * (t / D) + t mod D) by (apply Z.div_mod; lia).
    rewrite Htmid in Htd. unfold time_utils.weekday in Hday. fold D in Hday.
    assert (Heq : t / D = d + n)
      by (apply same_day_of_week; [congruence | nia]).
    nia. }
  split.
  { intros Hdmid Hday. unfold time_utils.weekday in Hday. fold D d in Hday.
    assert (Hn7 : d + n = d + 7).
    { apply same_day_of_week; [| lia].
      replace (d + 7) with (d + 1 * 7) by lia. rewrite Z.mod_add by lia.
      congruence. }
    nia. }
  intros ->. unfold time_utils.get_seconds_until_reminder.
  rewrite Hrun. reflexivity.
Qed.

Lemma next_weekday_midnight_is_the_next_witness :
  exists next,
    time_utils.get_next_weekday_midnight wednesday_noon 2 = Ok next
    /\ wednesday_noon < next
       <= wednesday_noon + 7 * time_utils.MICROSECONDS_PER_DAY
    /\ next mod time_utils.MICROSECONDS_PER_DAY = 0
    /\ time_utils.weekday next = 2 mod 7
    /\ (forall t,
          wednesday_noon < t < next ->
          t mod time_utils.MICROSECONDS_PER_DAY = 0 ->
          time_utils.weekday t <> 2 mod 7)
    /\ (wednesday_noon mod time_utils.MICROSECONDS_PER_DAY = 0 ->
        time_utils.weekday wednesday_noon = 2 mod 7 ->
        next = wednesday_noon + 7 * time_utils.MICROSECONDS_PER_DAY)
    /\ (2 = 2 ->
        time_utils.get_seconds_until_reminder wednesday_noon
        = Ok (PyNum.int_truediv (next - wednesday_noon) (10 ^ 6))).
Proof.
  apply (next_weekday_midnight_is_the_next wednesday_noon 2).
  - vm_compute. discriminate.
  - vm_compute. reflexivity.
Defined.

(** X16.  The week of a moment runs from a Thursday midnight to the next:
    [get_current_datetime] returns the midnight that ends the week,
    [get_week_ago(1)] the midnight that begins it, seven days earlier and
    not after the moment, and [get_current_datetime] returns the same
    midnight at every moment of the week. *)
Theorem current_week_is_constant (now : Z) :
  7 * time_utils.MICROSECONDS_PER_DAY <= now ->
  now + 14 * time_utils.MICROSECONDS_PER_DAY < time_utils.END_OF_TIME ->
  exists current last,
    time_utils.get_current_datetime now = Ok current
    /\ time_utils.get_week_ago now 1 = Ok last
    /\ current = last + 7 * time_utils.MICROSECONDS_PER_DAY
    /\ last <= now < current
    /\ time_utils.weekday current = 3
    /\ current mod time_utils.MICROSECONDS_PER_DAY = 0
    /\ (forall t,
          last <= t < current -> time_utils.get_current_datetime t = Ok current).
Proof.
  intros Hlo Hhi.
  set (D := time_utils.MICROSECONDS_PER_DAY) in *.
  assert (HD : D = 86400000000) by reflexivity.
  assert (HE : time_utils.END_OF_TIME = 3652059 * D) by reflexivity.
  destruct (next_weekday_midnight_days now 3 ltac:(lia) ltac:(lia))
    as (n & Hn & Hmod & Hrun).
  fold D in Hmod, Hrun. set (d := now / D) in *.
  assert (Hnow : now = D * d + now mod D) by (apply Z.div_mod; lia).
  assert (Hu : 0 <= now mod D < D) by (apply Z.mod_pos_bound; lia).
  destruct (weekday_of_midnight (d + n)) as [Hwd Hmid]. fold D in Hwd, Hmid.
  exists ((d + n) * D), ((d + n) * D - 7 * D).
  split; [exact Hrun |].
  split.
  { unfold time_utils.get_week_ago, time_utils.get_current_datetime.
    rewrite Hrun.
    change (time_utils.timedelta_days (7 * 1)) with (@Ok Z 7).
    unfold time_utils.add_days. fold D.
    replace ((d + n) * D + - (7) * D) with ((d + n) * D - 7 * D) by lia.
    destruct (Z.leb_spec 0 ((d + n) * D - 7 * D)) as [_ | Hneg]; [| nia].
    destruct (Z.ltb_spec ((d + n) * D - 7 * D) time_utils.END_OF_TIME)
      as [_ | Hover]; [| nia].
    reflexivity. }
  split; [lia |]. split; [nia |].
  split; [rewrite Hwd, Hmod; reflexivity |].
  split; [exact Hmid |].
  intros t Ht.
  destruct (next_weekday_midnight_days t 3 ltac:(nia) ltac:(nia))
    as (nt & Hnt & Hmodt & Hrunt).
  fold D in Hmodt, Hrunt.
  unfold time_utils.get_current_datetime. rewrite Hrunt. do 2 f_equal.
  assert (Htd : t = D * (t / D) + t mod D) by (apply Z.div_mod; lia).
  assert (Htu : 0 <= t mod D < D) by (apply Z.mod_pos_bound; lia).
  apply same_day_of_week; [congruence | nia].
Qed.

Lemma current_week_is_constant_witness :
  exists current last,
    time_utils.get_current_datetime wednesday_noon = Ok current
    /\ time_utils.get_week_ago wednesday_noon 1 = Ok last
    /\ current = last + 7 * time_utils.MICROSECONDS_PER_DAY
    /\ last <= wednesday_noon < current
    /\ time_utils.weekday current = 3
    /\ current mod time_utils.MICROSECONDS_PER_DAY = 0
    /\ (forall t,
          last <= t < current -> time_utils.get_current_datetime t = Ok current).
Proof.
  apply (current_week_is_constant wednesday_noon).
  - vm_compute. discriminate.
  - vm_compute. reflexivity.
Defined.

(** ** Batches *)

Lemma slice_forward {A} (data : list A) (start stop : Z) :
  0 <= start <= stop ->
  legacy_utils.slice data start stop
  = take (Z.to_nat (stop - start)) (drop (Z.to_nat start) data).
Proof.
  intros Hle. unfold legacy_utils.slice, legacy_utils.slice_index.
  set (n := Z.of_nat (length data)).
  destruct (Z.ltb_spec start 0) as [Hneg | _]; [lia |].
  destruct (Z.ltb_spec stop 0) as [Hneg | _]; [lia |].
  destruct (Z.le_gt_cases n start) as [Hout | Hin].
  - rewrite !drop_ge by lia. rewrite !take_nil. reflexivity.
  - rewrite (Z.min_l start n) by lia.
    destruct (Z.le_gt_cases n stop) as [Hstop | Hstop].
    + rewrite (Z.min_r stop n) by lia.
      rewrite !take_ge; [reflexivity | |]; rewrite length_drop; lia.
    + rewrite (Z.min_l stop n) by lia. reflexivity.
Qed.

Lemma chunks_concat {A} (data : list A) (b k : nat) :
  concat (map (fun i => take b (drop (i * b) data)) (seq 0 k))
  = take (k * b) data.
Proof.
  induction k as [| k IH]; [reflexivity |].
  rewrite seq_S, map_app, concat_app, IH. cbn [map concat plus].
  rewrite app_nil_r, take_take_drop. f_equal. lia.
Qed.

Lemma batch_list_chunks {A} (data : list A) (batch_size : Z) :
  0 < batch_size ->
  legacy_utils.batch_list data batch_size
  = Some (map (fun i => take (Z.to_nat batch_size)
                          (drop (i * Z.to_nat batch_size) data))
            (seq 0 (Z.to_nat ((Z.of_nat (length data) + batch_size - 1)
                              / batch_size)))).
Proof.
  intros Hpos. unfold legacy_utils.batch_list.
  destruct (Z.eqb_spec batch_size 0) as [H0 | _]; [lia |].
  f_equal. unfold seqZ. rewrite <- list_fmap_compose.
  apply map_ext. intros i. unfold compose.
  rewrite slice_forward by nia.
  f_equal; [lia |]. f_equal. nia.
Qed.

(** X17.  For a positive batch size, [batch_list] cuts the list into
    consecutive batches: put end to end in their order, the batches give
    the list back; no batch is empty and none holds more than
    [batch_size] elements; every batch but the last holds exactly
    [batch_size]; and their number is the length of the list divided by
    [batch_size], rounded up. *)
Theorem batch_list_partitions {A} (data : list A) (batch_size : Z) :
  0 < batch_size ->
  exists batches,
    legacy_utils.batch_list data batch_size = Some batches
    /\ concat batches = data
    /\ Z.of_nat (length batches)
       = (Z.of_nat (length data) + batch_size - 1) / batch_size
    /\ Forall (fun batch => 0 < Z.of_nat (length batch) <= batch_size) batches
    /\ (forall i batch,
          batches !! i = Some batch ->
          (S i < length batches)%nat ->
          Z.of_nat (length batch) = batch_size).
Proof.
  intros Hpos.
  set (n := length data).
  set (K := (Z.of_nat n + batch_size - 1) / batch_size).
  set (b := Z.to_nat batch_size).
  assert (HK : K * batch_size <= Z.of_nat n + batch_size - 1
               < (K + 1) * batch_size).
  { subst K. pose proof (Z.div_mod (Z.of_nat n + batch_size - 1) batch_size
                           ltac:(lia)) as Hdm.
    pose proof (Z.mod_pos_bound (Z.of_nat n + batch_size - 1) batch_size Hpos).
    nia. }
  assert (HK0 : 0 <= K) by nia.
  assert (Hcover : (n <= Z.to_nat K * b)%nat) by nia.
  assert (Hlast : forall i, (i < Z.to_nat K)%nat -> (i * b < n)%nat) by nia.
  eexists. split; [apply batch_list_chunks; exact Hpos |].
  fold n K b.
  split; [rewrite chunks_concat; apply take_ge; exact Hcover |].
  split; [rewrite length_map, length_seq; lia |].
  split.
  - apply Forall_forall. intros batch Hin.
    apply list_elem_of_fmap in Hin as (i & -> & Hi).
    apply elem_of_seq in Hi. rewrite length_take, length_drop.
    specialize (Hlast i ltac:(lia)). fold n. lia.
  - intros i batch Hi Hnext.
    rewrite length_map, length_seq in Hnext.
    rewrite list_lookup_fmap in Hi.
    rewrite lookup_seq_lt in Hi by lia. cbn in Hi. injection Hi as <-.
    rewrite length_take, length_drop. fold n.
    specialize (Hlast (S i) Hnext). nia.
Qed.

Lemma batch_list_partitions_witness :
  exists batches,
    legacy_utils.batch_list [1; 2; 3; 4; 5; 6; 7] 3 = Some batches
    /\ concat batches = [1; 2; 3; 4; 5; 6; 7]
    /\ Z.of_nat (length batches)
       = (Z.of_nat (length [1; 2; 3; 4; 5; 6; 7]) + 3 - 1) / 3
    /\ Forall (fun batch => 0 < Z.of_nat (length batch) <= 3) batches
    /\ (forall i batch,
          batches !! i = Some batch ->
          (S i < length batches)%nat ->
          Z.of_nat (length batch) = 3).
Proof.
  apply (batch_list_partitions [1; 2; 3; 4; 5; 6; 7] 3). lia.
Defined.

(** ** The reminder *)

Lemma add_not_nil (x : string) (set : list string) : reminder.add x set <> [].
Proof.
  unfold reminder.add. destruct (existsb (String.eqb x) set) eqn:Hin.
  - intros ->. discriminate Hin.
  - destruct set; discriminate.
Qed.

Lemma missing_users_not_nil (rows : list (reminder.Player * option Z))
  (set : list string) :
  set <> [] -> reminder.missing_users rows set <> [].
Proof.
  revert set. induction rows as [| [player score] rows IH]; intros set Hset;
    [exact Hset |].
  cbn [reminder.missing_users].
  destruct (reminder.no_score score); [| apply IH; exact Hset].
  destruct (reminder.discord_id player) as [id |]; [| apply IH; exact Hset].
  destruct (String.eqb id ""); apply IH; [exact Hset | apply add_not_nil].
Qed.

Lemma missing_users_nil (rows : list (reminder.Player * option Z)) :
  reminder.missing_users rows [] = []
  <-> Forall (fun row => is_missing row = false) rows.
Proof.
  induction rows as [| [player score] rows IH].
  - split; [constructor | reflexivity].
  - cbn [reminder.missing_users]. rewrite Forall_cons.
    unfold is_missing at 1. cbn [fst snd].
    destruct (reminder.no_score score); cbn [andb]; [| rewrite IH; tauto].
    destruct (reminder.discord_id player) as [id |]; [| rewrite IH; tauto].
    destruct (String.eqb id ""); cbn [negb]; [rewrite IH; tauto |].
    split; [| intros [Hfalse _]; discriminate Hfalse].
    intros Hnil. exfalso.
    exact (missing_users_not_nil rows _ (add_not_nil id []) Hnil).
Qed.

Lemma missing_or_not (rows : list (reminder.Player * option Z)) :
  Forall (fun row => is_missing row = false) rows
  \/ Exists (fun row => is_missing row = true) rows.
Proof.
  induction rows as [| row rows [IH | IH]].
  - left. constructor.
  - destruct (is_missing row) eqn:Hrow.
    + right. apply Exists_cons_hd. exact Hrow.
    + left. constructor; assumption.
  - right. apply Exists_cons_tl. exact IH.
Qed.

(** X18.  The reminder reaches nobody by name.  When no player with a
    Discord id lacks a score for the week, the one message sent is
    [Everyone has done GPQ this week?!].  In every other case the call
    ends in a [NameError] for [last_week_cells] before it has sent
    anything: the message [GPQ deadline is in 10 minutes!] with the
    mentions is never sent. *)
Theorem reminder_names_nobody
  (server_players_with_scores : list (reminder.Player * option Z))
  (mention : bool) :
  (Forall (fun row => is_missing row = false) server_players_with_scores
   /\ reminder._send_reminder server_players_with_scores mention
      = (["Everyone has done GPQ this week?!"%string], reminder.Returned))
  \/ (Exists (fun row => is_missing row = true) server_players_with_scores
      /\ reminder._send_reminder server_players_with_scores mention
         = ([], reminder.NameError "last_week_cells")).
Proof.
  unfold reminder._send_reminder.
  destruct (reminder.missing_users server_players_with_scores []) as [| x l]
    eqn:Hmissing.
  - left. split; [apply missing_users_nil; exact Hmissing | reflexivity].
  - right. split.
    + destruct (missing_or_not server_players_with_scores) as [Hall | Hex];
        [| exact Hex].
      apply missing_users_nil in Hall. rewrite Hall in Hmissing.
      discriminate Hmissing.
    + cbn [length Nat.eqb]. rewrite batch_list_chunks by lia. reflexivity.
Qed.

(** ** The sweep, its log and the replacement *)

Lemma spin_up_each_state (q : qref) (channels : list Z) (s : state) :
  fst (with_log.spin_up_each q channels s) = for_each channels (spin_up q) s.
Proof.
  revert s. induction channels as [| c channels IH]; intros s; [reflexivity |].
  cbn [with_log.spin_up_each for_each]. unfold bind.
  destruct (spin_up q c s) as [[[] | e] s1]; [| reflexivity].
  specialize (IH s1).
  destruct (with_log.spin_up_each q channels s1) as [outcome records].
  exact IH.
Qed.

Lemma sweep_with_log_state (s : state) :
  fst (with_log.check_threads_and_restart s)
  = monitoring_commands.check_threads_and_restart s
  /\ fst (with_log.TaskManager_check_threads_and_restart s)
     = TaskManager.check_threads_and_restart s.
Proof.
  unfold with_log.check_threads_and_restart,
    with_log.TaskManager_check_threads_and_restart,
    monitoring_commands.check_threads_and_restart,
    TaskManager.check_threads_and_restart.
  unfold bind, get_state.
  destruct (queue s) as [q |]; [| split; reflexivity].
  unfold try_except, with_log.restart_dead_threads, restart_dead_threads,
    bind, get_state, modify.
  set (s1 := set_threads _ s).
  pose proof (spin_up_each_state q
                (map _channel
                   (filter (fun t => negb (is_alive t)) (ping_checking_threads s)))
                s1) as Hstate.
  destruct (with_log.spin_up_each q _ s1) as [outcome records].
  cbn [fst] in *. rewrite <- Hstate.
  destruct outcome as [[[] | e] s2]; split; reflexivity.
Qed.

Lemma spin_up_each_records (q : qref) (channels : list Z) (s : state) (c : Z) :
  Forall (fun c => is_Some (dict_get c CHANNEL_TO_IP)) channels ->
  c ∈ channels ->
  {| with_log.asctime := clock s; with_log.level := with_log.INFO;
     with_log.message := with_log.Spinning_up_new_thread c |}
    ∈ snd (with_log.spin_up_each q channels s).
Proof.
  revert s. induction channels as [| c' channels IH]; intros s Hknown Hc.
  - apply elem_of_nil in Hc. contradiction.
  - apply Forall_cons in Hknown as [[ip Hip] Hknown].
    cbn [with_log.spin_up_each]. unfold spin_up at 1. rewrite Hip.
    unfold modify.
    match goal with |- context [with_log.spin_up_each q channels ?s1] =>
      specialize (IH s1 Hknown);
      destruct (with_log.spin_up_each q channels s1) as [outcome records]
    end.
    cbn [snd] in *. apply elem_of_cons in Hc as [-> | Hc].
    + left.
    + right. apply IH. exact Hc.
Qed.

Lemma last_last_n {A} (n : nat) (l : list A) :
  (0 < n)%nat -> last (last_n n l) = last l.
Proof.
  intros Hn. unfold last_n.
  destruct l as [| x l] using rev_ind; [reflexivity |].
  rewrite length_app. cbn [length].
  rewrite drop_app_le by lia. rewrite !last_snoc. reflexivity.
Qed.

Lemma published_answers (self : PingCheckingThread) (now : datetime)
  (probes : list probe) :
  forallb answers probes = true ->
  length (published self now probes) = length probes.
Proof.
  revert now. induction probes as [| pr probes IH]; intros now Hall; [reflexivity |].
  cbn [forallb] in Hall. apply andb_prop in Hall as [Hpr Hall].
  destruct (answers_measured pr Hpr) as (n & ok & Hm & _).
  cbn [published]. rewrite Hm. cbn [length]. rewrite IH by exact Hall.
  reflexivity.
Qed.

(** What the sweep leaves of the list, with its records. *)
Lemma sweep_with_log_spec (q : qref) (s : state) :
  queue s = Some q ->
  Forall known_thread (ping_checking_threads s) ->
  let dead := filter (fun t => negb (is_alive t)) (ping_checking_threads s) in
  let s' := set_threads
              (filter (fun t => running t) (ping_checking_threads s)
               ++ map (fun t => replacement q (ip_of t) t) dead) s in
  exists records,
    with_log.check_threads_and_restart s = ((Ok tt, s'), records)
    /\ with_log.TaskManager_check_threads_and_restart s = ((Ok tt, s'), records)
    /\ monitoring_commands.check_threads_and_restart s = (Ok tt, s')
    /\ TaskManager.check_threads_and_restart s = (Ok tt, s')
    /\ forall t, t ∈ dead ->
         {| with_log.asctime := clock s; with_log.level := with_log.INFO;
            with_log.message := with_log.Spinning_up_new_thread (_channel t) |}
           ∈ records.
Proof.
  intros Hq Hknown dead s'.
  pose proof (restart_dead_threads_spec q s Hknown) as Hrun. cbv zeta in Hrun.
  fold dead in Hrun. fold s' in Hrun.
  assert (Hmc : monitoring_commands.check_threads_and_restart s = (Ok tt, s')).
  { unfold monitoring_commands.check_threads_and_restart, bind, get_state.
    rewrite Hq. exact Hrun. }
  assert (Htm : TaskManager.check_threads_and_restart s = (Ok tt, s')).
  { unfold TaskManager.check_threads_and_restart, bind, get_state, try_except.
    rewrite Hq, Hrun. reflexivity. }
  destruct (sweep_with_log_state s) as [Hfst Hfst_tm].
  rewrite Hmc in Hfst. rewrite Htm in Hfst_tm.
  assert (Hrecords : forall t, t ∈ dead ->
            {| with_log.asctime := clock s; with_log.level := with_log.INFO;
               with_log.message := with_log.Spinning_up_new_thread (_channel t) |}
              ∈ snd (with_log.check_threads_and_restart s)).
  { intros t Ht. unfold with_log.check_threads_and_restart. rewrite Hq.
    unfold with_log.restart_dead_threads. fold dead.
    set (s1 := set_threads _ s).
    pose proof (spin_up_each_records q (map _channel dead) s1 (_channel t)) as Hrec.
    destruct (with_log.spin_up_each q (map _channel dead) s1) as [outcome records].
    cbn [snd] in *. apply elem_of_app. right. apply Hrec.
    - apply Forall_forall. intros c Hc.
      apply list_elem_of_fmap in Hc as (t0 & -> & Ht0).
      apply list_elem_of_filter in Ht0 as [_ Ht0].
      rewrite Forall_forall in Hknown. exact (Hknown t0 Ht0).
    - apply list_elem_of_fmap. exists t. split; [reflexivity | exact Ht]. }
  assert (Hsame : with_log.TaskManager_check_threads_and_restart s
                  = with_log.check_threads_and_restart s).
  { unfold with_log.TaskManager_check_threads_and_restart,
      with_log.check_threads_and_restart in *.
    rewrite Hq in *.
    destruct (with_log.restart_dead_threads q s) as [[[[] | e] s2] records];
      cbn [fst] in Hfst; [reflexivity | discriminate Hfst]. }
  destruct (with_log.check_threads_and_restart s) as [out records] eqn:Hlog.
  cbn [fst snd] in *. subst out.
  exists records. rewrite Hsame.
  split; [reflexivity |]. split; [reflexivity |].
  split; [exact Hmc |]. split; [exact Htm | exact Hrecords].
Qed.

(** C9.  One sweep, of the module or of [TaskManager]: a thread that is
    dead leaves the list; a new, running thread for the same channel, with
    the address of the table and the default port, is started on the same
    queue; the time of the restart is recorded, in the record
    [Spinning up new thread for channel ...] of the log; the running
    threads stay and nothing but the list changes.  The replacement then
    publishes into the same queue: each of its turns puts a packet of the
    channel there, and it lives on. *)
Theorem sweep_restarts_dead_samplers
  (s : state) (q : qref) (t : PingCheckingThread) (probes : list probe) :
  queue s = Some q ->
  Forall known_thread (ping_checking_threads s) ->
  t ∈ ping_checking_threads s ->
  is_alive t = false ->
  forallb answers probes = true ->
  probes <> [] ->
  exists s' ip_addr records,
    with_log.check_threads_and_restart s = ((Ok tt, s'), records)
    /\ with_log.TaskManager_check_threads_and_restart s = ((Ok tt, s'), records)
    /\ monitoring_commands.check_threads_and_restart s = (Ok tt, s')
    /\ TaskManager.check_threads_and_restart s = (Ok tt, s')
    /\ (t ∉ ping_checking_threads s')
    /\ Forall (fun t' => is_alive t' = true) (ping_checking_threads s')
    /\ dict_get (_channel t) CHANNEL_TO_IP = Some ip_addr
    /\ (forall t', t' ∈ ping_checking_threads s -> running t' = true ->
        t' ∈ ping_checking_threads s')
    /\ s' = set_threads (ping_checking_threads s') s
    /\ ({| with_log.asctime := clock s; with_log.level := with_log.INFO;
           with_log.message := with_log.Spinning_up_new_thread (_channel t) |}
          ∈ records)
    /\ let new_sampler :=
         {| _result_queue := q; _ip_addr := ip_addr; _port := DEFAULT_PORT;
            _channel := _channel t; _handled := false; is_alive := true |} in
       let after := run new_sampler probes s' in
       let new := published new_sampler (clock s) probes in
       (new_sampler ∈ ping_checking_threads s')
       /\ fst after = new_sampler
       /\ pending q (snd after)
          = last_n (Z.to_nat (MAX_QUEUE_SIZE + 1)) (pending q s ++ new)
       /\ length new = length probes
       /\ Forall (fun p => channel p = _channel t) new
       /\ exists p, last (pending q (snd after)) = Some p
                    /\ channel p = _channel t.
Proof.
  intros Hq Hknown Ht Hdead Hanswers Hsome.
  destruct (sweep_with_log_spec q s Hq Hknown)
    as (records & Hlog & Hlog_tm & Hmc & Htm & Hrecords).
  assert (Hip : known_thread t)
    by (rewrite Forall_forall in Hknown; apply Hknown; exact Ht).
  destruct Hip as [ip Hip].
  assert (Htdead : t ∈ filter (fun t => negb (is_alive t)) (ping_checking_threads s)).
  { apply list_elem_of_filter. split; [rewrite Hdead; exact I | exact Ht]. }
  eexists _, ip, records.
  split; [exact Hlog |]. split; [exact Hlog_tm |].
  split; [exact Hmc |]. split; [exact Htm |].
  split.
  { cbn [ping_checking_threads set_threads].
    intros Hin. apply elem_of_app in Hin as [Hin | Hin].
    + apply list_elem_of_filter in Hin as [Hrunning _].
      unfold running in Hrunning. rewrite Hdead in Hrunning. exact Hrunning.
    + apply list_elem_of_fmap in Hin as (t0 & Ht0 & _).
      rewrite Ht0 in Hdead. discriminate Hdead. }
  split.
  { cbn [ping_checking_threads set_threads].
    apply Forall_app. split.
    + apply Forall_forall. intros t' Hin.
      apply list_elem_of_filter in Hin as [Hrunning _].
      unfold running in Hrunning. destruct (is_alive t'); [reflexivity | contradiction].
    + apply Forall_forall. intros t' Hin.
      apply list_elem_of_fmap in Hin as (t0 & -> & _). reflexivity. }
  split; [exact Hip |].
  split.
  { intros t' Hin Hrunning. cbn [ping_checking_threads set_threads].
    apply elem_of_app. left. apply list_elem_of_filter. split; [| exact Hin].
    rewrite Hrunning. exact I. }
  split; [reflexivity |].
  split; [apply Hrecords; exact Htdead |].
  intros new_sampler after new.
  set (s' := set_threads _ s) in *.
  assert (Hlen : length new = length probes)
    by (apply published_answers; exact Hanswers).
  assert (Hchannel : Forall (fun p => channel p = _channel t) new)
    by exact (published_channel new_sampler (clock s) probes).
  destruct (run_published new_sampler probes s') as (Hp & _).
  change (clock s') with (clock s) in Hp. fold new after in Hp.
  change (_result_queue new_sampler) with q in Hp.
  change (pending q s') with (pending q s) in Hp.
  assert (Hnew : new <> []).
  { intros Hnil. rewrite Hnil in Hlen. destruct probes; [congruence | discriminate]. }
  assert (Hpending : pending q (snd after)
                     = last_n (Z.to_nat (MAX_QUEUE_SIZE + 1)) (pending q s ++ new)).
  { rewrite Hp. unfold trimmed. destruct new; [congruence | reflexivity]. }
  split.
  { cbn [ping_checking_threads set_threads s'].
    apply elem_of_app. right.
    apply list_elem_of_fmap. exists t. split; [| exact Htdead].
    unfold replacement, new_thread, ip_of. rewrite Hip. reflexivity. }
  split; [apply run_answers; exact Hanswers |].
  split; [exact Hpending |]. split; [exact Hlen |]. split; [exact Hchannel |].
  rewrite Hpending, last_last_n by (unfold MAX_QUEUE_SIZE; lia).
  destruct new as [| p0 new0] using rev_ind; [congruence |].
  exists p0. rewrite app_assoc, last_snoc. split; [reflexivity |].
  apply Forall_app in Hchannel as [_ Hp0].
  apply Forall_cons in Hp0 as [Hp0 _]. exact Hp0.
Qed.

Lemma sweep_restarts_dead_samplers_witness :
  exists s' ip_addr records,
    with_log.check_threads_and_restart (one_dead_thread 1000)
      = ((Ok tt, s'), records)
    /\ with_log.TaskManager_check_threads_and_restart (one_dead_thread 1000)
       = ((Ok tt, s'), records)
    /\ monitoring_commands.check_threads_and_restart (one_dead_thread 1000)
       = (Ok tt, s')
    /\ TaskManager.check_threads_and_restart (one_dead_thread 1000) = (Ok tt, s')
    /\ (set_alive false sampler_7 ∉ ping_checking_threads s')
    /\ Forall (fun t' => is_alive t' = true) (ping_checking_threads s')
    /\ dict_get (_channel (set_alive false sampler_7)) CHANNEL_TO_IP = Some ip_addr
    /\ (forall t', t' ∈ ping_checking_threads (one_dead_thread 1000) ->
        running t' = true -> t' ∈ ping_checking_threads s')
    /\ s' = set_threads (ping_checking_threads s') (one_dead_thread 1000)
    /\ ({| with_log.asctime := clock (one_dead_thread 1000);
           with_log.level := with_log.INFO;
           with_log.message :=
             with_log.Spinning_up_new_thread (_channel (set_alive false sampler_7)) |}
          ∈ records)
    /\ let new_sampler :=
         {| _result_queue := 0%nat; _ip_addr := ip_addr; _port := DEFAULT_PORT;
            _channel := _channel (set_alive false sampler_7);
            _handled := false; is_alive := true |} in
       let after := run new_sampler [connected_probe; connected_probe] s' in
       let new := published new_sampler (clock (one_dead_thread 1000))
                    [connected_probe; connected_probe] in
       (new_sampler ∈ ping_checking_threads s')
       /\ fst after = new_sampler
       /\ pending 0%nat (snd after)
          = last_n (Z.to_nat (MAX_QUEUE_SIZE + 1))
              (pending 0%nat (one_dead_thread 1000) ++ new)
       /\ length new = length [connected_probe; connected_probe]
       /\ Forall (fun p => channel p = _channel (set_alive false sampler_7)) new
       /\ exists p, last (pending 0%nat (snd after)) = Some p
                    /\ channel p = _channel (set_alive false sampler_7).
Proof.
  apply (sweep_restarts_dead_samplers (one_dead_thread 1000) 0%nat
           (set_alive false sampler_7) [connected_probe; connected_probe]).
  - reflexivity.
  - repeat constructor; eexists; reflexivity.
  - constructor.
  - reflexivity.
  - vm_compute. reflexivity.
  - discriminate.
Defined.
